(** * Huobi USDT swap (cross margined) REST client: request signing and dispatch

    A shallow embedding of [alpha/platforms/huobi_usdt_swap_cross_api.py]
    (class [HuobiUsdtSwapCrossRestAPI]) together with the properties of its
    signer, its request dispatcher and its endpoint methods.

    Conventions of the embedding.
    - A Python [str] is a Rocq [string] holding the UTF-8 bytes of the text, so
      that [s.encode("utf8")] is the byte list of the string.  Every separator
      the code looks for is an ASCII character, hence a single byte.
    - A byte is a [Z] in [0, 256); a 32-bit word is a [Z] in [0, 2^32) and
      every addition is reduced modulo [2^32] explicitly.
    - A [dict] is an insertion-ordered association list with string keys; the
      dictionaries that [request] mutates live in a heap of objects addressed by
      references, so that aliasing with the caller is visible.
    - The library functions the module calls ([hashlib.sha256], [hmac],
      [base64.b64encode], [urllib.parse.urlencode], [urlparse(..).hostname])
      are written out, after CPython 3.11.  What they take from the tables of
      the Unicode standard and from [ipaddress] (case conversion outside ASCII,
      NFKC normalisation, the check of a bracketed host) is a field of a
      [library] record.
    - The collaborators that are not part of the module (the HTTP transport,
      the clock, [urljoin], which raises [ValueError] on a malformed base or
      path, [json.loads], [USER_AGENT]) are fields of a [world] record that
      every operation receives. *)

From Stdlib Require Import ZArith List Ascii String Bool Lia Permutation Sorted.
From Stdlib Require Import Decimal DecimalString DecimalZ DecimalPos.
From stdpp Require Import base option list gmap strings.

Local Open Scope Z_scope.
Local Open Scope string_scope.

(** ** Bytes and text *)

Abbreviation bytes := (list Z).

Definition byte_of_ascii (c : ascii) : Z := Z.of_N (N_of_ascii c).
Definition ascii_of_byte (b : Z) : ascii := ascii_of_N (Z.to_N b).

(** [s.encode("utf8")] *)
Definition encode_utf8 (s : string) : bytes :=
  map byte_of_ascii (list_ascii_of_string s).

(** [b.decode()] on bytes that are ASCII, as base64 output is. *)
Definition decode (b : bytes) : string :=
  string_of_list_ascii (map ascii_of_byte b).

(** ** hashlib.sha256 (FIPS 180-4) *)

Module SHA256.

Definition mask32 : Z := 0xFFFFFFFF.
Definition add32 (x y : Z) : Z := (x + y) mod 2 ^ 32.
Definition rotr (n x : Z) : Z :=
  Z.lor (Z.shiftr x n) (Z.land (Z.shiftl x (32 - n)) mask32).
Definition shr (n x : Z) : Z := Z.shiftr x n.
Definition not32 (x : Z) : Z := Z.lxor x mask32.

Definition Ch (x y z : Z) : Z := Z.lxor (Z.land x y) (Z.land (not32 x) z).
Definition Maj (x y z : Z) : Z :=
  Z.lxor (Z.lxor (Z.land x y) (Z.land x z)) (Z.land y z).
Definition Sigma0 (x : Z) : Z := Z.lxor (Z.lxor (rotr 2 x) (rotr 13 x)) (rotr 22 x).
Definition Sigma1 (x : Z) : Z := Z.lxor (Z.lxor (rotr 6 x) (rotr 11 x)) (rotr 25 x).
Definition sigma0 (x : Z) : Z := Z.lxor (Z.lxor (rotr 7 x) (rotr 18 x)) (shr 3 x).
Definition sigma1 (x : Z) : Z := Z.lxor (Z.lxor (rotr 17 x) (rotr 19 x)) (shr 10 x).

(** The integer part of the [k]-th root of [n], found bit by bit below
    [2^bits]. *)
Fixpoint iroot (k : Z) (n : Z) (bits : nat) (r : Z) : Z :=
  match bits with
  | O => r
  | S b =>
      let r' := r + 2 ^ Z.of_nat b in
      iroot k n b (if Z.leb (r' ^ k) n then r' else r)
  end.

Definition primes64 : list Z :=
  [ 2; 3; 5; 7; 11; 13; 17; 19; 23; 29; 31; 37; 41; 43; 47; 53; 59; 61; 67; 71; 73; 79;
    83; 89; 97; 101; 103; 107; 109; 113; 127; 131; 137; 139; 149; 151; 157; 163; 167;
    173; 179; 181; 191; 193; 197; 199; 211; 223; 227; 229; 233; 239; 241; 251; 257; 263;
    269; 271; 277; 281; 283; 293; 307; 311 ].

(** The round constants: the first 32 bits of the fractional parts of the cube
    roots of the first 64 primes. *)
Definition K : list Z :=
  Eval vm_compute in
    map (fun p => Z.land (iroot 3 (Z.shiftl p 96) 36 0) mask32) primes64.

(** The initial hash value: the first 32 bits of the fractional parts of the
    square roots of the first 8 primes. *)
Definition H0 : list Z :=
  Eval vm_compute in
    map (fun p => Z.land (iroot 2 (Z.shiftl p 64) 36 0) mask32) (firstn 8 primes64).

(** Big-endian encoding of [x] on [n] bytes and its inverse on 4 bytes. *)
Fixpoint be_bytes (n : nat) (x : Z) : bytes :=
  match n with
  | O => []
  | S n' => Z.land (Z.shiftr x (8 * Z.of_nat n')) 0xFF :: be_bytes n' x
  end.

Definition be_word (bs : bytes) : Z :=
  fold_left (fun acc b => Z.lor (Z.shiftl acc 8) b) bs 0.

(** Padding: a [0x80] byte, zeros up to 56 modulo 64, the bit length on 64 bits. *)
Definition pad (msg : bytes) : bytes :=
  let len := Z.of_nat (length msg) in
  let zeros := Z.to_nat ((55 - len) mod 64) in
  msg ++ 0x80 :: repeat 0 zeros ++ be_bytes 8 (8 * len).

Fixpoint words (n : nat) (bs : bytes) : list Z :=
  match n with
  | O => []
  | S n' => be_word (firstn 4 bs) :: words n' (skipn 4 bs)
  end.

(** Message schedule; [rev_w] holds W[t-1], W[t-2], ... (most recent first). *)
Fixpoint schedule (n : nat) (rev_w : list Z) : list Z :=
  match n with
  | O => rev_w
  | S n' =>
      let w := add32 (add32 (sigma1 (nth 1 rev_w 0)) (nth 6 rev_w 0))
                     (add32 (sigma0 (nth 14 rev_w 0)) (nth 15 rev_w 0)) in
      schedule n' (w :: rev_w)
  end.

Record regs := Regs { ra : Z; rb : Z; rc : Z; rd : Z; re : Z; rf : Z; rg : Z; rh : Z }.

Definition round (s : regs) (kw : Z * Z) : regs :=
  let '(k, w) := kw in
  let t1 := add32 (add32 (add32 (add32 (rh s) (Sigma1 (re s))) (Ch (re s) (rf s) (rg s))) k) w in
  let t2 := add32 (Sigma0 (ra s)) (Maj (ra s) (rb s) (rc s)) in
  Regs (add32 t1 t2) (ra s) (rb s) (rc s) (add32 (rd s) t1) (re s) (rf s) (rg s).

Definition regs_of (h : list Z) : regs :=
  Regs (nth 0 h 0) (nth 1 h 0) (nth 2 h 0) (nth 3 h 0)
       (nth 4 h 0) (nth 5 h 0) (nth 6 h 0) (nth 7 h 0).

Definition compress (h : list Z) (block : bytes) : list Z :=
  let w := rev (schedule 48 (rev (words 16 block))) in
  let s0 := regs_of h in
  let s := fold_left round (combine K w) s0 in
  [ add32 (ra s0) (ra s); add32 (rb s0) (rb s); add32 (rc s0) (rc s);
    add32 (rd s0) (rd s); add32 (re s0) (re s); add32 (rf s0) (rf s);
    add32 (rg s0) (rg s); add32 (rh s0) (rh s) ].

Fixpoint blocks (n : nat) (h : list Z) (bs : bytes) : list Z :=
  match n with
  | O => h
  | S n' => blocks n' (compress h (firstn 64 bs)) (skipn 64 bs)
  end.

(** [hashlib.sha256(msg).digest()] *)
Definition digest (msg : bytes) : bytes :=
  let p := pad msg in
  flat_map (be_bytes 4) (blocks (Nat.div (length p) 64) H0 p).

End SHA256.

(** ** hmac.new(key, msg, digestmod=hashlib.sha256).digest() (RFC 2104) *)

Module HMAC.

Definition block_size : nat := 64.

Definition block_key (key : bytes) : bytes :=
  let k := if Nat.ltb block_size (length key) then SHA256.digest key else key in
  k ++ repeat 0 (block_size - length k).

Definition digest (key msg : bytes) : bytes :=
  let k := block_key key in
  let ipad := map (Z.lxor 0x36) k in
  let opad := map (Z.lxor 0x5c) k in
  SHA256.digest (opad ++ SHA256.digest (ipad ++ msg)).

End HMAC.

(** ** base64.b64encode *)

Module Base64.

Definition alphabet : string :=
  "ABCDEFGHIJKLMNOPQRSTUVWXYZabcdefghijklmnopqrstuvwxyz0123456789+/".

Definition sextet (i : Z) : Z :=
  match String.get (Z.to_nat i) alphabet with
  | Some c => byte_of_ascii c
  | None => 0
  end.

Definition pad_byte : Z := 61.

Fixpoint b64encode (bs : bytes) : bytes :=
  match bs with
  | [] => []
  | [a] =>
      [ sextet (Z.shiftr a 2); sextet (Z.shiftl (Z.land a 3) 4); pad_byte; pad_byte ]
  | [a; b] =>
      [ sextet (Z.shiftr a 2);
        sextet (Z.lor (Z.shiftl (Z.land a 3) 4) (Z.shiftr b 4));
        sextet (Z.shiftl (Z.land b 15) 2); pad_byte ]
  | a :: b :: c :: rest =>
      sextet (Z.shiftr a 2)
      :: sextet (Z.lor (Z.shiftl (Z.land a 3) 4) (Z.shiftr b 4))
      :: sextet (Z.lor (Z.shiftl (Z.land b 15) 2) (Z.shiftr c 6))
      :: sextet (Z.land c 63)
      :: b64encode rest
  end.

End Base64.

(** ** Python values, exceptions and dictionaries *)

(** The scalar values that arguments and mapping entries take (numbers are
    integers; floating-point numbers are left out). *)
Inductive value : Type :=
  | VNone
  | VBool (b : bool)
  | VInt (z : Z)
  | VStr (s : string).

(** Truth value testing, as [if x:] does it. *)
Definition truthy (v : value) : bool :=
  match v with
  | VNone => false
  | VBool b => b
  | VInt z => negb (Z.eqb z 0)
  | VStr s => negb (String.eqb s "")
  end.

(** [str(v)] *)
Definition py_str (v : value) : string :=
  match v with
  | VNone => "None"
  | VBool true => "True"
  | VBool false => "False"
  | VInt z => DecimalString.NilZero.string_of_int (Z.to_int z)
  | VStr s => s
  end.

Inductive exn : Type :=
  | AttributeError
  | TypeError
  | ValueError
  | JSONDecodeError
  | NameError (name : string).

Inductive outcome (A : Type) : Type :=
  | Return (a : A)
  | Raise (e : exn).
Arguments Return {A} a.
Arguments Raise {A} e.

#[global] Instance outcome_ret : MRet outcome := fun A a => Return a.
#[global] Instance outcome_bind : MBind outcome := fun A B k m =>
  match m with
  | Return a => k a
  | Raise e => Raise e
  end.

Definition returns {A : Type} (m : outcome A) : Prop := exists a, m = Return a.

(** A [dict] with string keys: the entries in insertion order. *)
Abbreviation pydict := (list (string * value)).

Fixpoint dict_get {V : Type} (d : list (string * V)) (k : string) : option V :=
  match d with
  | [] => None
  | (k', v) :: d' => if String.eqb k' k then Some v else dict_get d' k
  end.

(** [d[k] = v]: an existing key keeps its place, a new key goes last. *)
Fixpoint dict_setitem (d : pydict) (k : string) (v : value) : pydict :=
  match d with
  | [] => [(k, v)]
  | (k', v') :: d' =>
      if String.eqb k' k then (k', v) :: d' else (k', v') :: dict_setitem d' k v
  end.

(** [d.update(other)] *)
Definition dict_update (d other : pydict) : pydict :=
  fold_left (fun acc kv => dict_setitem acc (fst kv) (snd kv)) other d.

Definition dict_keys (d : pydict) : list string := map fst d.

(** [if d:] on a dictionary. *)
Definition dict_truthy {A : Type} (d : list A) : bool :=
  match d with [] => false | _ => true end.

(** The invariant of a dictionary: no key occurs twice. *)
Definition dict_wf (d : pydict) : Prop := List.NoDup (dict_keys d).

(** ** String methods *)

Definition nl : string := String (ascii_of_nat 10) "".

Definition is_upper (c : ascii) : bool :=
  let n := N_of_ascii c in ((65 <=? n) && (n <=? 90))%N.
Definition is_lower (c : ascii) : bool :=
  let n := N_of_ascii c in ((97 <=? n) && (n <=? 122))%N.
Definition is_digit (c : ascii) : bool :=
  let n := N_of_ascii c in ((48 <=? n) && (n <=? 57))%N.
Definition is_alpha (c : ascii) : bool := is_upper c || is_lower c.

Definition lower_char (c : ascii) : ascii :=
  if is_upper c then ascii_of_N (N_of_ascii c + 32) else c.
Definition upper_char (c : ascii) : ascii :=
  if is_lower c then ascii_of_N (N_of_ascii c - 32) else c.

Fixpoint map_string (f : ascii -> ascii) (s : string) : string :=
  match s with
  | EmptyString => EmptyString
  | String c s' => String (f c) (map_string f s')
  end.

(** Case conversion of the ASCII letters. *)
Definition ascii_lower (s : string) : string := map_string lower_char s.
Definition ascii_upper (s : string) : string := map_string upper_char s.

Fixpoint all_chars (p : ascii -> bool) (s : string) : bool :=
  match s with
  | EmptyString => true
  | String c s' => p c && all_chars p s'
  end.

(** [s.isascii()]: every byte is below 128. *)
Definition ascii_char (c : ascii) : bool := (N_of_ascii c <? 128)%N.
Definition isascii (s : string) : bool := all_chars ascii_char s.

(** What the library takes from the tables of the Unicode standard and from
    the modules [re] and [ipaddress].  The properties hold whatever these
    tables are. *)
Record library : Type := Library {
  (** [s.lower()] and [s.upper()] of a text with a character outside ASCII *)
  unicode_lower : string -> string;
  unicode_upper : string -> string;
  (** [unicodedata.normalize("NFKC", s)] *)
  normalize_NFKC : string -> string;
  (** whether [urllib.parse._check_bracketed_host(s)] returns; it raises
      [ValueError] when it does not *)
  bracketed_host_ok : string -> bool
}.

(** [s.lower()] and [s.upper()]: on ASCII text the letters are converted, and
    no other character is. *)
Definition lower (L : library) (s : string) : string :=
  if isascii s then ascii_lower s else unicode_lower L s.

(** [s.startswith(p)] *)
Definition startswith (s p : string) : bool := String.prefix p s.

(** [sep.join(l)] *)
Definition join (sep : string) (l : list string) : string := String.concat sep l.

(** [c in s] *)
Fixpoint contains (c : ascii) (s : string) : bool :=
  match s with
  | EmptyString => false
  | String c' s' => Ascii.eqb c' c || contains c s'
  end.

(** [s.partition(c)]: the text before the first [c], whether [c] was found,
    and the text after it. *)
Fixpoint partition (c : ascii) (s : string) : string * bool * string :=
  match s with
  | EmptyString => (EmptyString, false, EmptyString)
  | String c' s' =>
      if Ascii.eqb c' c then (EmptyString, true, s')
      else let '(a, found, b) := partition c s' in (String c' a, found, b)
  end.

(** The third component of [s.rpartition(c)]: the text after the last [c],
    all of [s] when there is none. *)
Fixpoint after_last (c : ascii) (s : string) : string :=
  match s with
  | EmptyString => EmptyString
  | String c' s' =>
      if contains c s' then after_last c s'
      else if Ascii.eqb c' c then s' else s
  end.

(** [s.split(c)] for a one-character separator. *)
Fixpoint split (c : ascii) (s : string) : list string :=
  match s with
  | EmptyString => [EmptyString]
  | String c' s' =>
      if Ascii.eqb c' c then EmptyString :: split c s'
      else match split c s' with
           | [] => [String c' EmptyString]
           | w :: ws => String c' w :: ws
           end
  end.

(** [s.lstrip(chars)], the characters given as a predicate. *)
Fixpoint lstrip (p : ascii -> bool) (s : string) : string :=
  match s with
  | EmptyString => EmptyString
  | String c s' => if p c then lstrip p s' else s
  end.

(** [s.replace(c, "")] for a character [c]. *)
Fixpoint remove_char (c : ascii) (s : string) : string :=
  match s with
  | EmptyString => EmptyString
  | String c' s' => if Ascii.eqb c' c then remove_char c s' else String c' (remove_char c s')
  end.

(** ** urllib.parse

    [quote_plus], [urlencode] on a list of pairs, and the [hostname] of
    [urlparse], after [Lib/urllib/parse.py] of CPython 3.11 at its current
    patch level: [urlsplit] strips leading control characters and blanks,
    removes tabs and line ends, and checks a bracketed host with
    [_check_bracketed_netloc]. *)

Module Urllib.

Definition hex_digit (d : Z) : ascii :=
  match String.get (Z.to_nat d) "0123456789ABCDEF" with
  | Some c => c
  | None => "0"%char
  end.

(** The characters [quote] never escapes: letters, digits and [_.-~]. *)
Definition always_safe (c : ascii) : bool :=
  is_alpha c || is_digit c || contains c "_.-~".

(** [quote_plus(s)]: a space becomes [+], an unreserved character stays, any
    other byte of the UTF-8 text becomes [%XX]. *)
Fixpoint quote_plus (s : string) : string :=
  match s with
  | EmptyString => EmptyString
  | String c s' =>
      if Ascii.eqb c " " then String "+" (quote_plus s')
      else if always_safe c then String c (quote_plus s')
      else
        let b := byte_of_ascii c in
        String "%" (String (hex_digit (Z.shiftr b 4))
                      (String (hex_digit (Z.land b 15)) (quote_plus s')))
  end.

(** [urlencode(pairs)] on a sequence of (key, value) pairs. *)
Definition urlencode (query : pydict) : string :=
  join "&" (map (fun kv => quote_plus (fst kv) ++ "=" ++ quote_plus (py_str (snd kv))) query).

Definition scheme_char (c : ascii) : bool :=
  is_alpha c || is_digit c || contains c "+-.".

(** [_WHATWG_C0_CONTROL_OR_SPACE]: the characters up to the space. *)
Definition c0_control_or_space (c : ascii) : bool := (N_of_ascii c <=? 32)%N.

(** [_UNSAFE_URL_BYTES_TO_REMOVE]: tab, carriage return, line feed. *)
Definition unsafe_url_bytes : list ascii :=
  [ascii_of_nat 9; ascii_of_nat 13; ascii_of_nat 10].

(** The text [urlsplit] parses: leading control characters and spaces are
    stripped, then every tab, carriage return and line feed is removed. *)
Definition remove_unsafe (url : string) : string :=
  fold_left (fun url b => remove_char b url) unsafe_url_bytes url.

Definition sanitize (url : string) : string :=
  remove_unsafe (lstrip c0_control_or_space url).

(** What [urlsplit] leaves after it has taken the scheme off: the text after
    the first colon when a well-formed scheme stands before it. *)
Definition strip_scheme (url : string) : string :=
  let '(before, found, rest) := partition ":" url in
  match before with
  | String c _ =>
      if found && is_alpha c && all_chars scheme_char before then rest else url
  | EmptyString => url
  end.

(** Text up to the first of [/], [?] and [#]. *)
Fixpoint until_delim (s : string) : string :=
  match s with
  | EmptyString => EmptyString
  | String c s' =>
      if contains c "/?#" then EmptyString else String c (until_delim s')
  end.

(** [_check_bracketed_host(hostname)] *)
Definition check_bracketed_host (L : library) (hostname : string) : outcome unit :=
  if bracketed_host_ok L hostname then Return tt else Raise ValueError.

(** [_check_bracketed_netloc(netloc)]: nothing may stand before the bracket,
    and only a port after it. *)
Definition check_bracketed_netloc (L : library) (netloc : string) : outcome unit :=
  let hostname_and_port := after_last "@" netloc in
  let '(before_bracket, have_open_br, bracketed) := partition "[" hostname_and_port in
  if have_open_br then
    if negb (String.eqb before_bracket "") then Raise ValueError
    else
      let '(hostname, _, port) := partition "]" bracketed in
      if negb (String.eqb port "") && negb (startswith port ":") then Raise ValueError
      else check_bracketed_host L hostname
  else
    let '(hostname, _, _) := partition ":" hostname_and_port in
    check_bracketed_host L hostname.

(** [_checknetloc(netloc)]: a host outside ASCII must not gain one of the
    delimiters under NFKC normalisation. *)
Definition checknetloc (L : library) (netloc : string) : outcome unit :=
  if String.eqb netloc "" || isascii netloc then Return tt
  else
    let n := remove_char "?" (remove_char "#" (remove_char ":" (remove_char "@" netloc))) in
    let netloc2 := normalize_NFKC L n in
    if String.eqb n netloc2 then Return tt
    else if existsb (fun c => contains c netloc2) (list_ascii_of_string "/?#@:")
         then Raise ValueError
         else Return tt.

(** [urlsplit(url).netloc], with the checks [urlsplit] makes on it: a bracket
    without its partner is refused, a bracketed host is checked, and so is the
    normal form of a host outside ASCII. *)
Definition netloc (L : library) (url : string) : outcome string :=
  match strip_scheme (sanitize url) with
  | String "/" (String "/" rest) =>
      let n := until_delim rest in
      if (contains "[" n && negb (contains "]" n)) || (contains "]" n && negb (contains "[" n))
      then Raise ValueError
      else
        _ ← (if contains "[" n && contains "]" n then check_bracketed_netloc L n
             else Return tt);
        _ ← checknetloc L n;
        Return n
  | _ => Return EmptyString
  end.

(** The host part of [_hostinfo]: after the user information, without the
    port, brackets of a literal address removed. *)
Definition hostinfo (n : string) : string :=
  let h := after_last "@" n in
  let '(_, have_open_br, bracketed) := partition "[" h in
  if have_open_br then fst (fst (partition "]" bracketed))
  else fst (fst (partition ":" h)).

(** [urlparse(url).hostname]: [None] for an empty host, else the host in
    lower case up to its zone identifier. *)
Definition hostname (L : library) (url : string) : outcome (option string) :=
  n ← netloc L url;
  match hostinfo n with
  | EmptyString => Return None
  | h => let '(host, percent, zone) := partition "%" h in
         Return (Some (lower L host ++ (if percent then "%" else "") ++ zone))
  end.

End Urllib.

(** ** The client and its signer *)

Record client : Type := Client {
  _host : string;
  _access_key : string;
  _secret_key : string
}.

(** [__init__(self, host, access_key, secret_key)] *)
Definition __init__ (host access_key secret_key : string) : client :=
  {| _host := host; _access_key := access_key; _secret_key := secret_key |}.

(** [h.lower()] on what [hostname] returned: [None] has no such attribute. *)
Definition hostname_lower (L : library) (h : option string) : outcome string :=
  match h with
  | Some s => Return (lower L s)
  | None => Raise AttributeError
  end.

(** [sorted(items, key=lambda d: d[0])]: a stable sort by key. *)
Fixpoint insert_by_key (x : string * value) (l : pydict) : pydict :=
  match l with
  | [] => [x]
  | y :: l' =>
      if String.leb (fst x) (fst y) then x :: y :: l' else y :: insert_by_key x l'
  end.

Fixpoint sorted_by_key (l : pydict) : pydict :=
  match l with
  | [] => []
  | x :: l' => insert_by_key x (sorted_by_key l')
  end.

(** [s.startswith("http://") or s.startswith("https://")] *)
Definition is_absolute (s : string) : bool :=
  startswith s "http://" || startswith s "https://".

(** The host line and the path line of the signing payload. *)
Definition signing_target (L : library) (self : client) (request_path : string)
  : outcome (string * string) :=
  if is_absolute request_path then
    h ← Urllib.hostname L request_path;
    host_url ← hostname_lower L h;
    Return (host_url, "/" ++ join "/" (skipn 3 (split "/" request_path)))
  else
    h ← Urllib.hostname L (_host self);
    host_url ← hostname_lower L h;
    Return (host_url, request_path).

(** The text that is signed. *)
Definition signing_payload (L : library) (self : client) (method : string)
    (params : pydict) (request_path : string) : outcome string :=
  '(host_url, request_path) ← signing_target L self request_path;
  let sorted_params := sorted_by_key params in
  let encode_params := Urllib.urlencode sorted_params in
  Return (join nl [method; host_url; request_path; encode_params]).

Definition generate_signature (L : library) (self : client) (method : string)
    (params : pydict) (request_path : string) : outcome string :=
  payload ← signing_payload L self method params request_path;
  let payload := encode_utf8 payload in
  let secret_key := encode_utf8 (_secret_key self) in
  let digest := HMAC.digest secret_key payload in
  let signature := Base64.b64encode digest in
  Return (decode signature).

(** ** The collaborators: clock, transport, JSON decoder *)

Record datetime : Type := Datetime {
  year : Z; month : Z; day : Z; hour : Z; minute : Z; second : Z; microsecond : Z
}.

(** The fields of a [datetime] object are in these ranges; a clock of today
    shows a four-digit year. *)
Definition datetime_wf (t : datetime) : Prop :=
  1000 <= year t <= 9999 /\ 1 <= month t <= 12 /\ 1 <= day t <= 31 /\
  0 <= hour t <= 23 /\ 0 <= minute t <= 59 /\ 0 <= second t <= 59 /\
  0 <= microsecond t <= 999999.

Definition digit_char (d : Z) : ascii := ascii_of_byte (48 + d).

(** A two-digit field of [strftime] ([%m], [%d], [%H], [%M], [%S]). *)
Definition two_digits (n : Z) : string :=
  String (digit_char (n / 10)) (String (digit_char (n mod 10)) "").

(** [t.strftime("%Y-%m-%dT%H:%M:%S")] *)
Definition strftime (t : datetime) : string :=
  py_str (VInt (year t)) ++ "-" ++ two_digits (month t) ++ "-" ++ two_digits (day t)
  ++ "T" ++ two_digits (hour t) ++ ":" ++ two_digits (minute t)
  ++ ":" ++ two_digits (second t).

(** The objects the transport hands back and [request] returns: decoded JSON
    (numbers are integers here), text, and exception instances. *)
#[warnings="-register-all"]
Inductive pyobj : Type :=
  | ONone
  | OBool (b : bool)
  | ONum (z : Z)
  | OStr (s : string)
  | OList (l : list pyobj)
  | ODict (d : list (string * pyobj))
  | OExc (msg : string).

(** [if x:] on such an object; an exception instance is true. *)
Definition obj_truthy (v : pyobj) : bool :=
  match v with
  | ONone => false
  | OBool b => b
  | ONum z => negb (Z.eqb z 0)
  | OStr s => negb (String.eqb s "")
  | OList l => dict_truthy l
  | ODict d => dict_truthy d
  | OExc _ => true
  end.

(** The keyword arguments one call of [AsyncHttpRequests.fetch] receives; the
    two mappings are recorded with the entries they hold at the call. *)
Record fetch_call : Type := FetchCall {
  fc_method : string;
  fc_url : string;
  fc_params : option pydict;
  fc_data : option pydict;
  fc_headers : pydict;
  fc_timeout : Z
}.

Record world : Type := World {
  lib : library;
  USER_AGENT : string;
  utcnow : datetime;
  (** [urljoin(base, url)]: the joined URL, or the exception it raises
      ([ValueError] for a base or a path that [urlsplit] refuses) *)
  urljoin : string -> string -> outcome string;
  (** [json.loads] on text: [None] when the text is not JSON. *)
  json_loads : string -> option pyobj;
  (** the transport: the triple [(code, success, error)] it answers with *)
  fetch : fetch_call -> pyobj * pyobj * pyobj
}.

(** ** Program state: the client object, the heap of dictionaries, the trace *)

Abbreviation loc := positive.

Record state : Type := State {
  this : client;
  heap : gmap loc pydict;
  calls : list fetch_call
}.

Definition M (A : Type) : Type := state -> outcome A * state.

#[global] Instance M_ret : MRet M := fun A a st => (Return a, st).
#[global] Instance M_bind : MBind M := fun A B k m st =>
  match m st with
  | (Return a, st') => k a st'
  | (Raise e, st') => (Raise e, st')
  end.

Definition lift {A : Type} (o : outcome A) : M A := fun st => (o, st).
Definition get_self : M client := fun st => (Return (this st), st).

(** A new dictionary object. *)
Definition alloc (d : pydict) : M loc := fun st =>
  let l := fresh (dom (heap st)) in
  (Return l, State (this st) (<[l := d]> (heap st)) (calls st)).

Definition deref (l : loc) : M pydict := fun st =>
  (Return (default [] (heap st !! l)), st).

Definition store (l : loc) (d : pydict) : M unit := fun st =>
  (Return tt, State (this st) (<[l := d]> (heap st)) (calls st)).

(** [d[k] = v] and [d.update(other)] on the object behind a reference. *)
Definition setitem (l : loc) (k : string) (v : value) : M unit :=
  d ← deref l; store l (dict_setitem d k v).
Definition update (l : loc) (other : pydict) : M unit :=
  d ← deref l; store l (dict_update d other).

(** [x if x else {}]: the object itself when it is a non-empty dictionary, a
    new empty dictionary for [None] and for an empty one. *)
Definition or_new_dict (x : option loc) : M loc :=
  match x with
  | Some l => d ← deref l; if dict_truthy d then mret l else alloc []
  | None => alloc []
  end.

Definition snapshot (x : option loc) : M (option pydict) :=
  match x with
  | Some l => d ← deref l; mret (Some d)
  | None => mret None
  end.

(** [await AsyncHttpRequests.fetch(method, url, params=.., data=.., headers=..,
    timeout=..)]: the call is appended to the trace, and the [success] and
    [error] of the answer are kept. *)
Definition transport (w : world) (call : fetch_call) : M (pyobj * pyobj) := fun st =>
  let '(_, success, error) := fetch w call in
  (Return (success, error), State (this st) (heap st) (calls st ++ [call])).

Definition do_fetch (w : world) (method url : string) (params : option loc)
    (data : option pydict) (headers : loc) (timeout : Z) : M (pyobj * pyobj) :=
  p ← snapshot params;
  h ← deref headers;
  transport w (FetchCall method url p data h timeout).

(** ** The request dispatcher *)

(** [json.loads(x)]: text is decoded, any other object is a type error. *)
Definition loads (w : world) (x : pyobj) : outcome pyobj :=
  match x with
  | OStr s => match json_loads w s with
              | Some v => Return v
              | None => Raise JSONDecodeError
              end
  | _ => Raise TypeError
  end.

(** The decoded payload: [success] itself when it is a [dict]. *)
Definition decoded (w : world) (success : pyobj) : outcome pyobj :=
  match success with
  | ODict _ => Return success
  | _ => loads w success
  end.

(** [result.get("status")]: only a [dict] has the method. *)
Definition get_status (result : pyobj) : outcome (option pyobj) :=
  match result with
  | ODict d => Return (dict_get d "status")
  | _ => Raise AttributeError
  end.

(** [x != "ok"] *)
Definition is_not_ok (x : option pyobj) : bool :=
  match x with
  | Some (OStr s) => negb (String.eqb s "ok")
  | _ => true
  end.

(** The tail of [request]: the answer of the transport made a result pair. *)
Definition normalize (w : world) (success error : pyobj) : outcome (pyobj * pyobj) :=
  if obj_truthy error then Return (ONone, error)
  else
    result ← decoded w success;
    status ← get_status result;
    if is_not_ok status then Return (ONone, result)
    else Return (result, ONone).

(** The [if auth:] block: the reference [params] is bound to afterwards. *)
Definition authenticate (w : world) (self : client) (method uri : string)
    (params : option loc) : M (option loc) :=
  let timestamp := strftime (utcnow w) in
  params ← or_new_dict params;
  _ ← update params [ ("AccessKeyId", VStr (_access_key self));
                      ("SignatureMethod", VStr "HmacSHA256");
                      ("SignatureVersion", VStr "2");
                      ("Timestamp", VStr timestamp) ];
  d ← deref params;
  signature ← lift (generate_signature (lib w) self method d uri);
  _ ← setitem params "Signature" (VStr signature);
  mret (Some params).

(** The [if method == "GET":] block: headers are completed and the transport
    is called. *)
Definition dispatch (w : world) (method url : string) (params : option loc)
    (body : option pydict) (headers : loc) : M (pyobj * pyobj) :=
  if String.eqb method "GET" then
    _ ← setitem headers "Content-type" (VStr "application/x-www-form-urlencoded");
    _ ← setitem headers "User-Agent" (VStr (USER_AGENT w));
    do_fetch w "GET" url params None headers 10
  else
    _ ← setitem headers "Accept" (VStr "application/json");
    _ ← setitem headers "Content-type" (VStr "application/json");
    _ ← setitem headers "User-Agent" (VStr (USER_AGENT w));
    do_fetch w "POST" url params body headers 10.

Definition request (w : world) (method uri : string) (params : option loc)
    (body : option pydict) (headers : option loc) (auth : bool) : M (pyobj * pyobj) :=
  self ← get_self;
  url ← (if is_absolute uri then mret uri else lift (urljoin w (_host self) uri));
  params ← (if auth then authenticate w self method uri params else mret params);
  headers ← or_new_dict headers;
  '(success, error) ← dispatch w method url params body headers;
  lift (normalize w success error).

(** ** Endpoint methods

    Every method builds its mapping and delegates to [request].  An argument is
    a [value]; [VNone] stands for an argument that is left out when the default
    is [None], and an argument with another default is an [option] whose
    [None] selects the default.  The mapping of each method is a definition of
    its own ([.._params] for the query mapping, [.._body] for the body). *)

(** [if x: d[k] = x] and [if x: d.update({k: x})] *)
Definition set_if (d : pydict) (k : string) (x : value) : pydict :=
  if truthy x then dict_setitem d k x else d.
Definition update_if (d : pydict) (k : string) (x : value) : pydict :=
  if truthy x then dict_update d [(k, x)] else d.

Definition get_swap_info_params (contract_code : value) : pydict :=
  let params := [] in
  set_if params "contract_code" contract_code.

Definition get_swap_info (w : world) (contract_code : value) : M (pyobj * pyobj) :=
  let uri := "/linear-swap-api/v1/swap_contract_info" in
  params ← alloc (get_swap_info_params contract_code);
  request w "GET" uri (Some params) None None false.

Definition get_price_limit_params (contract_code : value) : pydict :=
  let params := [] in
  set_if params "contract_code" contract_code.

Definition get_price_limit (w : world) (contract_code : value) : M (pyobj * pyobj) :=
  let uri := "/linear-swap-api/v1/swap_price_limit" in
  params ← alloc (get_price_limit_params contract_code);
  request w "GET" uri (Some params) None None false.

Definition get_orderbook_params (contract_code : value) : pydict :=
  [("contract_code", contract_code); ("type", VStr "step0")].

Definition get_orderbook (w : world) (contract_code : value) : M (pyobj * pyobj) :=
  let uri := "/linear-swap-ex/market/depth" in
  params ← alloc (get_orderbook_params contract_code);
  request w "GET" uri (Some params) None None false.

Definition get_klines_params (contract_code period size sfrom to : value) : pydict :=
  let params := [("contract_code", contract_code); ("period", period)] in
  let params := set_if params "size" size in
  let params := set_if params "from" sfrom in
  set_if params "to" to.

Definition get_klines (w : world) (contract_code period size sfrom to : value)
  : M (pyobj * pyobj) :=
  let uri := "/linear-swap-ex/market/history/kline" in
  params ← alloc (get_klines_params contract_code period size sfrom to);
  request w "GET" uri (Some params) None None false.

Definition get_merged_data_params (contract_code : value) : pydict :=
  [("contract_code", contract_code)].

Definition get_merged_data (w : world) (contract_code : value) : M (pyobj * pyobj) :=
  let uri := "/linear-swap-ex/market/detail/merged" in
  params ← alloc (get_merged_data_params contract_code);
  request w "GET" uri (Some params) None None false.

Definition get_funding_rate_params (contract_code : value) : pydict :=
  [("contract_code", contract_code)].

Definition get_funding_rate (w : world) (contract_code : value) : M (pyobj * pyobj) :=
  let uri := "/linear-swap-ex/v1/swap_funding_rate" in
  params ← alloc (get_funding_rate_params contract_code);
  request w "GET" uri (Some params) None None false.

Definition get_asset_info_body (margin_account : value) : pydict :=
  let body := [] in
  set_if body "margin_account" margin_account.

Definition get_asset_info (w : world) (margin_account : value) : M (pyobj * pyobj) :=
  let uri := "/linear-swap-api/v1/swap_cross_account_info" in
  request w "POST" uri None (Some (get_asset_info_body margin_account)) None true.

Definition get_position_body (contract_code : value) : pydict :=
  let body := [] in
  set_if body "contract_code" contract_code.

Definition get_position (w : world) (contract_code : value) : M (pyobj * pyobj) :=
  let uri := "/linear-swap-api/v1/swap_cross_position_info" in
  request w "POST" uri None (Some (get_position_body contract_code)) None true.

Definition get_account_position_body (margin_account : value) : pydict :=
  [("margin_account", margin_account)].

Definition get_account_position (w : world) (margin_account : value) : M (pyobj * pyobj) :=
  let uri := "/linear-swap-api/v1/swap_cross_account_position_info" in
  request w "POST" uri None (Some (get_account_position_body margin_account)) None true.

(** [x is not None] on the result of [kwargs.get(k)] *)
Definition is_not_none (x : option value) : bool :=
  match x with
  | None | Some VNone => false
  | Some _ => true
  end.

Definition create_order_body (contract_code price quantity direction offset lever_rate
    order_price_type client_order_id : value) (kwargs : pydict) : pydict :=
  let body := [ ("contract_code", contract_code); ("price", price); ("volume", quantity);
                ("direction", direction); ("offset", offset); ("lever_rate", lever_rate);
                ("order_price_type", order_price_type) ] in
  let body := update_if body "client_order_id" client_order_id in
  fold_left (fun body kv =>
               if is_not_none (dict_get kwargs (fst kv))
               then dict_update body [(fst kv, snd kv)] else body)
            kwargs body.

Definition create_order (w : world) (contract_code price quantity direction offset lever_rate
    order_price_type client_order_id : value) (kwargs : pydict) : M (pyobj * pyobj) :=
  let uri := "/linear-swap-api/v1/swap_cross_order" in
  let body := create_order_body contract_code price quantity direction offset lever_rate
                order_price_type client_order_id kwargs in
  request w "POST" uri None (Some body) None true.

(** [orders_data] is forwarded as it is; its entries are nested in practice,
    which [request] never looks into. *)
Definition create_orders (w : world) (orders_data : pydict) : M (pyobj * pyobj) :=
  let uri := "/linear-swap-api/v1/swap_cross_batchorder" in
  let body := orders_data in
  request w "POST" uri None (Some body) None true.

Definition revoke_order_body (contract_code order_id client_order_id : value) : pydict :=
  let body := [("contract_code", contract_code)] in
  let body := set_if body "order_id" order_id in
  set_if body "client_order_id" client_order_id.

Definition revoke_order (w : world) (contract_code order_id client_order_id : value)
  : M (pyobj * pyobj) :=
  let uri := "/linear-swap-api/v1/swap_cross_cancel" in
  request w "POST" uri None (Some (revoke_order_body contract_code order_id client_order_id))
          None true.

(** [if ids: d[k] = ",".join(ids)] for a list argument that defaults to [None]. *)
Definition set_joined (d : pydict) (k : string) (ids : option (list string)) : pydict :=
  match ids with
  | Some ((_ :: _) as l) => dict_setitem d k (VStr (join "," l))
  | _ => d
  end.

Definition revoke_orders_body (contract_code : value)
    (order_ids client_order_ids : option (list string)) : pydict :=
  let body := [("contract_code", contract_code)] in
  let body := set_joined body "order_id" order_ids in
  set_joined body "client_order_id" client_order_ids.

Definition revoke_orders (w : world) (contract_code : value)
    (order_ids client_order_ids : option (list string)) : M (pyobj * pyobj) :=
  let uri := "/linear-swap-api/v1/swap_cross_cancel" in
  request w "POST" uri None
          (Some (revoke_orders_body contract_code order_ids client_order_ids)) None true.

Definition revoke_order_all_body (contract_code : value) : pydict :=
  [("contract_code", contract_code)].

Definition revoke_order_all (w : world) (contract_code : value) : M (pyobj * pyobj) :=
  let uri := "/linear-swap-api/v1/swap_cross_cancelall" in
  request w "POST" uri None (Some (revoke_order_all_body contract_code)) None true.

(** [if ids: d.update({k: ",".join(ids)})] *)
Definition update_joined (d : pydict) (k : string) (ids : option (list string)) : pydict :=
  match ids with
  | Some ((_ :: _) as l) => dict_update d [(k, VStr (join "," l))]
  | _ => d
  end.

Definition get_order_info_body (contract_code : value)
    (order_ids client_order_ids : option (list string)) : pydict :=
  let body := [("contract_code", contract_code)] in
  let body := update_joined body "order_id" order_ids in
  update_joined body "client_order_id" client_order_ids.

Definition get_order_info (w : world) (contract_code : value)
    (order_ids client_order_ids : option (list string)) : M (pyobj * pyobj) :=
  let uri := "/linear-swap-api/v1/swap_cross_order_info" in
  request w "POST" uri None
          (Some (get_order_info_body contract_code order_ids client_order_ids)) None true.

Definition get_order_detail_body (contract_code order_id created_at order_type : value)
    (page_index page_size : option value) : pydict :=
  let page_index := default (VInt 1) page_index in
  let page_size := default (VInt 20) page_size in
  let body := [ ("contract_code", contract_code); ("order_id", order_id);
                ("page_index", page_index); ("page_size", page_size) ] in
  let body := update_if body "created_at" created_at in
  update_if body "order_type" order_type.

Definition get_order_detail (w : world) (contract_code order_id created_at order_type : value)
    (page_index page_size : option value) : M (pyobj * pyobj) :=
  let uri := "/linear-swap-api/v1/swap_cross_order_detail" in
  request w "POST" uri None
          (Some (get_order_detail_body contract_code order_id created_at order_type
                   page_index page_size)) None true.

Definition get_open_orders_body (contract_code : value) (index size : option value) : pydict :=
  let index := default (VInt 1) index in
  let size := default (VInt 50) size in
  [("contract_code", contract_code); ("page_index", index); ("page_size", size)].

Definition get_open_orders (w : world) (contract_code : value) (index size : option value)
  : M (pyobj * pyobj) :=
  let uri := "/linear-swap-api/v1/swap_cross_openorders" in
  request w "POST" uri None (Some (get_open_orders_body contract_code index size)) None true.

Definition get_history_orders_body (contract_code trade_type stype status create_date : value)
    (page_index page_size : option value) : pydict :=
  let page_index := default (VInt 0) page_index in
  let page_size := default (VInt 50) page_size in
  [ ("contract_code", contract_code); ("trade_type", trade_type); ("type", stype);
    ("status", status); ("create_date", create_date); ("page_index", page_index);
    ("page_size", page_size) ].

Definition get_history_orders (w : world)
    (contract_code trade_type stype status create_date : value)
    (page_index page_size : option value) : M (pyobj * pyobj) :=
  let uri := "/linear-swap-api/v1/swap_cross_hisorders" in
  request w "POST" uri None
          (Some (get_history_orders_body contract_code trade_type stype status create_date
                   page_index page_size)) None true.

Definition transfer_inner_body (asset from_ to amount : value) : pydict :=
  [ ("asset", asset); ("from_margin_account", from_); ("to_margin_account", to);
    ("amount", amount) ].

Definition transfer_inner (w : world) (asset from_ to amount : value) : M (pyobj * pyobj) :=
  let uri := "/linear-swap-api/v1/swap_transfer_inner" in
  request w "POST" uri None (Some (transfer_inner_body asset from_ to amount)) None true.

Definition transfer_between_spot_swap_body (margin_account amount from_ to : value)
    (currency : option value) : pydict :=
  let currency := default (VStr "USDT") currency in
  [ ("from", from_); ("to", to); ("amount", amount); ("margin-account", margin_account);
    ("currency", currency) ].

Definition transfer_between_spot_swap (w : world) (margin_account amount from_ to : value)
    (currency : option value) : M (pyobj * pyobj) :=
  let body := transfer_between_spot_swap_body margin_account amount from_ to currency in
  let uri := "https://api.huobi.pro/v2/account/transfer" in
  request w "POST" uri None (Some body) None true.

Definition create_trigger_order_body (contract_code trigger_type trigger_price order_price
    order_price_type volume direction offset lever_rate : value) : pydict :=
  [ ("contract_code", contract_code); ("trigger_type", trigger_type);
    ("trigger_price", trigger_price); ("order_price", order_price);
    ("order_price_type", order_price_type); ("volume", volume);
    ("direction", direction); ("offset", offset); ("lever_rate", lever_rate) ].

Definition create_trigger_order (w : world) (contract_code trigger_type trigger_price
    order_price order_price_type volume direction offset lever_rate : value)
  : M (pyobj * pyobj) :=
  let uri := "/linear-swap-api/v1/swap_cross_trigger_order" in
  let body := create_trigger_order_body contract_code trigger_type trigger_price order_price
                order_price_type volume direction offset lever_rate in
  request w "POST" uri None (Some body) None true.

Definition revoke_trigger_order_body (contract_code order_id : value) : pydict :=
  [("contract_code", contract_code); ("order_id", order_id)].

Definition revoke_trigger_order (w : world) (contract_code order_id : value)
  : M (pyobj * pyobj) :=
  let uri := "/linear-swap-api/v1/swap_cross_trigger_cancel" in
  request w "POST" uri None (Some (revoke_trigger_order_body contract_code order_id)) None true.

Definition revoke_all_trigger_orders_body (contract_code : value) : pydict :=
  [("contract_code", contract_code)].

Definition revoke_all_trigger_orders (w : world) (contract_code : value) : M (pyobj * pyobj) :=
  let uri := "/linear-swap-api/v1/swap_cross_trigger_cancelall" in
  request w "POST" uri None (Some (revoke_all_trigger_orders_body contract_code)) None true.

Definition get_trigger_openorders_body (contract_code page_index page_size : value) : pydict :=
  let body := [("contract_code", contract_code)] in
  let body := update_if body "page_index" page_index in
  update_if body "page_size" page_size.

Definition get_trigger_openorders (w : world) (contract_code page_index page_size : value)
  : M (pyobj * pyobj) :=
  let uri := "/linear-swap-api/v1/swap_cross_trigger_openorders" in
  request w "POST" uri None
          (Some (get_trigger_openorders_body contract_code page_index page_size)) None true.

(** The names the module binds at its top level: its imports, [__all__] and
    the class.  A name that a function body reads without binding it is looked
    up here (and then among the builtins). *)
Definition module_globals : list string :=
  [ "gzip"; "json"; "copy"; "hmac"; "base64"; "urllib"; "hashlib"; "datetime"; "time";
    "urljoin"; "AsyncHttpRequests"; "USER_AGENT"; "__all__"; "HuobiUsdtSwapCrossRestAPI" ].

(** Reading a name inside a function whose local variables are [locals]: a
    name that the function does not bind is looked up among [module_globals]
    and the builtins, and [NameError] is raised when nothing binds it.  The
    names the methods read are local or, for [trade_type], bound nowhere. *)
Definition load_name (locals : pydict) (name : string) : outcome value :=
  match dict_get locals name with
  | Some v => Return v
  | None => Raise (NameError name)
  end.

(** The dictionary display of [get_trigger_hisorders] reads [trade_type], which
    is not among the parameters of the method. *)
Definition get_trigger_hisorders_body (contract_code status create_date page_index
    page_size : value) : outcome pydict :=
  let locals := [ ("contract_code", contract_code); ("status", status);
                  ("create_date", create_date); ("page_index", page_index);
                  ("page_size", page_size) ] in
  v_contract_code ← load_name locals "contract_code";
  v_trade_type ← load_name locals "trade_type";
  v_status ← load_name locals "status";
  v_create_date ← load_name locals "create_date";
  let body := [ ("contract_code", v_contract_code); ("trade_type", v_trade_type);
                ("status", v_status); ("create_date", v_create_date) ] in
  let body := update_if body "page_index" page_index in
  Return (update_if body "page_size" page_size).

Definition get_trigger_hisorders (w : world) (contract_code status create_date page_index
    page_size : value) : M (pyobj * pyobj) :=
  let uri := "/linear-swap-api/v1/swap_cross_trigger_hisorders" in
  body ← lift (get_trigger_hisorders_body contract_code status create_date page_index
                 page_size);
  request w "POST" uri None (Some body) None true.

Definition lightning_close_position_body (contract_code volume direction client_order_id
    order_price_type : value) : pydict :=
  let body := [("contract_code", contract_code); ("volume", volume); ("direction", direction)] in
  let body := update_if body "client_order_id" client_order_id in
  update_if body "order_price_type" order_price_type.

Definition lightning_close_position (w : world) (contract_code volume direction
    client_order_id order_price_type : value) : M (pyobj * pyobj) :=
  let uri := "/linear-swap-api/v1/swap_cross_lightning_close_position" in
  request w "POST" uri None
          (Some (lightning_close_position_body contract_code volume direction client_order_id
                   order_price_type)) None true.

(** ** The interface of the client as one type *)

Inductive api_call : Type :=
  | GetSwapInfo (contract_code : value)
  | GetPriceLimit (contract_code : value)
  | GetOrderbook (contract_code : value)
  | GetKlines (contract_code period size sfrom to : value)
  | GetMergedData (contract_code : value)
  | GetFundingRate (contract_code : value)
  | GetAssetInfo (margin_account : value)
  | GetPosition (contract_code : value)
  | GetAccountPosition (margin_account : value)
  | CreateOrder (contract_code price quantity direction offset lever_rate order_price_type
                 client_order_id : value) (kwargs : pydict)
  | CreateOrders (orders_data : pydict)
  | RevokeOrder (contract_code order_id client_order_id : value)
  | RevokeOrders (contract_code : value) (order_ids client_order_ids : option (list string))
  | RevokeOrderAll (contract_code : value)
  | GetOrderInfo (contract_code : value) (order_ids client_order_ids : option (list string))
  | GetOrderDetail (contract_code order_id created_at order_type : value)
                   (page_index page_size : option value)
  | GetOpenOrders (contract_code : value) (index size : option value)
  | GetHistoryOrders (contract_code trade_type stype status create_date : value)
                     (page_index page_size : option value)
  | TransferInner (asset from_ to amount : value)
  | TransferBetweenSpotSwap (margin_account amount from_ to : value) (currency : option value)
  | CreateTriggerOrder (contract_code trigger_type trigger_price order_price order_price_type
                        volume direction offset lever_rate : value)
  | RevokeTriggerOrder (contract_code order_id : value)
  | RevokeAllTriggerOrders (contract_code : value)
  | GetTriggerOpenorders (contract_code page_index page_size : value)
  | GetTriggerHisorders (contract_code status create_date page_index page_size : value)
  | LightningClosePosition (contract_code volume direction client_order_id
                            order_price_type : value).

(** Calling the method. *)
Definition perform (w : world) (c : api_call) : M (pyobj * pyobj) :=
  match c with
  | GetSwapInfo cc => get_swap_info w cc
  | GetPriceLimit cc => get_price_limit w cc
  | GetOrderbook cc => get_orderbook w cc
  | GetKlines cc period size sfrom to => get_klines w cc period size sfrom to
  | GetMergedData cc => get_merged_data w cc
  | GetFundingRate cc => get_funding_rate w cc
  | GetAssetInfo ma => get_asset_info w ma
  | GetPosition cc => get_position w cc
  | GetAccountPosition ma => get_account_position w ma
  | CreateOrder cc price quantity direction offset lever_rate opt coid kwargs =>
      create_order w cc price quantity direction offset lever_rate opt coid kwargs
  | CreateOrders orders_data => create_orders w orders_data
  | RevokeOrder cc oid coid => revoke_order w cc oid coid
  | RevokeOrders cc oids coids => revoke_orders w cc oids coids
  | RevokeOrderAll cc => revoke_order_all w cc
  | GetOrderInfo cc oids coids => get_order_info w cc oids coids
  | GetOrderDetail cc oid created_at order_type page_index page_size =>
      get_order_detail w cc oid created_at order_type page_index page_size
  | GetOpenOrders cc index size => get_open_orders w cc index size
  | GetHistoryOrders cc trade_type stype status create_date page_index page_size =>
      get_history_orders w cc trade_type stype status create_date page_index page_size
  | TransferInner asset from_ to amount => transfer_inner w asset from_ to amount
  | TransferBetweenSpotSwap ma amount from_ to currency =>
      transfer_between_spot_swap w ma amount from_ to currency
  | CreateTriggerOrder cc trigger_type trigger_price order_price opt volume direction offset
                       lever_rate =>
      create_trigger_order w cc trigger_type trigger_price order_price opt volume direction
                           offset lever_rate
  | RevokeTriggerOrder cc oid => revoke_trigger_order w cc oid
  | RevokeAllTriggerOrders cc => revoke_all_trigger_orders w cc
  | GetTriggerOpenorders cc page_index page_size =>
      get_trigger_openorders w cc page_index page_size
  | GetTriggerHisorders cc status create_date page_index page_size =>
      get_trigger_hisorders w cc status create_date page_index page_size
  | LightningClosePosition cc volume direction coid opt =>
      lightning_close_position w cc volume direction coid opt
  end.

(** The mapping the method builds: its query mapping for a [GET] endpoint, its
    body for a [POST] endpoint. *)
Definition mapping_of (c : api_call) : outcome pydict :=
  match c with
  | GetSwapInfo cc => Return (get_swap_info_params cc)
  | GetPriceLimit cc => Return (get_price_limit_params cc)
  | GetOrderbook cc => Return (get_orderbook_params cc)
  | GetKlines cc period size sfrom to => Return (get_klines_params cc period size sfrom to)
  | GetMergedData cc => Return (get_merged_data_params cc)
  | GetFundingRate cc => Return (get_funding_rate_params cc)
  | GetAssetInfo ma => Return (get_asset_info_body ma)
  | GetPosition cc => Return (get_position_body cc)
  | GetAccountPosition ma => Return (get_account_position_body ma)
  | CreateOrder cc price quantity direction offset lever_rate opt coid kwargs =>
      Return (create_order_body cc price quantity direction offset lever_rate opt coid kwargs)
  | CreateOrders orders_data => Return orders_data
  | RevokeOrder cc oid coid => Return (revoke_order_body cc oid coid)
  | RevokeOrders cc oids coids => Return (revoke_orders_body cc oids coids)
  | RevokeOrderAll cc => Return (revoke_order_all_body cc)
  | GetOrderInfo cc oids coids => Return (get_order_info_body cc oids coids)
  | GetOrderDetail cc oid created_at order_type page_index page_size =>
      Return (get_order_detail_body cc oid created_at order_type page_index page_size)
  | GetOpenOrders cc index size => Return (get_open_orders_body cc index size)
  | GetHistoryOrders cc trade_type stype status create_date page_index page_size =>
      Return (get_history_orders_body cc trade_type stype status create_date page_index
                page_size)
  | TransferInner asset from_ to amount => Return (transfer_inner_body asset from_ to amount)
  | TransferBetweenSpotSwap ma amount from_ to currency =>
      Return (transfer_between_spot_swap_body ma amount from_ to currency)
  | CreateTriggerOrder cc trigger_type trigger_price order_price opt volume direction offset
                       lever_rate =>
      Return (create_trigger_order_body cc trigger_type trigger_price order_price opt volume
                direction offset lever_rate)
  | RevokeTriggerOrder cc oid => Return (revoke_trigger_order_body cc oid)
  | RevokeAllTriggerOrders cc => Return (revoke_all_trigger_orders_body cc)
  | GetTriggerOpenorders cc page_index page_size =>
      Return (get_trigger_openorders_body cc page_index page_size)
  | GetTriggerHisorders cc status create_date page_index page_size =>
      get_trigger_hisorders_body cc status create_date page_index page_size
  | LightningClosePosition cc volume direction coid opt =>
      Return (lightning_close_position_body cc volume direction coid opt)
  end.

(** Whether the mapping travels as the query mapping ([GET]) or as the body. *)
Definition sends_query (c : api_call) : bool :=
  match c with
  | GetSwapInfo _ | GetPriceLimit _ | GetOrderbook _ | GetKlines _ _ _ _ _
  | GetMergedData _ | GetFundingRate _ => true
  | _ => false
  end.

(** An optional argument of a method, by the way the method treats it: a
    scalar or a list of identifiers with default [None], which the method
    tests with [if x:]; an argument with another default, which goes into the
    mapping untested; an entry of [**kwargs], which [create_order] tests with
    [is not None]. *)
Inductive optarg : Type :=
  | Scalar (v : value)
  | IdList (ids : option (list string))
  | Defaulted (v : option value) (dflt : value)
  | Keyword (v : value).

(** The optional arguments of each method (every parameter with a default,
    and the keyword arguments), with the key each one is sent under. *)
Definition optional_args (c : api_call) : list (string * optarg) :=
  match c with
  | GetSwapInfo cc => [("contract_code", Scalar cc)]
  | GetPriceLimit cc => [("contract_code", Scalar cc)]
  | GetKlines _ _ size sfrom to => [("size", Scalar size); ("from", Scalar sfrom); ("to", Scalar to)]
  | GetAssetInfo ma => [("margin_account", Scalar ma)]
  | GetPosition cc => [("contract_code", Scalar cc)]
  | CreateOrder _ _ _ _ _ _ _ coid kwargs =>
      ("client_order_id", Scalar coid) :: map (fun kv => (fst kv, Keyword (snd kv))) kwargs
  | RevokeOrder _ oid coid => [("order_id", Scalar oid); ("client_order_id", Scalar coid)]
  | RevokeOrders _ oids coids => [("order_id", IdList oids); ("client_order_id", IdList coids)]
  | GetOrderInfo _ oids coids => [("order_id", IdList oids); ("client_order_id", IdList coids)]
  | GetOrderDetail _ _ created_at order_type page_index page_size =>
      [ ("created_at", Scalar created_at); ("order_type", Scalar order_type);
        ("page_index", Defaulted page_index (VInt 1));
        ("page_size", Defaulted page_size (VInt 20)) ]
  | GetOpenOrders _ index size =>
      [("page_index", Defaulted index (VInt 1)); ("page_size", Defaulted size (VInt 50))]
  | GetHistoryOrders _ _ _ _ _ page_index page_size =>
      [ ("page_index", Defaulted page_index (VInt 0));
        ("page_size", Defaulted page_size (VInt 50)) ]
  | TransferBetweenSpotSwap _ _ _ _ currency => [("currency", Defaulted currency (VStr "USDT"))]
  | GetTriggerOpenorders _ page_index page_size =>
      [("page_index", Scalar page_index); ("page_size", Scalar page_size)]
  | GetTriggerHisorders _ _ _ page_index page_size =>
      [("page_index", Scalar page_index); ("page_size", Scalar page_size)]
  | LightningClosePosition _ _ _ coid opt =>
      [("client_order_id", Scalar coid); ("order_price_type", Scalar opt)]
  | _ => []
  end.

(** An optional argument is provided when the caller passed it, and not as
    [None]. *)
Definition provided (a : optarg) : bool :=
  match a with
  | Scalar VNone | IdList None | Defaulted None _ | Keyword VNone => false
  | _ => true
  end.

(** What an argument is sent as: itself, the comma-joined list, or the default
    of an argument that was left out. *)
Definition sent_as (a : optarg) : value :=
  match a with
  | Scalar v => v
  | IdList (Some l) => VStr (join "," l)
  | IdList None => VNone
  | Defaulted v dflt => default dflt v
  | Keyword v => v
  end.

(** Whether the method puts the argument into its mapping: the truth value of
    an argument that defaults to [None], always for another default, and
    [v is not None] for a keyword argument. *)
Definition is_sent (a : optarg) : bool :=
  match a with
  | Scalar v => truthy v
  | IdList (Some (_ :: _)) => true
  | IdList _ => false
  | Defaulted _ _ => true
  | Keyword v => is_not_none (Some v)
  end.

(** Python binds a keyword that names a parameter to that parameter, so the
    [**kwargs] of [create_order] never holds such a key (and no key twice). *)
Definition create_order_parameters : list string :=
  [ "self"; "contract_code"; "price"; "quantity"; "direction"; "offset"; "lever_rate";
    "order_price_type"; "client_order_id" ].

Definition call_wf (c : api_call) : Prop :=
  match c with
  | CreateOrder _ _ _ _ _ _ _ _ kwargs =>
      dict_wf kwargs /\ (forall k, In k create_order_parameters -> ~ In k (dict_keys kwargs))
  | _ => True
  end.

(** ** Notions used to state the properties *)

(** The shape [YYYY-MM-DDTHH:MM:SS]: nineteen characters, digits except for
    the separators, nothing after the seconds. *)
Definition timestamp_shape (s : string) : bool :=
  match list_ascii_of_string s with
  | [y1; y2; y3; y4; s1; m1; m2; s2; d1; d2; t; h1; h2; s3; n1; n2; s4; c1; c2] =>
      forallb is_digit [y1; y2; y3; y4; m1; m2; d1; d2; h1; h2; n1; n2; c1; c2]
      && Ascii.eqb s1 "-" && Ascii.eqb s2 "-" && Ascii.eqb t "T"
      && Ascii.eqb s3 ":" && Ascii.eqb s4 ":"
  | _ => false
  end.

(** The number that a text of decimal digits stands for. *)
Definition digit_value (c : ascii) : Z := Z.of_N (N_of_ascii c) - 48.

Definition number_of (digits : list ascii) : Z :=
  fold_left (fun acc c => 10 * acc + digit_value c) digits 0.

(** The year, month, day, hour, minute and second that a text of the shape
    [YYYY-MM-DDTHH:MM:SS] shows. *)
Definition timestamp_fields (s : string) : option (Z * Z * Z * Z * Z * Z) :=
  match list_ascii_of_string s with
  | [y1; y2; y3; y4; _; m1; m2; _; d1; d2; _; h1; h2; _; n1; n2; _; c1; c2] =>
      if timestamp_shape s
      then Some (number_of [y1; y2; y3; y4], number_of [m1; m2], number_of [d1; d2],
                 number_of [h1; h2], number_of [n1; n2], number_of [c1; c2])
      else None
  | _ => None
  end.

(** The decimal digit [d] put in front of the digits [l]. *)
Definition dig (d : Z) (l : Decimal.uint) : Decimal.uint :=
  match d with
  | 0 => D0 l | 1 => D1 l | 2 => D2 l | 3 => D3 l | 4 => D4 l
  | 5 => D5 l | 6 => D6 l | 7 => D7 l | 8 => D8 l | _ => D9 l
  end.

(** A text of four digits (a year) and a text of two digits. *)
Definition four_digits (s : string) : bool :=
  match list_ascii_of_string s with
  | [a; b; c; d] => forallb is_digit [a; b; c; d]
  | _ => false
  end.

Definition two_digit_text (s : string) : bool :=
  match list_ascii_of_string s with
  | [a; b] => is_digit a && is_digit b
  | _ => false
  end.

(** The four authentication entries that [request] merges into the mapping. *)
Definition auth_fields (w : world) (self : client) : pydict :=
  [ ("AccessKeyId", VStr (_access_key self));
    ("SignatureMethod", VStr "HmacSHA256");
    ("SignatureVersion", VStr "2");
    ("Timestamp", VStr (strftime (utcnow w))) ].

(** The dictionary object an authenticated [request] works on, and its
    entries before the call: the caller's object when it is a non-empty
    dictionary, a new empty one otherwise. *)
Definition working_params (st : state) (params : option loc) : loc * pydict :=
  match params with
  | Some l =>
      let d := default [] (heap st !! l) in
      if dict_truthy d then (l, d) else (fresh (dom (heap st)), [])
  | None => (fresh (dom (heap st)), [])
  end.

(** The mapping that is signed: the entries before the call and the four
    authentication entries. *)
Definition merged_params (w : world) (st : state) (params : option loc) : pydict :=
  dict_update (snd (working_params st params)) (auth_fields w (this st)).

(** The mapping with its signature, as it stands when the signer is done. *)
Definition signed_params (w : world) (st : state) (params : option loc) (sig : string)
  : pydict :=
  dict_setitem (merged_params w st params) "Signature" (VStr sig).

(** The entries of the headers dictionary once [request] has completed it. *)
Definition header_entries (w : world) (method : string) (d : pydict) : pydict :=
  if String.eqb method "GET" then
    dict_setitem (dict_setitem d "Content-type" (VStr "application/x-www-form-urlencoded"))
                 "User-Agent" (VStr (USER_AGENT w))
  else
    dict_setitem (dict_setitem (dict_setitem d "Accept" (VStr "application/json"))
                               "Content-type" (VStr "application/json"))
                 "User-Agent" (VStr (USER_AGENT w)).

Definition header_keys : list string := ["Accept"; "Content-type"; "User-Agent"].

Definition auth_keys : list string :=
  ["AccessKeyId"; "SignatureMethod"; "SignatureVersion"; "Timestamp"; "Signature"].

(** The URL a call goes to: an absolute [uri] as it is, a relative one as
    [urljoin] joins it to the base host, or the exception [urljoin] raises. *)
Definition resolve (w : world) (self : client) (uri : string) : outcome string :=
  if is_absolute uri then Return uri else urljoin w (_host self) uri.

(** The call that [dispatch] makes in a state: verb, url, query mapping read
    through its reference, body, completed headers, timeout. *)
Definition call_of (w : world) (method url : string) (params : option loc)
    (body : option pydict) (headers : loc) (hp : gmap loc pydict) : fetch_call :=
  let hd := header_entries w method (default [] (hp !! headers)) in
  let hp' := <[headers := hd]> hp in
  FetchCall (if String.eqb method "GET" then "GET" else "POST") url
            (match params with
             | Some l => Some (default [] (hp' !! l))
             | None => None
             end)
            (if String.eqb method "GET" then None else body) hd 10.

(** The answer of the transport to a call, without the status code. *)
Definition answer (w : world) (call : fetch_call) : pyobj * pyobj :=
  let '(_, success, error) := fetch w call in (success, error).

(** The calls that an operation added to the trace. *)
Definition new_calls (st st' : state) (l : list fetch_call) : Prop :=
  calls st' = (calls st ++ l)%list.

(** A payload that is a mapping: a [dict], or text that decodes to one. *)
Definition mapping_payload (w : world) (success : pyobj) (d : list (string * pyobj)) : Prop :=
  success = ODict d \/ exists s, success = OStr s /\ json_loads w s = Some (ODict d).

(** Exactly one half of a result pair is [None]. *)
Definition one_sided (r : pyobj * pyobj) : Prop :=
  (fst r = ONone /\ snd r <> ONone) \/ (fst r <> ONone /\ snd r = ONone).


(** Keys in ascending order. *)
Definition key_le (x y : string * value) : Prop := String.leb (fst x) (fst y) = true.

(** ** Sample clients, worlds and states *)

Definition sample_client : client :=
  __init__ "https://api.hbdm.com" "k" "secret".

(** A library for ASCII text without a bracketed host: there the tables are
    not consulted. *)
Definition ascii_library : library := Library id id id (fun _ => false).

(** [urljoin] for a base without a path and a rooted relative path. *)
Definition urljoin_rooted (base uri : string) : outcome string := Return (base ++ uri).

(** [json.loads] on the one text it is asked about here. *)
Definition json_loads_array (s : string) : option pyobj :=
  if String.eqb s "[]" then Some (OList []) else None.

Definition sample_clock : datetime := Datetime 2024 1 1 0 0 0 0.

Definition ok_payload : pyobj :=
  ODict [("status", OStr "ok"); ("data", ODict [("order_id", ONum 9861634)])].

Definition error_payload : pyobj :=
  ODict [ ("status", OStr "error"); ("err_code", ONum 1061);
          ("err_msg", OStr "order price exceeds limit") ].

Definition world_answering (success error : pyobj) : world :=
  World ascii_library "AlphaQuant" sample_clock urljoin_rooted json_loads_array
        (fun _ => (ONum 200, success, error)).

Definition world_ok : world := world_answering ok_payload ONone.
Definition world_error : world := world_answering error_payload ONone.
Definition world_array : world := world_answering (OStr "[]") ONone.
Definition world_timeout : world := world_answering ONone (OExc "timeout").

(** The transport answers with no payload and an error slot that is false: the
    empty text, or [None]. *)
Definition world_silent : world := world_answering ONone (OStr "").
Definition world_mute : world := world_answering ONone ONone.

(** A world in which [urljoin] refuses the base host. *)
Definition world_unjoinable : world :=
  World ascii_library "AlphaQuant" sample_clock (fun _ _ => Raise ValueError)
        json_loads_array (fun _ => (ONum 200, ok_payload, ONone)).

Definition empty_state : state := State sample_client ∅ [].

(** A state in which the caller holds one dictionary, at reference 1. *)
Definition caller_state : state :=
  State sample_client {[ 1%positive := [("contract_code", VStr "BTC-USDT")] ]} [].

(** A state in which the caller's dictionary still holds the signature of an
    earlier call. *)
Definition resigning_state : state :=
  State sample_client
        {[ 1%positive := [("Signature", VStr "old"); ("contract_code", VStr "BTC-USDT")] ]} [].

(** ** Further notions: texts, calls and endpoints *)


(** A character of an ASCII text that holds no opening bracket: for such a
    URL [urlsplit] consults neither the Unicode tables nor [ipaddress]. *)
Definition plain_char (c : ascii) : bool := ascii_char c && negb (Ascii.eqb c "[").






(** A byte. *)
Definition is_byte (b : Z) : Prop := 0 <= b < 256.

(** A character of base64 text: one of the alphabet, or the padding sign. *)
Definition base64_char (c : ascii) : bool :=
  contains c Base64.alphabet || Ascii.eqb c "=".

Definition base64_text (s : string) : bool := all_chars base64_char s.

(** The verb and the body that reach the transport. *)
Definition verb_of (method : string) : string :=
  if String.eqb method "GET" then "GET" else "POST".
Definition data_of (method : string) (body : option pydict) : option pydict :=
  if String.eqb method "GET" then None else body.

(** The result pair, or the exception, for an answer whose error slot is
    false. *)
Definition result_of_payload (d : list (string * pyobj)) : outcome (pyobj * pyobj) :=
  if is_not_ok (dict_get d "status") then Return (ONone, ODict d)
  else Return (ODict d, ONone).

Definition is_dict (v : pyobj) : bool :=
  match v with ODict _ => true | _ => false end.
Definition is_text (v : pyobj) : bool :=
  match v with OStr _ => true | _ => false end.

(** The fixed path of each endpoint. *)
Definition uri_of (c : api_call) : string :=
  match c with
  | GetSwapInfo _ => "/linear-swap-api/v1/swap_contract_info"
  | GetPriceLimit _ => "/linear-swap-api/v1/swap_price_limit"
  | GetOrderbook _ => "/linear-swap-ex/market/depth"
  | GetKlines _ _ _ _ _ => "/linear-swap-ex/market/history/kline"
  | GetMergedData _ => "/linear-swap-ex/market/detail/merged"
  | GetFundingRate _ => "/linear-swap-ex/v1/swap_funding_rate"
  | GetAssetInfo _ => "/linear-swap-api/v1/swap_cross_account_info"
  | GetPosition _ => "/linear-swap-api/v1/swap_cross_position_info"
  | GetAccountPosition _ => "/linear-swap-api/v1/swap_cross_account_position_info"
  | CreateOrder _ _ _ _ _ _ _ _ _ => "/linear-swap-api/v1/swap_cross_order"
  | CreateOrders _ => "/linear-swap-api/v1/swap_cross_batchorder"
  | RevokeOrder _ _ _ => "/linear-swap-api/v1/swap_cross_cancel"
  | RevokeOrders _ _ _ => "/linear-swap-api/v1/swap_cross_cancel"
  | RevokeOrderAll _ => "/linear-swap-api/v1/swap_cross_cancelall"
  | GetOrderInfo _ _ _ => "/linear-swap-api/v1/swap_cross_order_info"
  | GetOrderDetail _ _ _ _ _ _ => "/linear-swap-api/v1/swap_cross_order_detail"
  | GetOpenOrders _ _ _ => "/linear-swap-api/v1/swap_cross_openorders"
  | GetHistoryOrders _ _ _ _ _ _ _ => "/linear-swap-api/v1/swap_cross_hisorders"
  | TransferInner _ _ _ _ => "/linear-swap-api/v1/swap_transfer_inner"
  | TransferBetweenSpotSwap _ _ _ _ _ => "https://api.huobi.pro/v2/account/transfer"
  | CreateTriggerOrder _ _ _ _ _ _ _ _ _ => "/linear-swap-api/v1/swap_cross_trigger_order"
  | RevokeTriggerOrder _ _ => "/linear-swap-api/v1/swap_cross_trigger_cancel"
  | RevokeAllTriggerOrders _ => "/linear-swap-api/v1/swap_cross_trigger_cancelall"
  | GetTriggerOpenorders _ _ _ => "/linear-swap-api/v1/swap_cross_trigger_openorders"
  | GetTriggerHisorders _ _ _ _ _ => "/linear-swap-api/v1/swap_cross_trigger_hisorders"
  | LightningClosePosition _ _ _ _ _ =>
      "/linear-swap-api/v1/swap_cross_lightning_close_position"
  end.

(** The one call of a market-data endpoint: the query mapping [d] as it was
    built, no body, the headers of a [GET]. *)
Definition get_call (w : world) (url : string) (d : pydict) : fetch_call :=
  FetchCall "GET" url (Some d) None
            [ ("Content-type", VStr "application/x-www-form-urlencoded");
              ("User-Agent", VStr (USER_AGENT w)) ] 10.

(** The one call of an account or order endpoint: the query mapping holds the
    authentication entries and the signature [sig], the body is [d]. *)
Definition post_call (w : world) (self : client) (url : string) (d : pydict) (sig : string)
  : fetch_call :=
  FetchCall "POST" url
            (Some (auth_fields w self ++ [("Signature", VStr sig)])%list) (Some d)
            [ ("Accept", VStr "application/json");
              ("Content-type", VStr "application/json");
              ("User-Agent", VStr (USER_AGENT w)) ] 10.

(** A world whose transport answers with text that is not JSON. *)
Definition world_garbled : world := world_answering (OStr "not json") ONone.

(** The call of an unauthenticated [GET] of [/x] without parameters. *)
Definition sample_get_call : fetch_call :=
  FetchCall "GET" "https://api.hbdm.com/x" None None
            [ ("Content-type", VStr "application/x-www-form-urlencoded");
              ("User-Agent", VStr "AlphaQuant") ] 10.

(** A character of a form-encoded query: unreserved, or one of [+], [%], [=]
    and [&]. *)
Definition query_char (c : ascii) : bool :=
  Urllib.always_safe c || contains c "+%=&".



(** ** Proof automation *)

(** Lookups in the heap after insertions. *)
Ltac heap_simpl :=
  repeat first [ rewrite lookup_insert_eq
               | rewrite insert_insert_eq
               | progress cbn [from_option id heap this calls fst snd] ].

(** Lookups of literal keys. *)
Ltac literal_keys :=
  repeat (cbn [dict_get String.eqb Ascii.eqb Bool.eqb andb];
          rewrite ?andb_false_r, ?andb_true_r).

(** The definition of the method that was called. *)
Ltac unfold_methods :=
  unfold get_swap_info, get_price_limit, get_orderbook, get_klines, get_merged_data,
    get_funding_rate, get_asset_info, get_position, get_account_position, create_order,
    create_orders, revoke_order, revoke_orders, revoke_order_all, get_order_info,
    get_order_detail, get_open_orders, get_history_orders, transfer_inner,
    transfer_between_spot_swap, create_trigger_order, revoke_trigger_order,
    revoke_all_trigger_orders, get_trigger_openorders, lightning_close_position in *.

(** * Properties *)

(** ** Dictionaries *)

Lemma dict_get_setitem (d : pydict) (k k' : string) (v : value) :
  dict_get (dict_setitem d k v) k' =
  if String.eqb k k' then Some v else dict_get d k'.
Proof.
  induction d as [|[k0 v0] d IH]; simpl.
  - destruct (String.eqb k k'); reflexivity.
  - destruct (String.eqb k0 k) eqn:E0; simpl.
    + apply String.eqb_eq in E0; subst k0.
      destruct (String.eqb k k'); reflexivity.
    + destruct (String.eqb k0 k') eqn:E1.
      * apply String.eqb_eq in E1; subst k0.
        rewrite String.eqb_sym, E0. reflexivity.
      * exact IH.
Qed.

Lemma dict_get_setitem_eq (d : pydict) (k : string) (v : value) :
  dict_get (dict_setitem d k v) k = Some v.
Proof. rewrite dict_get_setitem, String.eqb_refl. reflexivity. Qed.

Lemma dict_get_setitem_ne (d : pydict) (k k' : string) (v : value) :
  k <> k' -> dict_get (dict_setitem d k v) k' = dict_get d k'.
Proof.
  intros Hne. rewrite dict_get_setitem.
  destruct (String.eqb k k') eqn:E; [apply String.eqb_eq in E; contradiction | reflexivity].
Qed.

Lemma dict_get_None {V : Type} (d : list (string * V)) (k : string) :
  dict_get d k = None <-> ~ In k (map fst d).
Proof.
  induction d as [|[k0 v0] d IH]; simpl.
  - tauto.
  - destruct (String.eqb k0 k) eqn:E.
    + apply String.eqb_eq in E. split; [discriminate | intros H; exfalso; apply H; left; exact E].
    + apply String.eqb_neq in E. rewrite IH. tauto.
Qed.

Lemma dict_keys_setitem (d : pydict) (k k' : string) (v : value) :
  In k' (dict_keys (dict_setitem d k v)) <-> k' = k \/ In k' (dict_keys d).
Proof.
  unfold dict_keys. induction d as [|[k0 v0] d IH]; simpl.
  - intuition.
  - destruct (String.eqb k0 k) eqn:E; simpl.
    + apply String.eqb_eq in E. subst k0. intuition.
    + rewrite IH. intuition.
Qed.

(** A key that was absent is appended: the new entry is the last one. *)
Lemma dict_setitem_new (d : pydict) (k : string) (v : value) :
  ~ In k (dict_keys d) -> dict_setitem d k v = (d ++ [(k, v)])%list.
Proof.
  unfold dict_keys. induction d as [|[k0 v0] d IH]; simpl; intros H; [reflexivity|].
  destruct (String.eqb k0 k) eqn:E.
  - apply String.eqb_eq in E. exfalso. apply H. left. exact E.
  - f_equal. apply IH. intros Hin. apply H. right. exact Hin.
Qed.

Lemma dict_setitem_wf (d : pydict) (k : string) (v : value) :
  dict_wf d -> dict_wf (dict_setitem d k v).
Proof.
  unfold dict_wf, dict_keys. induction d as [|[k0 v0] d IH]; simpl; intros H.
  - constructor; [simpl; tauto | constructor].
  - inversion H as [|? ? Hnotin Hnd]; subst.
    destruct (String.eqb k0 k) eqn:E; simpl.
    + constructor; assumption.
    + constructor; [|apply IH; exact Hnd].
      intros Hin. apply (dict_keys_setitem d k k0 v) in Hin.
      destruct Hin as [->|Hin]; [rewrite String.eqb_refl in E; discriminate | contradiction].
Qed.

(** [update] keeps the invariant, so the mapping that [request] signs is a
    dictionary whenever the caller's is. *)
Lemma dict_update_wf (d other : pydict) : dict_wf d -> dict_wf (dict_update d other).
Proof.
  unfold dict_update. revert d. induction other as [|[k v] other IH]; intros d H; simpl;
    [exact H | apply IH, dict_setitem_wf, H].
Qed.

(** ** Ordering of keys and the stable sort *)

Lemma ascii_compare_N (a b : ascii) :
  Ascii.compare a b = N.compare (N_of_ascii a) (N_of_ascii b).
Proof. reflexivity. Qed.

Lemma string_compare_refl (s : string) : String.compare s s = Eq.
Proof.
  induction s as [|c s IH]; simpl; [reflexivity|].
  rewrite ascii_compare_N, N.compare_refl. exact IH.
Qed.

Lemma string_compare_lt_trans (s1 s2 s3 : string) :
  String.compare s1 s2 = Lt -> String.compare s2 s3 = Lt -> String.compare s1 s3 = Lt.
Proof.
  revert s2 s3. induction s1 as [|a1 s1 IH]; intros [|a2 s2] [|a3 s3]; simpl;
    try congruence.
  rewrite !ascii_compare_N.
  destruct (N.compare (N_of_ascii a1) (N_of_ascii a2)) eqn:E12;
    destruct (N.compare (N_of_ascii a2) (N_of_ascii a3)) eqn:E23;
    intros H1 H2; try discriminate.
  - apply N.compare_eq_iff in E12, E23. rewrite E12, E23, N.compare_refl.
    eapply IH; eassumption.
  - apply N.compare_eq_iff in E12. rewrite E12, E23. reflexivity.
  - apply N.compare_eq_iff in E23. rewrite <- E23, E12. reflexivity.
  - pose proof (proj1 (N.compare_lt_iff _ _) E12) as L12.
    pose proof (proj1 (N.compare_lt_iff _ _) E23) as L23.
    rewrite (proj2 (N.compare_lt_iff _ _) (N.lt_trans _ _ _ L12 L23)). reflexivity.
Qed.

Lemma string_leb_trans (s1 s2 s3 : string) :
  String.leb s1 s2 = true -> String.leb s2 s3 = true -> String.leb s1 s3 = true.
Proof.
  unfold String.leb.
  destruct (String.compare s1 s2) eqn:E12; try discriminate;
    destruct (String.compare s2 s3) eqn:E23; try discriminate; intros _ _.
  - apply String.compare_eq_iff in E12, E23. subst. rewrite string_compare_refl. reflexivity.
  - apply String.compare_eq_iff in E12. subst. rewrite E23. reflexivity.
  - apply String.compare_eq_iff in E23. subst. rewrite E12. reflexivity.
  - rewrite (string_compare_lt_trans s1 s2 s3 E12 E23). reflexivity.
Qed.

Lemma insert_by_key_perm (x : string * value) (l : pydict) :
  Permutation (insert_by_key x l) (x :: l).
Proof.
  induction l as [|y l IH]; simpl; [reflexivity|].
  destruct (String.leb (fst x) (fst y)); [reflexivity|].
  rewrite IH. apply perm_swap.
Qed.

Lemma sorted_by_key_perm (l : pydict) : Permutation (sorted_by_key l) l.
Proof.
  induction l as [|x l IH]; simpl; [reflexivity|].
  rewrite insert_by_key_perm. constructor. exact IH.
Qed.

Lemma insert_by_key_sorted (x : string * value) (l : pydict) :
  StronglySorted key_le l -> StronglySorted key_le (insert_by_key x l).
Proof.
  induction l as [|y l IH]; simpl; intros H.
  - constructor; [constructor | constructor].
  - inversion H as [|? ? Hs Hall]; subst.
    destruct (String.leb (fst x) (fst y)) eqn:E.
    + constructor; [exact H|].
      constructor; [exact E|].
      eapply List.Forall_impl; [|exact Hall].
      intros z Hz. unfold key_le in *. eapply string_leb_trans; eassumption.
    + constructor; [apply IH; exact Hs|].
      eapply Permutation_Forall; [symmetry; apply insert_by_key_perm|].
      constructor; [|exact Hall].
      unfold key_le. destruct (String.leb_total (fst x) (fst y)) as [F|F]; congruence.
Qed.

Lemma sorted_by_key_sorted (l : pydict) : StronglySorted key_le (sorted_by_key l).
Proof.
  induction l as [|x l IH]; simpl; [constructor|].
  apply insert_by_key_sorted. exact IH.
Qed.

(** Entries of a dictionary with the same key are the same entry. *)
Lemma dict_wf_entry (d : pydict) (x y : string * value) :
  dict_wf d -> In x d -> In y d -> fst x = fst y -> x = y.
Proof.
  unfold dict_wf, dict_keys. induction d as [|z d IH]; simpl; intros Hnd Hx Hy E; [tauto|].
  inversion Hnd as [|? ? Hnotin Hnd']; subst.
  destruct Hx as [->|Hx], Hy as [->|Hy].
  - reflexivity.
  - exfalso. apply Hnotin. rewrite E. apply in_map. exact Hy.
  - exfalso. apply Hnotin. rewrite <- E. apply in_map. exact Hx.
  - apply IH; assumption.
Qed.

Lemma dict_wf_perm (d d' : pydict) : Permutation d d' -> dict_wf d -> dict_wf d'.
Proof.
  unfold dict_wf, dict_keys. intros Hp Hnd.
  eapply Permutation_NoDup; [apply Permutation_map; exact Hp | exact Hnd].
Qed.

(** Two key-sorted arrangements of the same dictionary are the same list. *)
Lemma sorted_unique (l1 l2 : pydict) :
  dict_wf l1 -> Permutation l1 l2 ->
  StronglySorted key_le l1 -> StronglySorted key_le l2 -> l1 = l2.
Proof.
  revert l2. induction l1 as [|x l1 IH]; intros l2 Hwf Hp Hs1 Hs2.
  - apply Permutation_nil in Hp. congruence.
  - destruct l2 as [|y l2]; [symmetry in Hp; apply Permutation_nil in Hp; discriminate|].
    assert (Hwf2 : dict_wf (y :: l2)) by (eapply dict_wf_perm; eassumption).
    inversion Hs1 as [|? ? Hs1' Hall1]; subst.
    inversion Hs2 as [|? ? Hs2' Hall2]; subst.
    assert (Hxy : x = y).
    { assert (Hy : In y (x :: l1)).
      { eapply Permutation_in; [symmetry; exact Hp | left; reflexivity]. }
      assert (Hx : In x (y :: l2)).
      { eapply Permutation_in; [exact Hp | left; reflexivity]. }
      destruct Hy as [Hy|Hy]; [exact Hy|].
      destruct Hx as [Hx|Hx]; [congruence|].
      rewrite List.Forall_forall in Hall1, Hall2.
      apply (dict_wf_entry (x :: l1) x y Hwf); [left; reflexivity | right; exact Hy |].
      apply String.leb_antisym; [apply (Hall1 y Hy) | apply (Hall2 x Hx)]. }
    subst y. f_equal.
    apply IH; [| eapply Permutation_cons_inv; exact Hp | exact Hs1' | exact Hs2'].
    unfold dict_wf, dict_keys in *. simpl in Hwf. inversion Hwf; assumption.
Qed.

Lemma sorted_by_key_permutation_invariant (p1 p2 : pydict) :
  dict_wf p1 -> Permutation p1 p2 -> sorted_by_key p1 = sorted_by_key p2.
Proof.
  intros Hwf Hp. apply sorted_unique.
  - eapply dict_wf_perm; [symmetry; apply sorted_by_key_perm | exact Hwf].
  - rewrite sorted_by_key_perm, Hp. symmetry. apply sorted_by_key_perm.
  - apply sorted_by_key_sorted.
  - apply sorted_by_key_sorted.
Qed.

(** ** Running the blocks of [request] *)

Lemma or_new_dict_eq (x : option loc) (st : state) :
  or_new_dict x st =
  (Return (fst (working_params st x)),
   State (this st) (<[fst (working_params st x) := snd (working_params st x)]> (heap st))
         (calls st)).
Proof.
  unfold or_new_dict, working_params. destruct x as [l|]; simpl; [|reflexivity].
  unfold mbind, M_bind, deref; simpl.
  destruct (heap st !! l) as [d|] eqn:E; simpl.
  - destruct d as [|y d]; simpl; [reflexivity|].
    unfold mret, M_ret. rewrite insert_id by exact E. destruct st; reflexivity.
  - reflexivity.
Qed.

Lemma authenticate_eq (w : world) (self : client) (method uri : string)
    (params : option loc) (st : state) :
  authenticate w self method uri params st =
  let p := fst (working_params st params) in
  let d1 := dict_update (snd (working_params st params)) (auth_fields w self) in
  match generate_signature (lib w) self method d1 uri with
  | Return sig =>
      (Return (Some p),
       State (this st) (<[p := dict_setitem d1 "Signature" (VStr sig)]> (heap st)) (calls st))
  | Raise e => (Raise e, State (this st) (<[p := d1]> (heap st)) (calls st))
  end.
Proof.
  unfold authenticate. unfold mbind at 1. unfold M_bind at 1.
  rewrite or_new_dict_eq.
  cbn [fst snd]. unfold update, setitem, deref, store, lift, mbind, M_bind, mret, M_ret.
  heap_simpl. unfold auth_fields.
  destruct (generate_signature (lib w) self method _ uri) as [sig|e]; heap_simpl; reflexivity.
Qed.

Lemma dispatch_eq (w : world) (method url : string) (params : option loc)
    (body : option pydict) (headers : loc) (st : state) :
  dispatch w method url params body headers st =
  let call := call_of w method url params body headers (heap st) in
  (Return (answer w call),
   State (this st)
         (<[headers := header_entries w method (default [] (heap st !! headers))]> (heap st))
         (calls st ++ [call])).
Proof.
  unfold dispatch, call_of, header_entries, answer.
  destruct (String.eqb method "GET");
    unfold do_fetch, transport, snapshot, setitem, deref, store, mbind, M_bind, mret, M_ret;
    heap_simpl; destruct params as [l|]; heap_simpl;
    match goal with |- context [fetch w ?c] => destruct (fetch w c) as [[code success] error] end;
    reflexivity.
Qed.

(** The state after the headers dictionary was chosen and completed and the
    call was made, and the result pair, from the state [st1] in which the
    query mapping [params] is settled. *)
Lemma request_tail_eq (w : world) (method url : string) (params : option loc)
    (body : option pydict) (headers : option loc) (st1 : state) :
  (headers ← or_new_dict headers;
   '(success, error) ← dispatch w method url params body headers;
   lift (normalize w success error)) st1 =
  let h := fst (working_params st1 headers) in
  let hp := <[h := snd (working_params st1 headers)]> (heap st1) in
  let call := call_of w method url params body h hp in
  (normalize w (fst (answer w call)) (snd (answer w call)),
   State (this st1) (<[h := header_entries w method (default [] (hp !! h))]> hp)
         (calls st1 ++ [call])).
Proof.
  unfold mbind at 1. unfold M_bind at 1. rewrite or_new_dict_eq.
  unfold mbind at 1. unfold M_bind at 1. rewrite dispatch_eq.
  cbn [heap this calls fst snd].
  destruct (answer w _) as [success error]. reflexivity.
Qed.

Lemma request_eq (w : world) (method uri : string) (params : option loc)
    (body : option pydict) (headers : option loc) (auth : bool) (st : state) :
  request w method uri params body headers auth st =
  let self := this st in
  match resolve w self uri with
  | Raise e => (Raise e, st)
  | Return url =>
      match (if auth then authenticate w self method uri params st
             else (Return params, st)) with
      | (Raise e, st1) => (Raise e, st1)
      | (Return params', st1) =>
          let h := fst (working_params st1 headers) in
          let hp := <[h := snd (working_params st1 headers)]> (heap st1) in
          let call := call_of w method url params' body h hp in
          (normalize w (fst (answer w call)) (snd (answer w call)),
           State (this st1) (<[h := header_entries w method (default [] (hp !! h))]> hp)
                 (calls st1 ++ [call]))
      end
  end.
Proof.
  unfold request, resolve. unfold mbind at 1. unfold M_bind at 1. unfold get_self.
  cbn zeta. unfold mbind at 1. unfold M_bind at 1.
  assert (E : (if is_absolute uri then mret uri else lift (urljoin w (_host (this st)) uri)) st
              = (if is_absolute uri then Return uri else urljoin w (_host (this st)) uri, st))
    by (destruct (is_absolute uri); reflexivity).
  rewrite E.
  destruct (if is_absolute uri then Return uri else urljoin w (_host (this st)) uri)
    as [url|e]; [|reflexivity].
  unfold mbind at 1. unfold M_bind at 1.
  destruct auth.
  - destruct (authenticate w (this st) method uri params st) as [[params'|e] st1];
      [apply request_tail_eq | reflexivity].
  - unfold mret at 1. unfold M_ret at 1. apply request_tail_eq.
Qed.

(** The four ways a call of [request] runs: the URL cannot be formed; no
    authentication; the signer raises; the signer returns. *)
Lemma request_unresolved (w : world) (method uri : string) (params : option loc)
    (body : option pydict) (headers : option loc) (auth : bool) (st : state) (e : exn) :
  resolve w (this st) uri = Raise e ->
  request w method uri params body headers auth st = (Raise e, st).
Proof. intros H. rewrite request_eq. cbn zeta. rewrite H. reflexivity. Qed.

Lemma request_unauthenticated (w : world) (method uri : string) (params : option loc)
    (body : option pydict) (headers : option loc) (st : state) (url : string) :
  resolve w (this st) uri = Return url ->
  let h := fst (working_params st headers) in
  let hp := <[h := snd (working_params st headers)]> (heap st) in
  let call := call_of w method url params body h hp in
  request w method uri params body headers false st =
  (normalize w (fst (answer w call)) (snd (answer w call)),
   State (this st) (<[h := header_entries w method (default [] (hp !! h))]> hp)
         (calls st ++ [call])).
Proof. intros H. rewrite request_eq. cbn zeta. rewrite H. reflexivity. Qed.

Lemma request_signer_raises (w : world) (method uri : string) (params : option loc)
    (body : option pydict) (headers : option loc) (st : state) (url : string) (e : exn) :
  resolve w (this st) uri = Return url ->
  generate_signature (lib w) (this st) method (merged_params w st params) uri = Raise e ->
  request w method uri params body headers true st =
  (Raise e,
   State (this st) (<[fst (working_params st params) := merged_params w st params]> (heap st))
         (calls st)).
Proof.
  intros Hu H. rewrite request_eq. cbn zeta. rewrite Hu, authenticate_eq. cbn zeta.
  unfold merged_params in H. rewrite H. reflexivity.
Qed.

Lemma request_signed (w : world) (method uri : string) (params : option loc)
    (body : option pydict) (headers : option loc) (st : state) (url sig : string) :
  resolve w (this st) uri = Return url ->
  generate_signature (lib w) (this st) method (merged_params w st params) uri = Return sig ->
  let p := fst (working_params st params) in
  let st1 := State (this st) (<[p := signed_params w st params sig]> (heap st)) (calls st) in
  let h := fst (working_params st1 headers) in
  let hp := <[h := snd (working_params st1 headers)]> (heap st1) in
  let call := call_of w method url (Some p) body h hp in
  request w method uri params body headers true st =
  (normalize w (fst (answer w call)) (snd (answer w call)),
   State (this st) (<[h := header_entries w method (default [] (hp !! h))]> hp)
         (calls st ++ [call])).
Proof.
  intros Hu H. rewrite request_eq. cbn zeta. rewrite Hu, authenticate_eq. cbn zeta.
  unfold merged_params in H. rewrite H. reflexivity.
Qed.

(** ** The signer *)







Lemma lower_char_ascii (c : ascii) : ascii_char (lower_char c) = ascii_char c.
Proof.
  destruct c as [[] [] [] [] [] [] [] []]; reflexivity.
Qed.

Lemma ascii_lower_isascii (s : string) : isascii (ascii_lower s) = isascii s.
Proof.
  unfold isascii, ascii_lower. induction s as [|c s IH]; simpl; [reflexivity|].
  rewrite lower_char_ascii, IH. reflexivity.
Qed.

Lemma ascii_lower_isascii_chars (s : string) :
  all_chars ascii_char (ascii_lower s) = all_chars ascii_char s.
Proof. exact (ascii_lower_isascii s). Qed.

(** On ASCII text [lower] converts the letters [A] to [Z] and nothing else,
    whatever the library. *)
Lemma lower_of_ascii (L : library) (s : string) :
  isascii s = true -> lower L s = ascii_lower s.
Proof. unfold lower. intros ->. reflexivity. Qed.





(** The scenario value: the signature of the sample request, whatever the
    tables of the library. *)
Example generate_signature_scenario (L : library) :
  generate_signature L sample_client "GET"
    [ ("AccessKeyId", VStr "k"); ("SignatureMethod", VStr "HmacSHA256");
      ("SignatureVersion", VStr "2"); ("Timestamp", VStr "2024-01-01T00:00:00") ]
    "/linear-swap-api/v1/swap_cross_account_info"
  = Return "Q3EtZejbmeDmCM/Aej71JdJFBc5k34TECjKGpvXzky4=".
Proof. vm_compute. reflexivity. Qed.

(** C5.  The signature depends on the client, the method, the path and the
    entries of the mapping only, and not on the order in which the entries
    were inserted: two dictionaries with the same entries (in particular the
    same dictionary twice) are signed alike. *)
Theorem generate_signature_order_independent (L : library) (self : client)
    (method : string) (p1 p2 : pydict) (request_path : string) :
  dict_wf p1 -> Permutation p1 p2 ->
  generate_signature L self method p1 request_path
  = generate_signature L self method p2 request_path.
Proof.
  intros Hwf Hp. unfold generate_signature, signing_payload.
  rewrite (sorted_by_key_permutation_invariant p1 p2 Hwf Hp). reflexivity.
Qed.

Lemma generate_signature_order_independent_witness :
  dict_wf [("b", VInt 2); ("a", VStr "x y")] /\
  Permutation [("b", VInt 2); ("a", VStr "x y")] [("a", VStr "x y"); ("b", VInt 2)] /\
  generate_signature ascii_library sample_client "POST" [("b", VInt 2); ("a", VStr "x y")] "/x"
  = generate_signature ascii_library sample_client "POST" [("a", VStr "x y"); ("b", VInt 2)] "/x".
Proof.
  assert (Hwf : dict_wf [("b", VInt 2); ("a", VStr "x y")]).
  { unfold dict_wf, dict_keys. simpl. repeat constructor; simpl; intuition discriminate. }
  assert (Hp : Permutation [("b", VInt 2); ("a", VStr "x y")]
                           [("a", VStr "x y"); ("b", VInt 2)]) by apply perm_swap.
  split; [exact Hwf|]. split; [exact Hp|].
  exact (generate_signature_order_independent ascii_library sample_client "POST" _ _ "/x"
           Hwf Hp).
Defined.

(** ** The dispatcher *)

Lemma fresh_not_inserted (m : gmap loc pydict) (p : loc) (x : pydict) :
  fresh (dom (<[p := x]> m)) ≠ p.
Proof.
  intros E. pose proof (is_fresh (dom (<[p := x]> m))) as Hf.
  rewrite E in Hf. apply Hf. apply elem_of_dom. rewrite lookup_insert_eq. eauto.
Qed.

Lemma merged_fields (w : world) (self : client) (d0 : pydict) :
  let merged := dict_update d0 (auth_fields w self) in
  dict_get merged "AccessKeyId" = Some (VStr (_access_key self)) /\
  dict_get merged "SignatureMethod" = Some (VStr "HmacSHA256") /\
  dict_get merged "SignatureVersion" = Some (VStr "2") /\
  dict_get merged "Timestamp" = Some (VStr (strftime (utcnow w))).
Proof.
  unfold auth_fields, dict_update. cbn [fold_left fst snd].
  repeat split; repeat (rewrite dict_get_setitem; cbn [String.eqb Ascii.eqb Bool.eqb]);
    reflexivity.
Qed.

(** The entries that were there before the call stay in the merged mapping. *)
Lemma merged_keeps (w : world) (self : client) (d0 : pydict) (k : string) :
  ~ In k (dict_keys (auth_fields w self)) ->
  dict_get (dict_update d0 (auth_fields w self)) k = dict_get d0 k.
Proof.
  unfold auth_fields, dict_update, dict_keys. cbn [fold_left fst snd map]. intros H.
  rewrite !dict_get_setitem_ne; [reflexivity | | | |];
    intros <-; apply H; simpl; tauto.
Qed.

Lemma header_entries_get (w : world) (method : string) (d : pydict) (k : string) :
  ~ In k header_keys -> dict_get (header_entries w method d) k = dict_get d k.
Proof.
  unfold header_entries, header_keys. intros H.
  destruct (String.eqb method "GET");
    rewrite !dict_get_setitem_ne; try reflexivity;
    intros <-; apply H; simpl; tauto.
Qed.

Lemma header_entries_keys (w : world) (method : string) (d : pydict) (k : string) :
  In k (dict_keys d) -> In k (dict_keys (header_entries w method d)).
Proof.
  unfold header_entries. intros H.
  destruct (String.eqb method "GET"); repeat (apply dict_keys_setitem; right); exact H.
Qed.

(** What the caller's reference [p] holds at the end of a signed call: the
    signed mapping, or, when the very same object was passed as [headers], the
    signed mapping completed with the header entries. *)
Lemma params_after_signing (w : world) (method : string) (headers : option loc)
    (st : state) (p : loc) (signed : pydict) :
  signed <> [] ->
  let st1 := State (this st) (<[p := signed]> (heap st)) (calls st) in
  let h := fst (working_params st1 headers) in
  let hp := <[h := snd (working_params st1 headers)]> (heap st1) in
  let final := <[h := header_entries w method (default [] (hp !! h))]> hp in
  (headers <> Some p /\ final !! p = Some signed) \/
  (headers = Some p /\ final !! p = Some (header_entries w method signed)).
Proof.
  intros Hne st1 h hp final. subst final hp h.
  unfold working_params. cbn [heap st1].
  destruct headers as [l|]; cbn [fst snd].
  - destruct (decide (l = p)) as [->|Hlp].
    + right. split; [reflexivity|].
      rewrite lookup_insert_eq. cbn [default from_option id].
      destruct signed as [|x signed]; [congruence|]. cbn [dict_truthy fst snd].
      heap_simpl. reflexivity.
    + left. split; [congruence|].
      rewrite (lookup_insert_ne _ p l) by congruence.
      destruct (dict_truthy (default [] (heap st !! l))); cbn [fst snd].
      * rewrite !lookup_insert_ne by congruence. apply lookup_insert_eq.
      * rewrite !lookup_insert_ne by apply fresh_not_inserted. apply lookup_insert_eq.
  - left. split; [discriminate|].
    rewrite !lookup_insert_ne by apply fresh_not_inserted. apply lookup_insert_eq.
Qed.

Lemma dict_setitem_not_nil (d : pydict) (k : string) (v : value) : dict_setitem d k v <> [].
Proof. destruct d as [|[k0 v0] d]; simpl; [|destruct (String.eqb k0 k)]; discriminate. Qed.

Lemma request_this (w : world) (method uri : string) (params : option loc)
    (body : option pydict) (headers : option loc) (auth : bool) (st : state) :
  this (snd (request w method uri params body headers auth st)) = this st.
Proof.
  rewrite request_eq. cbn zeta. destruct (resolve w (this st) uri); [|reflexivity].
  destruct auth; [rewrite authenticate_eq; cbn zeta|].
  - destruct (generate_signature _ _ _ _ _); reflexivity.
  - reflexivity.
Qed.

(** ** The timestamp *)

Lemma digit_cases (d : Z) :
  0 <= d <= 9 ->
  d = 0 \/ d = 1 \/ d = 2 \/ d = 3 \/ d = 4 \/ d = 5 \/ d = 6 \/ d = 7 \/ d = 8 \/ d = 9.
Proof. lia. Qed.

Ltac each_digit d H :=
  destruct (digit_cases d H) as [->|[->|[->|[->|[->|[->|[->|[->|[->| ->]]]]]]]]].

Lemma of_uint_acc_dig (d : Z) (l : Decimal.uint) (acc : positive) :
  0 <= d <= 9 ->
  Pos.of_uint_acc (dig d l) acc = Pos.of_uint_acc l (Z.to_pos (d + 10 * Z.pos acc)).
Proof.
  intros H. each_digit d H; cbn [dig Pos.of_uint_acc]; f_equal; lia.
Qed.

Lemma string_of_uint_dig (d : Z) (l : Decimal.uint) :
  0 <= d <= 9 ->
  NilEmpty.string_of_uint (dig d l) = String (digit_char d) (NilEmpty.string_of_uint l).
Proof. intros H. each_digit d H; reflexivity. Qed.

Lemma digit_char_is_digit (d : Z) : 0 <= d <= 9 -> is_digit (digit_char d) = true.
Proof. intros H. each_digit d H; reflexivity. Qed.

Lemma to_int_four (a b c d : Z) :
  1 <= a <= 9 -> 0 <= b <= 9 -> 0 <= c <= 9 -> 0 <= d <= 9 ->
  Z.to_int (1000 * a + 100 * b + 10 * c + d) = Decimal.Pos (dig a (dig b (dig c (dig d Nil)))).
Proof.
  intros Ha Hb Hc Hd.
  assert (E : Z.of_int (Decimal.Pos (dig a (dig b (dig c (dig d Nil)))))
              = 1000 * a + 100 * b + 10 * c + d).
  { cbn [Z.of_int]. unfold Z.of_uint.
    assert (Ha' : 0 <= a <= 9) by lia.
    each_digit a Ha'; try lia; cbn [dig Pos.of_uint];
      rewrite !of_uint_acc_dig by assumption; cbn [Pos.of_uint_acc Z.of_N]; lia. }
  rewrite <- E. rewrite DecimalZ.to_of.
  assert (Ha' : 0 <= a <= 9) by lia.
  each_digit a Ha'; try lia; reflexivity.
Qed.

(** The year of a clock of today prints as four digits. *)
Lemma year_four_digits (y : Z) : 1000 <= y <= 9999 -> four_digits (py_str (VInt y)) = true.
Proof.
  intros H.
  assert (Ha : 1 <= y / 1000 <= 9) by (Z.to_euclidean_division_equations; lia).
  assert (Hb : 0 <= (y / 100) mod 10 <= 9) by (Z.to_euclidean_division_equations; lia).
  assert (Hc : 0 <= (y / 10) mod 10 <= 9) by (Z.to_euclidean_division_equations; lia).
  assert (Hd : 0 <= y mod 10 <= 9) by (Z.to_euclidean_division_equations; lia).
  assert (E : y = 1000 * (y / 1000) + 100 * ((y / 100) mod 10) + 10 * ((y / 10) mod 10)
                  + y mod 10) by (Z.to_euclidean_division_equations; lia).
  unfold py_str. rewrite E at 1. rewrite to_int_four by lia.
  unfold NilZero.string_of_int.
  assert (Ha' : 0 <= y / 1000 <= 9) by lia.
  unfold NilZero.string_of_uint.
  each_digit (y / 1000) Ha'; try lia; cbn [dig];
    cbn [NilEmpty.string_of_uint];
    rewrite !string_of_uint_dig by lia;
    unfold four_digits; cbn [list_ascii_of_string NilEmpty.string_of_uint forallb];
    rewrite !digit_char_is_digit by lia; reflexivity.
Qed.

Lemma two_digits_text (n : Z) : 0 <= n <= 99 -> two_digit_text (two_digits n) = true.
Proof.
  intros H. unfold two_digit_text, two_digits. cbn [list_ascii_of_string].
  rewrite !digit_char_is_digit by (Z.to_euclidean_division_equations; lia). reflexivity.
Qed.

Lemma strftime_shape (t : datetime) : datetime_wf t -> timestamp_shape (strftime t) = true.
Proof.
  intros (Hy & Hm & Hd & Hh & Hmi & Hs & _).
  pose proof (year_four_digits (year t) Hy) as Y.
  pose proof (two_digits_text (month t) ltac:(lia)) as Mo.
  pose proof (two_digits_text (day t) ltac:(lia)) as D.
  pose proof (two_digits_text (hour t) ltac:(lia)) as Ho.
  pose proof (two_digits_text (minute t) ltac:(lia)) as Mi.
  pose proof (two_digits_text (second t) ltac:(lia)) as S.
  unfold strftime. unfold two_digits in *.
  unfold four_digits in Y. unfold two_digit_text in *.
  destruct (py_str (VInt (year t))) as [|a [|b [|c [|d [|? ?]]]]]; try discriminate Y.
  cbn in Y, Mo, D, Ho, Mi, S.
  apply andb_prop in Mo as [? ?], D as [? ?], Ho as [? ?], Mi as [? ?], S as [? ?].
  repeat (apply andb_prop in Y as [? Y]).
  unfold timestamp_shape. cbv [String.append list_ascii_of_string forallb].
  repeat match goal with H : is_digit _ = true |- _ => rewrite H; clear H end.
  reflexivity.
Qed.

Lemma digit_value_char (d : Z) : 0 <= d <= 9 -> digit_value (digit_char d) = d.
Proof. intros H. each_digit d H; reflexivity. Qed.

(** The year of a clock of today, digit by digit. *)
Lemma year_text (y : Z) :
  1000 <= y <= 9999 ->
  py_str (VInt y)
  = String (digit_char (y / 1000))
      (String (digit_char ((y / 100) mod 10))
         (String (digit_char ((y / 10) mod 10)) (String (digit_char (y mod 10)) ""))).
Proof.
  intros H.
  assert (Ha : 1 <= y / 1000 <= 9) by (Z.to_euclidean_division_equations; lia).
  assert (Hb : 0 <= (y / 100) mod 10 <= 9) by (Z.to_euclidean_division_equations; lia).
  assert (Hc : 0 <= (y / 10) mod 10 <= 9) by (Z.to_euclidean_division_equations; lia).
  assert (Hd : 0 <= y mod 10 <= 9) by (Z.to_euclidean_division_equations; lia).
  assert (E : y = 1000 * (y / 1000) + 100 * ((y / 100) mod 10) + 10 * ((y / 10) mod 10)
                  + y mod 10) by (Z.to_euclidean_division_equations; lia).
  unfold py_str. rewrite E at 1. rewrite to_int_four by lia.
  unfold NilZero.string_of_int, NilZero.string_of_uint.
  assert (Ha' : 0 <= y / 1000 <= 9) by lia.
  each_digit (y / 1000) Ha'; try lia; cbn [dig];
    cbn [NilEmpty.string_of_uint];
    rewrite !string_of_uint_dig by lia; reflexivity.
Qed.

(** The text of [strftime] shows the six fields of the clock, each at its
    place. *)
Lemma strftime_fields (t : datetime) :
  datetime_wf t ->
  timestamp_fields (strftime t)
  = Some (year t, month t, day t, hour t, minute t, second t).
Proof.
  intros Hwf. pose proof (strftime_shape t Hwf) as Hshape.
  destruct Hwf as (Hy & Hm & Hd & Hh & Hmi & Hs & _).
  unfold timestamp_fields. rewrite Hshape.
  unfold strftime. rewrite (year_text (year t) Hy). unfold two_digits.
  cbv [String.append list_ascii_of_string number_of fold_left].
  rewrite !digit_value_char by (Z.to_euclidean_division_equations; lia).
  do 5 f_equal; [do 4 f_equal| | | |]; try f_equal;
    Z.to_euclidean_division_equations; lia.
Qed.

(** ** How a call of [request] ends *)

Lemma dict_get_key {V : Type} (d : list (string * V)) (k : string) (v : V) :
  dict_get d k = Some v -> In k (map fst d).
Proof.
  intros H. destruct (in_dec string_dec k (map fst d)) as [Hin|Hnot]; [exact Hin|].
  apply dict_get_None in Hnot. congruence.
Qed.

Lemma call_of_fields (w : world) (method url : string) (params : option loc)
    (body : option pydict) (h : loc) (hp : gmap loc pydict) :
  let call := call_of w method url params body h hp in
  fc_method call = (if String.eqb method "GET" then "GET" else "POST") /\
  fc_url call = url /\
  fc_data call = (if String.eqb method "GET" then None else body) /\
  fc_timeout call = 10.
Proof. unfold call_of. cbn. repeat split. Qed.

(** How a call of [request] runs: the URL cannot be formed and nothing else
    happens; or the signer raises and the transport is not called; or the
    transport is called once and its answer is normalised. *)
Lemma request_outcome (w : world) (method uri : string) (params : option loc)
    (body : option pydict) (headers : option loc) (auth : bool) (st : state) :
  let run := request w method uri params body headers auth st in
  (exists e, resolve w (this st) uri = Raise e /\ run = (Raise e, st)) \/
  (exists url e, resolve w (this st) uri = Return url /\ auth = true /\
     generate_signature (lib w) (this st) method (merged_params w st params) uri = Raise e /\
     fst run = Raise e /\ calls (snd run) = calls st) \/
  (exists url call, resolve w (this st) uri = Return url /\
     calls (snd run) = (calls st ++ [call])%list /\
     fst run = normalize w (fst (answer w call)) (snd (answer w call)) /\
     fc_method call = (if String.eqb method "GET" then "GET" else "POST") /\
     fc_url call = url /\
     fc_data call = (if String.eqb method "GET" then None else body) /\
     (auth = false \/
      exists sig, generate_signature (lib w) (this st) method (merged_params w st params) uri
                  = Return sig)).
Proof.
  cbn zeta. destruct (resolve w (this st) uri) as [url|e0] eqn:Hu.
  2:{ left. exists e0. split; [reflexivity|]. apply request_unresolved. exact Hu. }
  right. destruct auth.
  - destruct (generate_signature (lib w) (this st) method (merged_params w st params) uri)
      as [sig|e] eqn:E.
    + right. rewrite (request_signed _ _ _ _ _ _ _ _ _ Hu E). cbn [fst snd calls].
      exists url. eexists. split; [reflexivity|]. split; [reflexivity|].
      split; [reflexivity|].
      split; [apply call_of_fields|]. split; [apply call_of_fields|].
      split; [apply call_of_fields|]. right. eauto.
    + left. exists url, e. rewrite (request_signer_raises _ _ _ _ _ _ _ _ _ Hu E). auto.
  - right. rewrite (request_unauthenticated _ _ _ _ _ _ _ _ Hu). cbn [fst snd calls].
    exists url. eexists. split; [reflexivity|]. split; [reflexivity|].
    split; [reflexivity|].
    split; [apply call_of_fields|]. split; [apply call_of_fields|].
    split; [apply call_of_fields|]. left. reflexivity.
Qed.

(** In short: [request] raises without a call, or makes one call. *)
Lemma request_ends (w : world) (method uri : string) (params : option loc)
    (body : option pydict) (headers : option loc) (auth : bool) (st : state) :
  let run := request w method uri params body headers auth st in
  (exists e, fst run = Raise e /\ calls (snd run) = calls st) \/
  (exists call, calls (snd run) = (calls st ++ [call])%list /\
     fst run = normalize w (fst (answer w call)) (snd (answer w call)) /\
     fc_method call = (if String.eqb method "GET" then "GET" else "POST") /\
     fc_data call = (if String.eqb method "GET" then None else body)).
Proof.
  cbn zeta.
  destruct (request_outcome w method uri params body headers auth st)
    as [(e & _ & Hr) | [(url & e & _ & _ & _ & Hr & Hc)
                       | (url & call & _ & Hc & Hr & Hm & _ & Hd & _)]].
  - left. exists e. rewrite Hr. split; reflexivity.
  - left. exists e. split; assumption.
  - right. exists call. repeat split; assumption.
Qed.

(** The transport is reached whenever the URL is formed and the signer, if it
    is asked, returns. *)
Lemma request_reaches_transport (w : world) (method uri : string) (params : option loc)
    (body : option pydict) (headers : option loc) (auth : bool) (st : state) (url : string) :
  resolve w (this st) uri = Return url ->
  auth = false \/
  returns (generate_signature (lib w) (this st) method (merged_params w st params) uri) ->
  exists call, new_calls st (snd (request w method uri params body headers auth st)) [call] /\
               fc_url call = url.
Proof.
  intros Hu Hs.
  destruct (request_outcome w method uri params body headers auth st)
    as [(e & Hr & _) | [(url' & e & _ & Ha & He & _)
                       | (url' & call & Hu' & Hc & _ & _ & Hurl & _)]].
  - congruence.
  - destruct Hs as [Hs | [sig Hs]]; congruence.
  - exists call. split; [exact Hc | congruence].
Qed.

Lemma new_calls_one (st st' : state) (c c' : fetch_call) :
  calls st' = (calls st ++ [c])%list -> new_calls st st' [c'] -> c' = c.
Proof.
  unfold new_calls. intros H H'. rewrite H in H'.
  apply app_inv_head in H'. congruence.
Qed.

Lemma new_calls_none (st st' : state) (c : fetch_call) :
  calls st' = calls st -> ~ new_calls st st' [c].
Proof.
  unfold new_calls. intros H H'. rewrite H in H'.
  apply (f_equal (@length fetch_call)) in H'. rewrite length_app in H'. simpl in H'. lia.
Qed.

(** The result pairs of [normalize]. *)
Lemma normalize_error (w : world) (success error : pyobj) :
  obj_truthy error = true -> normalize w success error = Return (ONone, error).
Proof. unfold normalize. intros ->. reflexivity. Qed.

Lemma decoded_mapping (w : world) (success : pyobj) (d : list (string * pyobj)) :
  decoded w success = Return (ODict d) <-> mapping_payload w success d.
Proof.
  unfold mapping_payload. split.
  - destruct success; cbn [decoded loads]; try discriminate.
    + intros H. right. exists s. split; [reflexivity|].
      destruct (json_loads w s); [congruence | discriminate].
    + intros [= ->]. left. reflexivity.
  - intros [-> | (s & -> & Hs)]; cbn [decoded loads]; [reflexivity|].
    rewrite Hs. reflexivity.
Qed.

Lemma normalize_payload (w : world) (success error : pyobj) (d : list (string * pyobj)) :
  obj_truthy error = false -> mapping_payload w success d ->
  normalize w success error =
  if is_not_ok (dict_get d "status") then Return (ONone, ODict d) else Return (ODict d, ONone).
Proof.
  unfold normalize. intros -> Hd. apply decoded_mapping in Hd. rewrite Hd. reflexivity.
Qed.

(** [normalize] returns for a true error and for a mapping, and for nothing
    else. *)
Lemma normalize_returns (w : world) (success error : pyobj) :
  returns (normalize w success error) <->
  obj_truthy error = true \/ exists d, mapping_payload w success d.
Proof.
  split.
  - intros [pair H]. unfold normalize in H.
    destruct (obj_truthy error); [left; reflexivity|]. right.
    destruct (decoded w success) as [result|e] eqn:E; cbn [mbind outcome_bind] in H;
      [|discriminate].
    destruct result; cbn [get_status mbind outcome_bind] in H; try discriminate.
    exists d. apply decoded_mapping. exact E.
  - intros [He | [d Hd]].
    + rewrite (normalize_error _ _ _ He). eexists. reflexivity.
    + destruct (obj_truthy error) eqn:He.
      * rewrite (normalize_error _ _ _ He). eexists. reflexivity.
      * rewrite (normalize_payload _ _ _ d He Hd).
        destruct (is_not_ok _); eexists; reflexivity.
Qed.

Lemma is_not_ok_false (x : option pyobj) : is_not_ok x = false <-> x = Some (OStr "ok").
Proof.
  unfold is_not_ok. destruct x as [[]|]; try (split; [discriminate | intros [=]]).
  destruct (String.eqb s "ok") eqn:E; simpl.
  - apply String.eqb_eq in E. subst. tauto.
  - apply String.eqb_neq in E. split; [discriminate | intros [= ->]; contradiction].
Qed.

Lemma obj_truthy_not_none (x : pyobj) : obj_truthy x = true -> x <> ONone.
Proof. intros H ->. discriminate. Qed.

Lemma normalize_one_sided (w : world) (success error : pyobj) (pair : pyobj * pyobj) :
  normalize w success error = Return pair -> one_sided pair.
Proof.
  unfold normalize, one_sided. destruct (obj_truthy error) eqn:E.
  - intros [= <-]. left. split; [reflexivity | apply obj_truthy_not_none; exact E].
  - destruct (decoded w success) as [result|e]; cbn [mbind outcome_bind]; [|discriminate].
    destruct result; cbn [get_status mbind outcome_bind]; try discriminate.
    destruct (is_not_ok _); intros [= <-]; cbn [fst snd];
      [left | right]; split; congruence.
Qed.

(** C3 (as amended).  The pair that [request] returns has exactly one
    populated half: a transport error that is true gives [(None, error)]; with
    a false error slot, a payload that is a mapping (a [dict], or text that
    decodes to a JSON object) gives [(None, payload)] without raising when its
    [status] is not the text [ok], and [(payload, None)] when it is.  The
    transport is reached whenever the URL is formed and the signer, if asked,
    returns. *)
Theorem request_result_pair (w : world) (method uri : string) (params : option loc)
    (body : option pydict) (headers : option loc) (auth : bool) (st : state) :
  let run := request w method uri params body headers auth st in
  (forall pair, fst run = Return pair -> one_sided pair) /\
  (forall call, new_calls st (snd run) [call] ->
     let success := fst (answer w call) in
     let error := snd (answer w call) in
     (obj_truthy error = true -> fst run = Return (ONone, error)) /\
     (obj_truthy error = false ->
      forall d, success = ODict d \/
                (exists s, success = OStr s /\ json_loads w s = Some (ODict d)) ->
        (dict_get d "status" <> Some (OStr "ok") -> fst run = Return (ONone, ODict d)) /\
        (dict_get d "status" = Some (OStr "ok") -> fst run = Return (ODict d, ONone)))) /\
  (forall url, resolve w (this st) uri = Return url ->
     auth = false \/
     returns (generate_signature (lib w) (this st) method (merged_params w st params) uri) ->
     exists call, new_calls st (snd run) [call] /\ fc_url call = url).
Proof.
  intros run. subst run. split; [|split].
  - destruct (request_ends w method uri params body headers auth st)
      as [(e & Hr & Hc) | (call0 & Hc & Hr & _)]; intros pair H; rewrite Hr in H.
    + discriminate.
    + exact (normalize_one_sided _ _ _ _ H).
  - destruct (request_ends w method uri params body headers auth st)
      as [(e & Hr & Hc) | (call0 & Hc & Hr & _)]; intros call H.
    + exfalso. exact (new_calls_none _ _ _ Hc H).
    + rewrite (new_calls_one _ _ _ _ Hc H). cbn zeta. rewrite Hr. split.
      * apply normalize_error.
      * intros Herr d Hd. rewrite (normalize_payload _ _ _ d Herr Hd). split.
        -- intros Hs. destruct (is_not_ok (dict_get d "status")) eqn:E; [reflexivity|].
           apply is_not_ok_false in E. contradiction.
        -- intros Hs. rewrite (proj2 (is_not_ok_false _) Hs). reflexivity.
  - intros url Hu Hs. exact (request_reaches_transport _ _ _ _ _ _ _ _ _ Hu Hs).
Qed.

(** The error scenario: the envelope of the exchange comes back as the error
    half. *)
Lemma request_result_pair_witness :
  fst (request world_error "POST" "/linear-swap-api/v1/swap_cross_order" None
         (Some [("contract_code", VStr "BTC-USDT")]) None true empty_state)
  = Return (ONone, error_payload) /\
  one_sided (ONone, error_payload).
Proof.
  assert (H : fst (request world_error "POST" "/linear-swap-api/v1/swap_cross_order" None
                     (Some [("contract_code", VStr "BTC-USDT")]) None true empty_state)
              = Return (ONone, error_payload)) by (vm_compute; reflexivity).
  split; [exact H|].
  exact (proj1 (request_result_pair world_error "POST" "/linear-swap-api/v1/swap_cross_order"
                  None (Some [("contract_code", VStr "BTC-USDT")]) None true empty_state)
               (ONone, error_payload) H).
Defined.

(** C3 (as stated) fails: not every transport outcome gives a pair.  When the
    transport answers with an error slot that is false (an empty text, or
    [None]) and with no success payload, [request] raises [TypeError]. *)
Lemma request_empty_answer_raises :
  obj_truthy (OStr "") = false /\
  fst (request world_silent "GET" "/linear-swap-api/v1/swap_contract_info" None None None
         false empty_state)
  = Raise TypeError /\
  fst (request world_mute "GET" "/linear-swap-api/v1/swap_contract_info" None None None
         false empty_state)
  = Raise TypeError.
Proof. split; [reflexivity|]. split; vm_compute; reflexivity. Qed.

Example request_ok_scenario :
  fst (request world_ok "GET" "/linear-swap-api/v1/swap_contract_info" None None None false
         empty_state)
  = Return (ok_payload, ONone).
Proof. vm_compute. reflexivity. Qed.

Example request_transport_error_scenario :
  fst (request world_timeout "GET" "/linear-swap-api/v1/swap_contract_info" None None None
         false empty_state)
  = Return (ONone, OExc "timeout").
Proof. vm_compute. reflexivity. Qed.

(** C6 (as amended).  Once the transport has answered, [request] returns a
    pair exactly when the error slot is true or the success payload is a
    mapping (a [dict], or text that [json.loads] decodes to an object),
    whatever its status; every other answer makes it raise.  A call without
    authentication reaches the transport whenever the URL is formed; when
    [urljoin] raises, [request] raises the same exception and does nothing
    else. *)
Theorem request_handles_envelopes (w : world) (method uri : string) (params : option loc)
    (body : option pydict) (headers : option loc) (auth : bool) (st : state) :
  let run := request w method uri params body headers auth st in
  (forall call, new_calls st (snd run) [call] ->
     (returns (fst run) <->
      obj_truthy (snd (answer w call)) = true \/
      exists d, fst (answer w call) = ODict d \/
                exists s, fst (answer w call) = OStr s /\ json_loads w s = Some (ODict d))) /\
  (forall url, resolve w (this st) uri = Return url -> auth = false ->
     exists call, new_calls st (snd run) [call] /\ fc_url call = url) /\
  (forall e, resolve w (this st) uri = Raise e -> run = (Raise e, st)).
Proof.
  intros run. subst run. split; [|split].
  - destruct (request_ends w method uri params body headers auth st)
      as [(e & Hr & Hc) | (call0 & Hc & Hr & _)]; intros call H.
    + exfalso. exact (new_calls_none _ _ _ Hc H).
    + rewrite (new_calls_one _ _ _ _ Hc H). rewrite Hr. apply normalize_returns.
  - intros url Hu Ha.
    exact (request_reaches_transport _ _ _ _ _ _ _ _ _ Hu (or_introl Ha)).
  - intros e Hu. apply request_unresolved. exact Hu.
Qed.

Lemma request_handles_envelopes_witness :
  resolve world_error (this empty_state) "/x" = Return "https://api.hbdm.com/x" /\
  exists call,
    new_calls empty_state
      (snd (request world_error "GET" "/x" None None None false empty_state)) [call] /\
    fc_url call = "https://api.hbdm.com/x".
Proof.
  split; [reflexivity|].
  exact (proj1 (proj2 (request_handles_envelopes world_error "GET" "/x" None None None false
                         empty_state))
               "https://api.hbdm.com/x" eq_refl eq_refl).
Defined.

(** C6 (as stated) fails: a success body that is JSON, but a list, makes
    [request] raise [AttributeError]. *)
Lemma request_json_array_raises :
  json_loads world_array "[]" = Some (OList []) /\
  fst (request world_array "GET" "/linear-swap-api/v1/swap_contract_info" None None None
         false empty_state)
  = Raise AttributeError.
Proof. split; vm_compute; reflexivity. Qed.

(** A malformed base host: [urljoin] raises, and so does [request], before
    anything else happens. *)
Example request_malformed_host :
  request world_unjoinable "GET" "/x" None None None false empty_state
  = (Raise ValueError, empty_state).
Proof. reflexivity. Qed.




Example request_delete_is_posted :
  map fc_method
      (calls (snd (request world_ok "DELETE" "/linear-swap-api/v1/swap_cross_cancel" None
                     None None true empty_state)))
  = ["POST"].
Proof. vm_compute. reflexivity. Qed.

Example request_lowercase_get_is_posted :
  map fc_method
      (calls (snd (request world_ok "get" "/linear-swap-api/v1/swap_contract_info" None
                     None None false empty_state)))
  = ["POST"].
Proof. vm_compute. reflexivity. Qed.

(** The signature of a [DELETE] is not the signature of the [POST] that is
    sent in its place. *)
Example request_delete_is_signed_as_delete :
  generate_signature ascii_library sample_client "DELETE" [] "/x"
  <> generate_signature ascii_library sample_client "POST" [] "/x".
Proof. vm_compute. discriminate. Qed.

Lemma dict_keys_get (d : pydict) (k : string) :
  In k (dict_keys d) <-> dict_get d k <> None.
Proof.
  unfold dict_keys. split.
  - intros Hin E. apply dict_get_None in E. contradiction.
  - intros Hne. destruct (in_dec string_dec k (map fst d)) as [Hin|Hnot]; [exact Hin|].
    apply dict_get_None in Hnot. contradiction.
Qed.

Lemma dict_setitem_keys_in (d : pydict) (k : string) (v : value) :
  In k (dict_keys d) -> dict_keys (dict_setitem d k v) = dict_keys d.
Proof.
  unfold dict_keys. induction d as [|[k0 v0] d IH]; intros Hin; [contradiction|].
  cbn [dict_setitem]. destruct (String.eqb k0 k) eqn:E; [reflexivity|].
  cbn [map fst]. f_equal. apply IH. destruct Hin as [Hin|Hin]; [|exact Hin].
  cbn [fst] in Hin. subst k0. rewrite String.eqb_refl in E. discriminate.
Qed.

(** A [Signature] entry of the mapping before the call is still there when
    the mapping is signed. *)
Lemma merged_signature (w : world) (self : client) (d0 : pydict) :
  dict_get (dict_update d0 (auth_fields w self)) "Signature" = dict_get d0 "Signature".
Proof.
  apply merged_keeps. unfold auth_fields, dict_keys. simpl. intuition discriminate.
Qed.

(** C2 (as amended).  An authenticated call whose URL is formed merges the
    UTC timestamp, which shows the year, month, day, hour, minute and second of
    the clock in the shape [YYYY-MM-DDTHH:MM:SS], the access key, the
    signature method [HmacSHA256] and the signature version [2] into the
    mapping and keeps the entries that were there.  It signs the merged
    mapping with the method and the path as given, and stores the signature
    under [Signature]: as the last entry when the mapping of the caller had no
    such key, and in the place of the old entry, which was signed with the
    rest, when it had one.  When the signer raises, [request] raises and the
    transport is not called. *)
Theorem request_authenticates (w : world) (method uri : string) (params : option loc)
    (body : option pydict) (headers : option loc) (st : state) (url : string) :
  datetime_wf (utcnow w) ->
  resolve w (this st) uri = Return url ->
  let now := utcnow w in
  let before := snd (working_params st params) in
  let merged := merged_params w st params in
  let run := request w method uri params body headers true st in
  timestamp_fields (strftime now)
  = Some (year now, month now, day now, hour now, minute now, second now) /\
  dict_get merged "Timestamp" = Some (VStr (strftime now)) /\
  dict_get merged "AccessKeyId" = Some (VStr (_access_key (this st))) /\
  dict_get merged "SignatureMethod" = Some (VStr "HmacSHA256") /\
  dict_get merged "SignatureVersion" = Some (VStr "2") /\
  (forall k, ~ In k (dict_keys (auth_fields w (this st))) ->
             dict_get merged k = dict_get before k) /\
  match generate_signature (lib w) (this st) method merged uri with
  | Raise e => fst run = Raise e /\ calls (snd run) = calls st
  | Return sig =>
      let signed := signed_params w st params sig in
      (exists call sent,
         new_calls st (snd run) [call] /\ fc_url call = url /\ fc_params call = Some sent /\
         dict_get sent "Signature" = Some (VStr sig) /\
         (forall k, ~ In k header_keys -> dict_get sent k = dict_get signed k) /\
         (headers <> Some (fst (working_params st params)) -> sent = signed)) /\
      (~ In "Signature" (dict_keys before) ->
       signed = (merged ++ [("Signature", VStr sig)])%list) /\
      (In "Signature" (dict_keys before) ->
       dict_get merged "Signature" = dict_get before "Signature" /\
       dict_keys signed = dict_keys merged)
  end.
Proof.
  intros Hwf Hu now before merged run. subst now before merged run.
  destruct (merged_fields w (this st) (snd (working_params st params)))
    as (Hak & Hsm & Hsv & Hts).
  split; [apply strftime_fields; exact Hwf|].
  split; [exact Hts|]. split; [exact Hak|]. split; [exact Hsm|]. split; [exact Hsv|].
  split; [intros k Hk; apply merged_keeps; exact Hk|].
  assert (Hkeys : In "Signature" (dict_keys (merged_params w st params)) <->
                  In "Signature" (dict_keys (snd (working_params st params)))).
  { rewrite !dict_keys_get. unfold merged_params. rewrite merged_signature. tauto. }
  destruct (generate_signature (lib w) (this st) method (merged_params w st params) uri)
    as [sig|e] eqn:E.
  - cbn zeta. split; [|split].
    + rewrite (request_signed _ _ _ _ _ _ _ _ _ Hu E). cbn [fst snd].
      eexists. eexists. split; [reflexivity|].
      unfold call_of at 1. cbn [fc_url]. split; [reflexivity|].
      unfold call_of. cbn [fc_params]. split; [reflexivity|].
      destruct (params_after_signing w method headers st (fst (working_params st params))
                  (signed_params w st params sig) (dict_setitem_not_nil _ _ _))
        as [[Hh ->] | [Hh ->]]; cbn [default from_option id].
      * split; [apply dict_get_setitem_eq|]. split; reflexivity.
      * split.
        { rewrite header_entries_get by (unfold header_keys; simpl; intuition discriminate).
          apply dict_get_setitem_eq. }
        split; [intros k Hk; apply header_entries_get; exact Hk|].
        intros Hne. contradiction.
    + intros Hnew. apply dict_setitem_new. rewrite Hkeys. exact Hnew.
    + intros Hold. split; [apply merged_signature|].
      apply dict_setitem_keys_in. rewrite Hkeys. exact Hold.
  - rewrite (request_signer_raises _ _ _ _ _ _ _ _ _ Hu E). split; reflexivity.
Qed.

Lemma request_authenticates_witness :
  datetime_wf (utcnow world_ok) /\
  resolve world_ok (this caller_state) "/linear-swap-api/v1/swap_cross_order"
  = Return "https://api.hbdm.com/linear-swap-api/v1/swap_cross_order" /\
  timestamp_fields (strftime (utcnow world_ok)) = Some (2024, 1, 1, 0, 0, 0) /\
  dict_get (merged_params world_ok caller_state (Some 1%positive)) "Timestamp"
  = Some (VStr "2024-01-01T00:00:00").
Proof.
  assert (H : datetime_wf (utcnow world_ok)) by (unfold datetime_wf; simpl; lia).
  split; [exact H|]. split; [reflexivity|].
  pose proof (request_authenticates world_ok "POST" "/linear-swap-api/v1/swap_cross_order"
                (Some 1%positive) None None caller_state _ H eq_refl) as (Hfields & Hts & _).
  split; [exact Hfields | exact Hts].
Defined.

Example request_authenticates_scenario :
  map fc_params
      (calls (snd (request world_ok "POST" "/linear-swap-api/v1/swap_cross_order"
                     (Some 1%positive) None None true caller_state)))
  = [ Some [ ("contract_code", VStr "BTC-USDT"); ("AccessKeyId", VStr "k");
             ("SignatureMethod", VStr "HmacSHA256"); ("SignatureVersion", VStr "2");
             ("Timestamp", VStr "2024-01-01T00:00:00");
             ("Signature", VStr "nRMH4cUhlzzYZS7ttRIh8zZOeC6ySnhVBJ73m5Yc5V0=") ] ].
Proof. vm_compute. reflexivity. Qed.

(** C2 (as stated) fails: a mapping that already holds a [Signature] entry,
    as one that was used for an earlier call does, is signed with that entry
    (so the signature is not the one over the mapping without it), and the new
    signature takes the place of the old one instead of going last. *)
Lemma request_signs_kept_signature :
  dict_get (merged_params world_ok resigning_state (Some 1%positive)) "Signature"
  = Some (VStr "old") /\
  generate_signature ascii_library sample_client "POST"
    (merged_params world_ok resigning_state (Some 1%positive))
    "/linear-swap-api/v1/swap_cross_order"
  <> generate_signature ascii_library sample_client "POST"
       (merged_params world_ok caller_state (Some 1%positive))
       "/linear-swap-api/v1/swap_cross_order" /\
  map (fun call => option_map dict_keys (fc_params call))
      (calls (snd (request world_ok "POST" "/linear-swap-api/v1/swap_cross_order"
                     (Some 1%positive) None None true resigning_state)))
  = [ Some [ "Signature"; "contract_code"; "AccessKeyId"; "SignatureMethod";
             "SignatureVersion"; "Timestamp" ] ].
Proof.
  split; [reflexivity|]. split; [vm_compute; discriminate | vm_compute; reflexivity].
Qed.

(** ** The frame: what the operations leave alone *)

Lemma perform_this (w : world) (c : api_call) (st : state) :
  this (snd (perform w c st)) = this st.
Proof.
  destruct c; cbn [perform]; unfold_methods; cbn zeta;
    try apply request_this;
    try (unfold mbind, M_bind, alloc; cbn [fst snd]; rewrite request_this; reflexivity).
  unfold get_trigger_hisorders, mbind, M_bind, lift.
  destruct (get_trigger_hisorders_body _ _ _ _ _); [apply request_this | reflexivity].
Qed.

(** C10.  An authenticated call that was given a non-empty dictionary works on
    that very object: once the call has returned, the caller's dictionary
    holds the five authentication keys beside its own, and it is the mapping
    the transport received.  The four fields are merged as soon as the URL is
    formed, also when the signer raises afterwards; when [urljoin] raises, the
    dictionary is what it was.  The client's fields are changed by no
    operation. *)
Theorem request_mutates_params_in_place (w : world) (method uri : string) (l : loc)
    (d : pydict) (body : option pydict) (headers : option loc) (st : state) :
  heap st !! l = Some d -> d <> [] ->
  let run := request w method uri (Some l) body headers true st in
  (returns (fst run) ->
   exists d' call,
     heap (snd run) !! l = Some d' /\
     (forall k, In k auth_keys -> In k (dict_keys d')) /\
     (forall k, In k (dict_keys d) -> In k (dict_keys d')) /\
     new_calls st (snd run) [call] /\ fc_params call = Some d') /\
  (forall url, resolve w (this st) uri = Return url ->
     exists d',
       heap (snd run) !! l = Some d' /\
       forall k, In k ["AccessKeyId"; "SignatureMethod"; "SignatureVersion"; "Timestamp"] ->
                 In k (dict_keys d')) /\
  (forall e, resolve w (this st) uri = Raise e -> heap (snd run) !! l = Some d) /\
  this (snd run) = this st /\
  (forall (c : api_call) (st0 : state), this (snd (perform w c st0)) = this st0).
Proof.
  intros Hl Hd run. subst run.
  assert (Hw : working_params st (Some l) = (l, d)).
  { unfold working_params. rewrite Hl. cbn [default from_option id].
    destruct d; [congruence | reflexivity]. }
  destruct (merged_fields w (this st) d) as (Hak & Hsm & Hsv & Hts).
  assert (Hfour : forall k,
             In k ["AccessKeyId"; "SignatureMethod"; "SignatureVersion"; "Timestamp"] ->
             In k (dict_keys (merged_params w st (Some l)))).
  { unfold merged_params. rewrite Hw. cbn [snd].
    intros k [<-|[<-|[<-|[<-|[]]]]]; eapply dict_get_key; eassumption. }
  assert (Hold : forall k, In k (dict_keys d) ->
                           In k (dict_keys (merged_params w st (Some l)))).
  { unfold merged_params. rewrite Hw. cbn [snd]. intros k Hk.
    unfold auth_fields, dict_update. cbn [fold_left fst snd].
    repeat (apply dict_keys_setitem; right). exact Hk. }
  assert (Hsigned : forall (url sig : string),
             resolve w (this st) uri = Return url ->
             generate_signature (lib w) (this st) method (merged_params w st (Some l)) uri
             = Return sig ->
             let run := request w method uri (Some l) body headers true st in
             exists d' call,
               heap (snd run) !! l = Some d' /\
               (forall k, In k auth_keys -> In k (dict_keys d')) /\
               (forall k, In k (dict_keys d) -> In k (dict_keys d')) /\
               new_calls st (snd run) [call] /\ fc_params call = Some d').
  { intros url sig Hu E. cbn zeta.
    rewrite (request_signed _ _ _ _ _ _ _ _ _ Hu E). cbn [fst snd heap].
    rewrite Hw. cbn [fst].
    assert (Hfive : forall k, In k auth_keys ->
                              In k (dict_keys (signed_params w st (Some l) sig))).
    { unfold signed_params, auth_keys. intros k Hk. apply dict_keys_setitem.
      simpl in Hk. destruct Hk as [<-|[<-|[<-|[<-|[<-|[]]]]]];
        (left; reflexivity) || (right; apply Hfour; simpl; tauto). }
    assert (Hold' : forall k, In k (dict_keys d) ->
                              In k (dict_keys (signed_params w st (Some l) sig))).
    { intros k Hk. unfold signed_params. apply dict_keys_setitem. right. apply Hold, Hk. }
    destruct (params_after_signing w method headers st l
                (signed_params w st (Some l) sig) (dict_setitem_not_nil _ _ _))
      as [[_ Hfin] | [_ Hfin]]; cbn zeta in Hfin; cbn [heap] in Hfin;
      eexists; eexists; (split; [exact Hfin|]).
    - split; [exact Hfive|]. split; [exact Hold'|].
      split; [reflexivity|]. unfold call_of. cbn [fc_params].
      rewrite Hfin. reflexivity.
    - split; [intros k Hk; apply header_entries_keys, Hfive, Hk|].
      split; [intros k Hk; apply header_entries_keys, Hold', Hk|].
      split; [reflexivity|]. unfold call_of. cbn [fc_params].
      rewrite Hfin. reflexivity. }
  split; [|split; [|split; [|split; [apply request_this
                                    | intros c st0; apply perform_this]]]].
  - intros Hret.
    destruct (request_outcome w method uri (Some l) body headers true st)
      as [(e & _ & Hr) | [(url & e & _ & _ & _ & Hr & _)
                         | (url & call & Hu & _ & _ & _ & _ & _ & [Hf | [sig E]])]].
    + rewrite Hr in Hret. destruct Hret as [pair Hp]. discriminate.
    + rewrite Hr in Hret. destruct Hret as [pair Hp]. discriminate.
    + discriminate.
    + exact (Hsigned url sig Hu E).
  - intros url Hu.
    destruct (generate_signature (lib w) (this st) method (merged_params w st (Some l)) uri)
      as [sig|e] eqn:E.
    + destruct (Hsigned url sig Hu eq_refl) as (d' & call & Hd' & Hfive & _).
      exists d'. split; [exact Hd'|]. intros k Hk. apply Hfive.
      unfold auth_keys. simpl in *. tauto.
    + rewrite (request_signer_raises _ _ _ _ _ _ _ _ _ Hu E). cbn [fst snd heap].
      rewrite Hw. cbn [fst]. eexists. split; [apply lookup_insert_eq | exact Hfour].
  - intros e Hu. rewrite (request_unresolved _ _ _ _ _ _ _ _ _ Hu). exact Hl.
Qed.

Lemma request_mutates_params_in_place_witness :
  heap caller_state !! 1%positive = Some [("contract_code", VStr "BTC-USDT")] /\
  [("contract_code", VStr "BTC-USDT")] <> [] /\
  exists d',
    heap (snd (request world_ok "POST" "/linear-swap-api/v1/swap_cross_order"
                 (Some 1%positive) None None true caller_state)) !! 1%positive = Some d' /\
    forall k, In k ["AccessKeyId"; "SignatureMethod"; "SignatureVersion"; "Timestamp"] ->
              In k (dict_keys d').
Proof.
  assert (H1 : heap caller_state !! 1%positive = Some [("contract_code", VStr "BTC-USDT")])
    by reflexivity.
  assert (H2 : [("contract_code", VStr "BTC-USDT")] <> ([] : pydict)) by discriminate.
  split; [exact H1|]. split; [exact H2|].
  exact (proj1 (proj2 (request_mutates_params_in_place world_ok "POST"
                         "/linear-swap-api/v1/swap_cross_order" 1%positive _ None None
                         caller_state H1 H2))
               "https://api.hbdm.com/linear-swap-api/v1/swap_cross_order" eq_refl).
Defined.

Example request_mutates_params_scenario :
  option_map dict_keys
    (heap (snd (request world_ok "POST" "/linear-swap-api/v1/swap_cross_order"
                  (Some 1%positive) None None true caller_state)) !! 1%positive)
  = Some ("contract_code" :: auth_keys).
Proof. vm_compute. reflexivity. Qed.

(** An empty dictionary is not the object that is worked on: it stays empty. *)
Example request_leaves_empty_params :
  heap (snd (request world_ok "POST" "/linear-swap-api/v1/swap_cross_order"
               (Some 1%positive) None None true
               (State sample_client {[ 1%positive := [] ]} []))) !! 1%positive
  = Some [].
Proof. vm_compute. reflexivity. Qed.

(** When [urljoin] raises, the caller's dictionary is not touched. *)
Example request_malformed_host_leaves_params :
  request world_unjoinable "POST" "/linear-swap-api/v1/swap_cross_order"
          (Some 1%positive) None None true caller_state
  = (Raise ValueError, caller_state).
Proof. reflexivity. Qed.

(** ** Endpoint methods *)

Lemma set_if_get (d : pydict) (k k' : string) (x : value) :
  dict_get (set_if d k x) k' =
  if truthy x && String.eqb k k' then Some x else dict_get d k'.
Proof.
  unfold set_if. destruct (truthy x); cbn [andb]; [apply dict_get_setitem | reflexivity].
Qed.

Lemma update_if_get (d : pydict) (k k' : string) (x : value) :
  dict_get (update_if d k x) k' =
  if truthy x && String.eqb k k' then Some x else dict_get d k'.
Proof.
  unfold update_if. destruct (truthy x); cbn [andb]; [apply dict_get_setitem | reflexivity].
Qed.

Lemma set_joined_get (d : pydict) (k k' : string) (ids : option (list string)) :
  dict_get (set_joined d k ids) k' =
  if is_sent (IdList ids) && String.eqb k k' then Some (sent_as (IdList ids))
  else dict_get d k'.
Proof.
  unfold set_joined. destruct ids as [[|i ids]|]; cbn [is_sent andb sent_as];
    [reflexivity | apply dict_get_setitem | reflexivity].
Qed.

Lemma update_joined_get (d : pydict) (k k' : string) (ids : option (list string)) :
  dict_get (update_joined d k ids) k' =
  if is_sent (IdList ids) && String.eqb k k' then Some (sent_as (IdList ids))
  else dict_get d k'.
Proof.
  unfold update_joined. destruct ids as [[|i ids]|]; cbn [is_sent andb sent_as];
    [reflexivity | apply dict_get_setitem | reflexivity].
Qed.

(** The keyword arguments of [create_order] touch their own keys only. *)
Lemma kwargs_fold_get (kwargs all : pydict) (body : pydict) (k : string) :
  ~ In k (dict_keys kwargs) ->
  dict_get (fold_left (fun body kv =>
                         if is_not_none (dict_get all (fst kv))
                         then dict_update body [(fst kv, snd kv)] else body)
                      kwargs body) k
  = dict_get body k.
Proof.
  revert body. induction kwargs as [|[k0 v0] kwargs IH]; intros body Hk; [reflexivity|].
  cbn [fold_left fst snd]. rewrite IH.
  - destruct (is_not_none (dict_get all k0)); [|reflexivity].
    unfold dict_update. cbn [fold_left fst snd].
    apply dict_get_setitem_ne. intros ->. apply Hk. left. reflexivity.
  - intros Hin. apply Hk. right. exact Hin.
Qed.

Lemma kwargs_fold_get_in (kwargs all body : pydict) (k : string) (v : value) :
  dict_wf kwargs -> In (k, v) kwargs -> is_not_none (dict_get all k) = true ->
  dict_get (fold_left (fun body kv =>
                         if is_not_none (dict_get all (fst kv))
                         then dict_update body [(fst kv, snd kv)] else body)
                      kwargs body) k
  = Some v.
Proof.
  revert body. unfold dict_wf, dict_keys.
  induction kwargs as [|[k0 v0] kwargs IH]; intros body Hwf Hin Hnn; [contradiction|].
  cbn [map fst] in Hwf. inversion Hwf as [|? ? Hnotin Hwf']; subst.
  cbn [fold_left fst snd]. destruct Hin as [Heq | Hin].
  - injection Heq as -> ->. rewrite kwargs_fold_get by exact Hnotin.
    rewrite Hnn. unfold dict_update. cbn [fold_left fst snd]. apply dict_get_setitem_eq.
  - apply IH; assumption.
Qed.

Lemma dict_get_in_wf (d : pydict) (k : string) (v : value) :
  dict_wf d -> In (k, v) d -> dict_get d k = Some v.
Proof.
  unfold dict_wf, dict_keys. induction d as [|[k0 v0] d IH]; intros Hwf Hin; [contradiction|].
  cbn [map fst] in Hwf. inversion Hwf as [|? ? Hnotin Hwf']; subst.
  cbn [dict_get]. destruct Hin as [Heq | Hin].
  - injection Heq as -> ->. rewrite String.eqb_refl. reflexivity.
  - destruct (String.eqb k0 k) eqn:E; [|apply IH; assumption].
    apply String.eqb_eq in E. subst k0. exfalso. apply Hnotin.
    change k with (fst (k, v)). apply in_map. exact Hin.
Qed.

(** A keyword argument that is [None] leaves the body as it is under its
    key. *)
Lemma kwargs_fold_get_none (kwargs all body : pydict) (k : string) :
  is_not_none (dict_get all k) = false ->
  dict_get (fold_left (fun body kv =>
                         if is_not_none (dict_get all (fst kv))
                         then dict_update body [(fst kv, snd kv)] else body)
                      kwargs body) k
  = dict_get body k.
Proof.
  intros Hk. revert body.
  induction kwargs as [|[k0 v0] kwargs IH]; intros body; [reflexivity|].
  cbn [fold_left fst snd]. rewrite IH.
  destruct (is_not_none (dict_get all k0)) eqn:E; [|reflexivity].
  unfold dict_update. cbn [fold_left fst snd].
  apply dict_get_setitem_ne. intros ->. congruence.
Qed.

Lemma merged_params_none (w : world) (st : state) :
  merged_params w st None = auth_fields w (this st).
Proof. reflexivity. Qed.

(** A request with a new query dictionary and new headers, authenticated, as
    every account and order endpoint makes it. *)
Lemma request_post_run (w : world) (uri : string) (d : pydict) (st : state) (url : string) :
  resolve w (this st) uri = Return url ->
  let run := request w "POST" uri None (Some d) None true st in
  match generate_signature (lib w) (this st) "POST" (auth_fields w (this st)) uri with
  | Return sig =>
      calls (snd run) = (calls st ++ [post_call w (this st) url d sig])%list /\
      fst run = normalize w (fst (answer w (post_call w (this st) url d sig)))
                            (snd (answer w (post_call w (this st) url d sig)))
  | Raise e => fst run = Raise e /\ calls (snd run) = calls st
  end.
Proof.
  intros Hu. cbn zeta.
  destruct (generate_signature (lib w) (this st) "POST" (auth_fields w (this st)) uri)
    as [sig|e] eqn:E.
  - rewrite (request_signed w "POST" uri None (Some d) None st url sig Hu E).
    cbn [fst snd calls working_params heap].
    match goal with
    | |- context [call_of ?a ?b ?c ?d0 ?e ?f ?g] =>
        assert (Hcall : call_of a b c d0 e f g = post_call w (this st) url d sig)
    end.
    { unfold call_of, post_call. cbn [String.eqb Ascii.eqb Bool.eqb].
      rewrite !lookup_insert_eq.
      rewrite !lookup_insert_ne by apply fresh_not_inserted.
      rewrite lookup_insert_eq. reflexivity. }
    rewrite Hcall. split; reflexivity.
  - rewrite (request_signer_raises w "POST" uri None (Some d) None st url e Hu E).
    split; reflexivity.
Qed.

(** A request of a market-data endpoint: a new query dictionary, no
    authentication. *)
Lemma request_get_run (w : world) (uri : string) (d : pydict) (st : state) (url : string) :
  resolve w (this st) uri = Return url ->
  let run := (params ← alloc d; request w "GET" uri (Some params) None None false) st in
  calls (snd run) = (calls st ++ [get_call w url d])%list /\
  fst run = normalize w (fst (answer w (get_call w url d)))
                        (snd (answer w (get_call w url d))).
Proof.
  intros Hu. cbn zeta. unfold mbind, M_bind, alloc.
  erewrite request_unauthenticated by exact Hu.
  cbn [fst snd calls heap this working_params].
  match goal with
  | |- context [call_of ?a ?b ?c ?d0 ?e ?f ?g] =>
      assert (Hcall : call_of a b c d0 e f g = get_call w url d)
  end.
  { unfold call_of, get_call. cbn [String.eqb Ascii.eqb Bool.eqb].
    rewrite !lookup_insert_eq.
    rewrite !lookup_insert_ne by apply fresh_not_inserted.
    rewrite lookup_insert_eq. reflexivity. }
  rewrite Hcall. split; reflexivity.
Qed.

(** The one call of an endpoint method: formed URL, and for an authenticated
    endpoint a signer that returns. *)
Lemma perform_run (w : world) (c : api_call) (d : pydict) (st : state) (url : string) :
  mapping_of c = Return d ->
  resolve w (this st) (uri_of c) = Return url ->
  if sends_query c then
    calls (snd (perform w c st)) = (calls st ++ [get_call w url d])%list /\
    fst (perform w c st) = normalize w (fst (answer w (get_call w url d)))
                                       (snd (answer w (get_call w url d)))
  else
    match generate_signature (lib w) (this st) "POST" (auth_fields w (this st)) (uri_of c) with
    | Return sig =>
        calls (snd (perform w c st)) = (calls st ++ [post_call w (this st) url d sig])%list /\
        fst (perform w c st)
        = normalize w (fst (answer w (post_call w (this st) url d sig)))
                      (snd (answer w (post_call w (this st) url d sig)))
    | Raise e => fst (perform w c st) = Raise e /\ calls (snd (perform w c st)) = calls st
    end.
Proof.
  intros Hd Hu.
  destruct c; cbn [mapping_of] in Hd;
    try (unfold get_trigger_hisorders_body in Hd; cbn in Hd; discriminate Hd);
    injection Hd as <-;
    cbn [perform uri_of sends_query] in *; unfold_methods; cbn zeta;
    lazymatch goal with
    | |- context [alloc] => apply (request_get_run w _ _ st url Hu)
    | _ => apply (request_post_run w _ _ st url Hu)
    end.
Qed.

(** The mapping of an endpoint is what its call carries. *)
Lemma perform_sends_mapping (w : world) (c : api_call) (d : pydict) (st : state)
    (call : fetch_call) :
  mapping_of c = Return d -> new_calls st (snd (perform w c st)) [call] ->
  (if sends_query c then fc_params call else fc_data call) = Some d.
Proof.
  intros Hd H.
  destruct (resolve w (this st) (uri_of c)) as [url|e] eqn:Hu.
  - pose proof (perform_run w c d st url Hd Hu) as Hrun.
    destruct (sends_query c).
    + destruct Hrun as [Hc _]. rewrite (new_calls_one _ _ _ _ Hc H). reflexivity.
    + destruct (generate_signature _ _ _ _ _) as [sig|e'].
      * destruct Hrun as [Hc _]. rewrite (new_calls_one _ _ _ _ Hc H). reflexivity.
      * destruct Hrun as [_ Hc]. exfalso. exact (new_calls_none _ _ _ Hc H).
  - exfalso.
    assert (Hc : calls (snd (perform w c st)) = calls st).
    { destruct c; cbn [mapping_of] in Hd;
        try (unfold get_trigger_hisorders_body in Hd; cbn in Hd; discriminate Hd);
        cbn [perform uri_of] in *; unfold_methods; cbn zeta;
        try (rewrite (request_unresolved _ _ _ _ _ _ _ _ _ Hu); reflexivity);
        unfold mbind, M_bind, alloc;
        match goal with
        | |- context [request w ?m ?u ?p ?b ?h ?a ?s] =>
            rewrite (request_unresolved w m u p b h a s e Hu)
        end; reflexivity. }
    exact (new_calls_none _ _ _ Hc H).
Qed.

(** C7 (as amended).  For every method that builds a mapping, that mapping is
    what the call to the transport carries, and the call is made whenever the
    URL is formed and the signer returns.  In the mapping, an optional argument
    that defaults to [None] is sent under its key with its value (a list of
    identifiers as the comma-joined text) when its value is true, and produces
    no key at all when it is absent or false ([0], the empty text, [False],
    the empty list); an optional argument with another default is always
    sent, as its value or else its default; a keyword argument of
    [create_order] is sent whenever it is not [None], and adds no key when it
    is [None]. *)
Theorem optional_arguments_sent (c : api_call) (d : pydict) :
  call_wf c -> mapping_of c = Return d ->
  (forall w st call, new_calls st (snd (perform w c st)) [call] ->
                     (if sends_query c then fc_params call else fc_data call) = Some d) /\
  (forall w st url,
     resolve w (this st) (uri_of c) = Return url ->
     sends_query c = true \/
     returns (generate_signature (lib w) (this st) "POST" (auth_fields w (this st))
                (uri_of c)) ->
     exists call, new_calls st (snd (perform w c st)) [call] /\ fc_url call = url) /\
  (forall k a, In (k, a) (optional_args c) ->
     (is_sent a = true -> dict_get d k = Some (sent_as a)) /\
     (is_sent a = false ->
      ~ In k (dict_keys d) \/ (k = "volume" /\ a = Keyword VNone))).
Proof.
  intros Hwf Hd.
  split; [intros w st call H; exact (perform_sends_mapping w c d st call Hd H)|].
  split.
  { intros w st url Hu Hs. pose proof (perform_run w c d st url Hd Hu) as Hrun.
    destruct (sends_query c).
    - destruct Hrun as [Hc _]. eexists. split; [exact Hc | reflexivity].
    - destruct Hs as [Hs | [sig Hs]]; [discriminate|]. rewrite Hs in Hrun.
      destruct Hrun as [Hc _]. eexists. split; [exact Hc | reflexivity]. }
  intros k a Hin.
  assert (Hgen : dict_get d k = (if is_sent a then Some (sent_as a) else None) ->
                 (is_sent a = true -> dict_get d k = Some (sent_as a)) /\
                 (is_sent a = false ->
                  ~ In k (dict_keys d) \/ (k = "volume" /\ a = Keyword VNone))).
  { intros H. split; intros Ha; rewrite Ha in H; [exact H|].
    left. apply (dict_get_None d k). exact H. }
  destruct c; cbn [mapping_of] in Hd; cbn [optional_args] in Hin;
    try (exfalso; exact Hin);
    try (injection Hd as <-);
    try (apply Hgen;
         repeat (destruct Hin as [Hin|Hin]; [injection Hin as <- <-|]);
         try (exfalso; exact Hin);
         unfold get_swap_info_params, get_price_limit_params, get_klines_params,
           get_asset_info_body, get_position_body, revoke_order_body, revoke_orders_body,
           get_order_info_body, get_order_detail_body, get_trigger_openorders_body,
           lightning_close_position_body, get_open_orders_body, get_history_orders_body,
           transfer_between_spot_swap_body;
         cbn zeta;
         rewrite ?set_if_get, ?update_if_get, ?set_joined_get, ?update_joined_get;
         literal_keys; cbn [is_sent sent_as];
         repeat match goal with
                | |- context [truthy ?x] => destruct (truthy x)
                | |- context [is_sent ?x] => destruct (is_sent x)
                end; reflexivity).
  - (* create_order *)
    destruct Hwf as [Hkw Hformal].
    destruct Hin as [Hin | Hin].
    + injection Hin as <- <-. apply Hgen. unfold create_order_body. cbn zeta.
      rewrite kwargs_fold_get
        by (apply Hformal; unfold create_order_parameters; simpl; tauto).
      rewrite update_if_get. literal_keys. cbn [is_sent sent_as].
      destruct (truthy client_order_id); reflexivity.
    + apply in_map_iff in Hin as ([k' v] & Heq & Hin). cbn [fst snd] in Heq.
      injection Heq as <- <-. rename k' into k.
      pose proof (dict_get_in_wf kwargs k v Hkw Hin) as Hget.
      cbn [is_sent sent_as]. unfold create_order_body. cbn zeta. split; intros Hv.
      * apply kwargs_fold_get_in; [exact Hkw | exact Hin | rewrite Hget; exact Hv].
      * destruct (string_dec k "volume") as [-> | Hvol].
        { right. split; [reflexivity|]. destruct v; try discriminate Hv. reflexivity. }
        left. apply (dict_get_None _ k).
        rewrite kwargs_fold_get_none by (rewrite Hget; exact Hv).
        assert (Hk : ~ In k create_order_parameters).
        { intros Hp. apply (Hformal k Hp). change k with (fst (k, v)).
          apply in_map. exact Hin. }
        rewrite update_if_get.
        assert (Hne : forall p, In p create_order_parameters -> String.eqb p k = false).
        { intros p Hp. apply String.eqb_neq. intros ->. exact (Hk Hp). }
        assert (Hv' : String.eqb "volume" k = false)
          by (apply String.eqb_neq; congruence).
        rewrite (Hne "client_order_id") by (unfold create_order_parameters; simpl; tauto).
        rewrite andb_false_r. cbn [dict_get]. rewrite Hv'.
        rewrite !Hne by (unfold create_order_parameters; simpl; tauto).
        reflexivity.
  - (* get_trigger_hisorders builds no mapping *)
    unfold get_trigger_hisorders_body in Hd. cbn in Hd. discriminate.
Qed.

Lemma optional_arguments_sent_witness :
  call_wf (GetSwapInfo VNone) /\
  mapping_of (GetSwapInfo VNone) = Return [] /\
  In ("contract_code", Scalar VNone) (optional_args (GetSwapInfo VNone)) /\
  (~ In "contract_code" (dict_keys (get_swap_info_params VNone)) \/
   ("contract_code" = "volume" /\ Scalar VNone = Keyword VNone)).
Proof.
  assert (H1 : call_wf (GetSwapInfo VNone)) by exact I.
  assert (H2 : mapping_of (GetSwapInfo VNone) = Return []) by reflexivity.
  assert (H3 : In ("contract_code", Scalar VNone) (optional_args (GetSwapInfo VNone)))
    by (left; reflexivity).
  split; [exact H1|]. split; [exact H2|]. split; [exact H3|].
  exact (proj2 (proj2 (proj2 (optional_arguments_sent (GetSwapInfo VNone) [] H1 H2))
                       "contract_code" (Scalar VNone) H3) eq_refl).
Defined.

(** C7 (as stated) fails: [page_index=0] is provided, and no key is sent. *)
Lemma falsy_argument_is_dropped :
  provided (Scalar (VInt 0)) = true /\
  In ("page_index", Scalar (VInt 0))
     (optional_args (GetTriggerOpenorders (VStr "BTC-USDT") (VInt 0) VNone)) /\
  mapping_of (GetTriggerOpenorders (VStr "BTC-USDT") (VInt 0) VNone)
  = Return [("contract_code", VStr "BTC-USDT")] /\
  dict_get (get_trigger_openorders_body (VStr "BTC-USDT") (VInt 0) VNone) "page_index" = None.
Proof. repeat split; try reflexivity. left. reflexivity. Qed.

(** The keyword arguments of [create_order] are tested against [None], so a
    false value among them is sent. *)
Example create_order_kwargs_keep_zero :
  dict_get (create_order_body (VStr "BTC-USDT") (VInt 1) (VInt 1) (VStr "buy") (VStr "open")
              (VInt 20) (VStr "limit") VNone [("tp_trigger_price", VInt 0)])
           "tp_trigger_price"
  = Some (VInt 0).
Proof. reflexivity. Qed.

(** An argument with a default other than [None] is sent when it is left
    out. *)
Example get_open_orders_defaults :
  get_open_orders_body (VStr "BTC-USDT") None None
  = [("contract_code", VStr "BTC-USDT"); ("page_index", VInt 1); ("page_size", VInt 50)].
Proof. reflexivity. Qed.

(** C8.  [revoke_orders] sends a non-empty list of order identifiers as one
    comma-joined text under [order_id], and a non-empty list of client order
    identifiers likewise under [client_order_id]: whenever the URL is formed
    and the signer returns, it makes one call, and the [data] of that call is
    the body with the joined texts. *)
Theorem revoke_orders_joins_ids (contract_code : value) (ids : list string) :
  ids <> [] ->
  (forall client_order_ids,
     dict_get (revoke_orders_body contract_code (Some ids) client_order_ids) "order_id"
     = Some (VStr (join "," ids))) /\
  (forall order_ids,
     dict_get (revoke_orders_body contract_code order_ids (Some ids)) "client_order_id"
     = Some (VStr (join "," ids))) /\
  (forall w order_ids client_order_ids st url sig,
     resolve w (this st) "/linear-swap-api/v1/swap_cross_cancel" = Return url ->
     generate_signature (lib w) (this st) "POST" (auth_fields w (this st))
       "/linear-swap-api/v1/swap_cross_cancel" = Return sig ->
     exists call,
       calls (snd (revoke_orders w contract_code order_ids client_order_ids st))
       = (calls st ++ [call])%list /\
       fc_method call = "POST" /\ fc_url call = url /\
       fc_data call = Some (revoke_orders_body contract_code order_ids client_order_ids)) /\
  (forall w order_ids client_order_ids st call,
     new_calls st (snd (revoke_orders w contract_code order_ids client_order_ids st)) [call] ->
     fc_data call = Some (revoke_orders_body contract_code order_ids client_order_ids)).
Proof.
  intros Hne. destruct ids as [|i ids]; [congruence|].
  split; [|split; [|split]].
  - intros cids. unfold revoke_orders_body. cbn zeta.
    rewrite !set_joined_get. literal_keys. reflexivity.
  - intros oids. unfold revoke_orders_body. cbn zeta.
    rewrite !set_joined_get. literal_keys. reflexivity.
  - intros w oids cids st url sig Hu Hs. unfold revoke_orders. cbn zeta.
    pose proof (request_post_run w _ (revoke_orders_body contract_code oids cids) st url Hu)
      as Hrun.
    cbn zeta in Hrun. rewrite Hs in Hrun. destruct Hrun as [Hc _].
    eexists. split; [exact Hc|]. repeat split.
  - intros w oids cids st call H.
    exact (perform_sends_mapping w (RevokeOrders contract_code oids cids) _ st call
             eq_refl H).
Qed.

Lemma revoke_orders_joins_ids_witness :
  ["1"; "2"; "3"] <> [] /\
  map fc_data
      (calls (snd (revoke_orders world_ok (VStr "BTC-USDT") (Some ["1"; "2"; "3"]) None
                     empty_state)))
  = [Some [("contract_code", VStr "BTC-USDT"); ("order_id", VStr "1,2,3")]].
Proof.
  assert (H : ["1"; "2"; "3"] <> ([] : list string)) by discriminate.
  split; [exact H|].
  destruct (generate_signature (lib world_ok) (this empty_state) "POST"
              (auth_fields world_ok (this empty_state))
              "/linear-swap-api/v1/swap_cross_cancel") as [sig|e] eqn:E;
    [|vm_compute in E; discriminate E].
  destruct (proj1 (proj2 (proj2 (revoke_orders_joins_ids (VStr "BTC-USDT") ["1"; "2"; "3"] H)))
              world_ok (Some ["1"; "2"; "3"]) None empty_state
              "https://api.hbdm.com/linear-swap-api/v1/swap_cross_cancel" sig eq_refl E)
    as (call & Hc & _ & _ & Hd).
  rewrite Hc. cbn [calls empty_state app map]. rewrite Hd. reflexivity.
Defined.

(** C4: what the code does.  [get_trigger_hisorders] raises [NameError] for
    every argument assignment, before it calls [request]: its dictionary
    display reads [trade_type], which neither the method nor the module
    binds. *)
Theorem get_trigger_hisorders_raises (w : world)
    (contract_code status create_date page_index page_size : value) (st : state) :
  ~ In "trade_type" module_globals /\
  get_trigger_hisorders w contract_code status create_date page_index page_size st
  = (Raise (NameError "trade_type"), st) /\
  ~ returns (fst (perform w (GetTriggerHisorders contract_code status create_date
                               page_index page_size) st)).
Proof.
  split; [|split].
  - unfold module_globals. simpl. intuition discriminate.
  - reflexivity.
  - intros [pair H]. discriminate H.
Qed.

(** * Further properties *)

(** ** Texts *)

Lemma append_nil_l (s : string) : "" ++ s = s.
Proof. reflexivity. Qed.

Lemma append_cons (c : ascii) (a b : string) : String c a ++ b = String c (a ++ b).
Proof. reflexivity. Qed.



Lemma contains_app (c : ascii) (a b : string) :
  contains c (a ++ b) = contains c a || contains c b.
Proof.
  induction a as [|x a IH]; [reflexivity|].
  rewrite append_cons. cbn [contains]. rewrite IH. apply orb_assoc.
Qed.



Lemma partition_absent (c : ascii) (s : string) :
  contains c s = false -> partition c s = (s, false, "").
Proof.
  induction s as [|x s IH]; simpl; [reflexivity|].
  intros H. apply orb_false_elim in H as [Hx Hs]. rewrite Hx, (IH Hs). reflexivity.
Qed.




Lemma split_found (c : ascii) (a b : string) :
  contains c a = false -> split c (a ++ String c b) = a :: split c b.
Proof.
  induction a as [|x a IH]; [rewrite append_nil_l | rewrite append_cons]; simpl.
  - intros _. rewrite Ascii.eqb_refl. reflexivity.
  - intros H. apply orb_false_elim in H as [Hx Ha]. rewrite Hx, (IH Ha). reflexivity.
Qed.

Lemma split_absent (c : ascii) (s : string) :
  contains c s = false -> split c s = [s].
Proof.
  induction s as [|x s IH]; simpl; [reflexivity|].
  intros H. apply orb_false_elim in H as [Hx Hs]. rewrite Hx, (IH Hs). reflexivity.
Qed.






Lemma all_chars_app (p : ascii -> bool) (a b : string) :
  all_chars p (a ++ b) = all_chars p a && all_chars p b.
Proof.
  induction a as [|x a IH]; [reflexivity|].
  rewrite append_cons. cbn [all_chars]. rewrite IH. apply andb_assoc.
Qed.

















(** ** ASCII URLs and the tables of the library *)

Lemma plain_text (s : string) :
  isascii s = true -> contains "[" s = false -> all_chars plain_char s = true.
Proof.
  unfold isascii, plain_char. induction s as [|c s IH]; [reflexivity|].
  cbn [all_chars contains]. intros Ha Hc.
  apply andb_prop in Ha as [Hc1 Ha]. apply orb_false_elim in Hc as [Hc2 Hc].
  rewrite Hc1, Hc2, (IH Ha Hc). reflexivity.
Qed.

Lemma plain_ascii (s : string) : all_chars plain_char s = true -> isascii s = true.
Proof.
  unfold isascii, plain_char. induction s as [|c s IH]; [reflexivity|].
  cbn [all_chars]. intros H. apply andb_prop in H as [Hc Hs].
  apply andb_prop in Hc as [Hc _]. rewrite Hc, (IH Hs). reflexivity.
Qed.

Lemma plain_no_bracket (s : string) :
  all_chars plain_char s = true -> contains "[" s = false.
Proof.
  unfold plain_char. induction s as [|c s IH]; [reflexivity|].
  cbn [all_chars contains]. intros H. apply andb_prop in H as [Hc Hs].
  apply andb_prop in Hc as [_ Hc]. apply negb_true_iff in Hc.
  rewrite Hc, (IH Hs). reflexivity.
Qed.

Lemma all_chars_lstrip (p q : ascii -> bool) (s : string) :
  all_chars p s = true -> all_chars p (lstrip q s) = true.
Proof.
  induction s as [|c s IH]; [reflexivity|]. cbn [lstrip]. intros H.
  destruct (q c); [|exact H].
  cbn [all_chars] in H. apply andb_prop in H as [_ Hs]. apply IH. exact Hs.
Qed.

Lemma all_chars_remove_char (p : ascii -> bool) (b : ascii) (s : string) :
  all_chars p s = true -> all_chars p (remove_char b s) = true.
Proof.
  induction s as [|c s IH]; [reflexivity|]. cbn [remove_char all_chars]. intros H.
  apply andb_prop in H as [Hc Hs].
  destruct (Ascii.eqb c b); [apply IH; exact Hs|].
  cbn [all_chars]. rewrite Hc, (IH Hs). reflexivity.
Qed.

Lemma all_chars_sanitize (p : ascii -> bool) (s : string) :
  all_chars p s = true -> all_chars p (Urllib.sanitize s) = true.
Proof.
  intros H. unfold Urllib.sanitize, Urllib.remove_unsafe, Urllib.unsafe_url_bytes.
  cbn [fold_left]. repeat apply all_chars_remove_char. apply all_chars_lstrip. exact H.
Qed.

Lemma all_chars_partition (p : ascii -> bool) (c : ascii) (s : string) :
  all_chars p s = true ->
  all_chars p (fst (fst (partition c s))) = true /\ all_chars p (snd (partition c s)) = true.
Proof.
  induction s as [|x s IH]; [split; reflexivity|]. cbn [all_chars partition]. intros H.
  apply andb_prop in H as [Hx Hs]. destruct (Ascii.eqb x c).
  - split; [reflexivity | exact Hs].
  - destruct (IH Hs) as [Ha Hb]. destruct (partition c s) as [[a found] b].
    cbn [fst snd all_chars] in *. rewrite Hx, Ha. split; [reflexivity | exact Hb].
Qed.

Lemma all_chars_until_delim (p : ascii -> bool) (s : string) :
  all_chars p s = true -> all_chars p (Urllib.until_delim s) = true.
Proof.
  induction s as [|x s IH]; [reflexivity|]. cbn [all_chars Urllib.until_delim]. intros H.
  apply andb_prop in H as [Hx Hs]. destruct (contains x "/?#"); [reflexivity|].
  cbn [all_chars]. rewrite Hx, (IH Hs). reflexivity.
Qed.

Lemma all_chars_after_last (p : ascii -> bool) (c : ascii) (s : string) :
  all_chars p s = true -> all_chars p (after_last c s) = true.
Proof.
  induction s as [|x s IH]; [reflexivity|]. cbn [after_last]. intros H.
  pose proof H as H'. cbn [all_chars] in H'. apply andb_prop in H' as [Hx Hs].
  destruct (contains c s); [apply IH; exact Hs|].
  destruct (Ascii.eqb x c); [exact Hs | exact H].
Qed.

Lemma all_chars_strip_scheme (p : ascii -> bool) (url : string) :
  all_chars p url = true -> all_chars p (Urllib.strip_scheme url) = true.
Proof.
  intros H. unfold Urllib.strip_scheme.
  destruct (all_chars_partition p ":" url H) as [_ Hb].
  destruct (partition ":" url) as [[before found] rest]. cbn [snd] in Hb.
  destruct before as [|c before]; [exact H|].
  destruct (found && is_alpha c && all_chars Urllib.scheme_char (String c before));
    assumption.
Qed.

Lemma all_chars_hostinfo (p : ascii -> bool) (n : string) :
  all_chars p n = true -> all_chars p (Urllib.hostinfo n) = true.
Proof.
  intros H. unfold Urllib.hostinfo.
  pose proof (all_chars_after_last p "@" n H) as Hh.
  destruct (all_chars_partition p "[" _ Hh) as [_ Hb].
  destruct (all_chars_partition p ":" _ Hh) as [Hc _].
  destruct (partition "[" (after_last "@" n)) as [[x have_open_br] bracketed].
  cbn [snd] in Hb. destruct have_open_br; [|exact Hc].
  apply (all_chars_partition p "]" bracketed Hb).
Qed.

(** The authority of an ASCII URL without an opening bracket is found
    without the library, and is such a text again. *)
Lemma netloc_plain (url : string) :
  all_chars plain_char url = true ->
  exists r : outcome string,
    (forall L, Urllib.netloc L url = r) /\
    (forall n, r = Return n -> all_chars plain_char n = true).
Proof.
  intros H. apply all_chars_sanitize, all_chars_strip_scheme in H.
  unfold Urllib.netloc. revert H.
  generalize (Urllib.strip_scheme (Urllib.sanitize url)) as u. intros u H.
  assert (Hempty : exists r : outcome string,
             (forall L : library, @Return string "" = r) /\
             (forall n, r = Return n -> all_chars plain_char n = true)).
  { exists (Return ""). split; [reflexivity|]. intros n [= <-]. reflexivity. }
  destruct u as [|c1 u]; [exact Hempty|].
  destruct u as [|c2 rest];
    [destruct c1 as [[] [] [] [] [] [] [] []]; exact Hempty|].
  cbn [all_chars] in H. apply andb_prop in H as [_ H]. apply andb_prop in H as [_ H].
  apply all_chars_until_delim in H.
  destruct c1 as [[] [] [] [] [] [] [] []]; try exact Hempty.
  destruct c2 as [[] [] [] [] [] [] [] []]; try exact Hempty.
  cbn zeta. rewrite (plain_no_bracket _ H). cbn [andb orb negb].
  destruct (contains "]" (Urllib.until_delim rest)).
  - exists (Raise ValueError). split; [reflexivity | discriminate].
  - exists (Return (Urllib.until_delim rest)). split.
    + intros L. unfold Urllib.checknetloc. rewrite (plain_ascii _ H), orb_true_r.
      reflexivity.
    + intros n [= <-]. exact H.
Qed.

Lemma hostname_plain (url : string) :
  all_chars plain_char url = true ->
  exists r : outcome (option string),
    (forall L, Urllib.hostname L url = r) /\
    (forall h, r = Return (Some h) -> isascii h = true).
Proof.
  intros H. destruct (netloc_plain url H) as (rn & Hnet & Hplain).
  unfold Urllib.hostname.
  destruct rn as [n|e].
  2:{ exists (Raise e). split; [|discriminate]. intros L. rewrite Hnet. reflexivity. }
  pose proof (all_chars_hostinfo _ _ (Hplain n eq_refl)) as Hinfo.
  destruct (Urllib.hostinfo n) as [|c h] eqn:E.
  - exists (Return None). split; [|discriminate]. intros L. rewrite Hnet.
    cbn [mbind outcome_bind]. rewrite E. reflexivity.
  - destruct (all_chars_partition plain_char "%" _ Hinfo) as [Ha Hb].
    apply plain_ascii in Ha, Hb.
    destruct (partition "%" (String c h)) as [[host percent] zone] eqn:Ep.
    cbn [fst snd] in Ha, Hb.
    exists (Return (Some (ascii_lower host ++ (if percent then "%" else "") ++ zone))).
    split.
    + intros L. rewrite Hnet. cbn [mbind outcome_bind]. rewrite E, Ep.
      rewrite (lower_of_ascii L host Ha). reflexivity.
    + intros h' [= <-]. unfold isascii in *.
      rewrite !all_chars_app, ascii_lower_isascii_chars, Ha, Hb.
      destruct percent; reflexivity.
Qed.

(** X19.  For a URL in ASCII without an opening bracket (the path itself when
    it is absolute, else the base host), the signature does not depend on the
    tables of the library: neither the case conversion outside ASCII, nor the
    NFKC normalisation, nor the check of a bracketed host is consulted. *)
Theorem signature_needs_no_tables (L L' : library) (self : client) (method : string)
    (params : pydict) (request_path : string) :
  isascii (if is_absolute request_path then request_path else _host self) = true ->
  contains "[" (if is_absolute request_path then request_path else _host self) = false ->
  generate_signature L self method params request_path
  = generate_signature L' self method params request_path.
Proof.
  intros Ha Hb.
  destruct (hostname_plain _ (plain_text _ Ha Hb)) as (r & Hr & Hascii).
  assert (Ht : signing_target L self request_path = signing_target L' self request_path).
  { unfold signing_target.
    destruct (is_absolute request_path); rewrite !Hr;
      (destruct r as [[h|]|e]; [|reflexivity..]);
      cbn [mbind outcome_bind hostname_lower];
      rewrite !lower_of_ascii by (apply Hascii; reflexivity); reflexivity. }
  unfold generate_signature, signing_payload. rewrite Ht. reflexivity.
Qed.

Lemma signature_needs_no_tables_witness :
  isascii (_host sample_client) = true /\
  contains "[" (_host sample_client) = false /\
  generate_signature ascii_library sample_client "GET" [] "/x"
  = generate_signature (Library ascii_upper ascii_lower ascii_lower (fun _ => true))
                       sample_client "GET" [] "/x".
Proof.
  split; [reflexivity|]. split; [reflexivity|].
  exact (signature_needs_no_tables ascii_library
           (Library ascii_upper ascii_lower ascii_lower (fun _ => true))
           sample_client "GET" [] "/x" eq_refl eq_refl).
Defined.

(** What [urlsplit] does before it parses: a tab inside the host is removed,
    and so is a blank in front of the URL. *)
Example hostname_without_tab (L : library) :
  Urllib.hostname L ("https://api.hb" ++ String (ascii_of_nat 9) "dm.com")
  = Return (Some "api.hbdm.com").
Proof. reflexivity. Qed.

Example hostname_after_blank (L : library) :
  Urllib.hostname L " //api.hbdm.com" = Return (Some "api.hbdm.com").
Proof. reflexivity. Qed.

(** The checks of [urlsplit]: a bracket without its partner, and a bracketed
    host that is no address. *)
Example hostname_lone_bracket (L : library) : Urllib.hostname L "http://[" = Raise ValueError.
Proof. reflexivity. Qed.

Example hostname_bad_bracketed_host (L : library) :
  bracketed_host_ok L "abc" = false -> Urllib.hostname L "http://[abc]/" = Raise ValueError.
Proof.
  intros H. unfold Urllib.hostname, Urllib.netloc.
  change (Urllib.strip_scheme (Urllib.sanitize "http://[abc]/")) with "//[abc]/".
  cbn [Urllib.until_delim contains Ascii.eqb Bool.eqb orb andb negb].
  unfold Urllib.check_bracketed_netloc, Urllib.check_bracketed_host.
  cbn [after_last partition contains Ascii.eqb Bool.eqb orb String.eqb negb andb].
  rewrite H. reflexivity.
Qed.

(** ** The signature text *)

Lemma be_bytes_length (n : nat) (x : Z) : length (SHA256.be_bytes n x) = n.
Proof. induction n as [|n IH]; simpl; [reflexivity | rewrite IH; reflexivity]. Qed.

Lemma land_255_byte (x : Z) : is_byte (Z.land x 0xFF).
Proof.
  unfold is_byte. change 0xFF with (Z.ones 8). rewrite Z.land_ones by lia.
  apply Z.mod_pos_bound. reflexivity.
Qed.

Lemma be_bytes_bytes (n : nat) (x : Z) : List.Forall is_byte (SHA256.be_bytes n x).
Proof.
  induction n as [|n IH]; simpl; constructor; [apply land_255_byte | exact IH].
Qed.

Lemma blocks_length (n : nat) (h : list Z) (bs : list Z) :
  length h = 8%nat -> length (SHA256.blocks n h bs) = 8%nat.
Proof.
  revert h bs. induction n as [|n IH]; intros h bs H; simpl; [exact H|].
  apply IH. reflexivity.
Qed.

Lemma flat_map_be_bytes_length (l : list Z) :
  length (flat_map (SHA256.be_bytes 4) l) = (4 * length l)%nat.
Proof.
  induction l as [|x l IH]; [reflexivity|].
  cbn [flat_map]. rewrite length_app, be_bytes_length, IH. simpl. lia.
Qed.

Lemma flat_map_be_bytes_bytes (l : list Z) :
  List.Forall is_byte (flat_map (SHA256.be_bytes 4) l).
Proof.
  induction l as [|x l IH]; [constructor|].
  cbn [flat_map]. apply List.Forall_app. split; [apply be_bytes_bytes | exact IH].
Qed.

(** A SHA-256 digest is 32 bytes, whatever was hashed. *)
Lemma sha256_digest_length (msg : list Z) : length (SHA256.digest msg) = 32%nat.
Proof.
  unfold SHA256.digest. rewrite flat_map_be_bytes_length, blocks_length; reflexivity.
Qed.

Lemma sha256_digest_bytes (msg : list Z) : List.Forall is_byte (SHA256.digest msg).
Proof. unfold SHA256.digest. apply flat_map_be_bytes_bytes. Qed.

Lemma b64encode_ind (P : list Z -> Prop) :
  P [] -> (forall a, P [a]) -> (forall a b, P [a; b]) ->
  (forall a b c rest, P rest -> P (a :: b :: c :: rest)) ->
  forall l, P l.
Proof.
  intros H0 H1 H2 H3 l.
  assert (H : P l /\ (forall a, P (a :: l)) /\ (forall a b, P (a :: b :: l))).
  { induction l as [|x l (IHl & IH1 & IH2)].
    - auto.
    - split; [apply IH1|]. split; [intros a; apply IH2|]. intros a b. apply H3. exact IHl. }
  exact (proj1 H).
Qed.

Lemma b64encode_length (bs : list Z) :
  length (Base64.b64encode bs) = (4 * ((length bs + 2) / 3))%nat.
Proof.
  induction bs as [| a | a b | a b c rest IH] using b64encode_ind; try reflexivity.
  cbn [Base64.b64encode length]. rewrite IH.
  replace (S (S (S (length rest))) + 2)%nat with (1 * 3 + (length rest + 2))%nat by lia.
  rewrite Nat.div_add_l by lia. lia.
Qed.

Lemma sextet_alphabet (i : Z) :
  0 <= i < 64 -> contains (ascii_of_byte (Base64.sextet i)) Base64.alphabet = true.
Proof.
  intros H.
  assert (Hall : forallb (fun n => contains (ascii_of_byte (Base64.sextet (Z.of_nat n)))
                                           Base64.alphabet) (seq 0 64) = true)
    by (vm_compute; reflexivity).
  rewrite forallb_forall in Hall.
  replace i with (Z.of_nat (Z.to_nat i)) by lia. apply Hall. apply in_seq. lia.
Qed.

Lemma lor_bound (x y n : Z) : 0 <= x -> 0 <= y -> x + y < n -> 0 <= Z.lor x y < n.
Proof.
  intros Hx Hy H. split; [apply Z.lor_nonneg; split; assumption|].
  pose proof (Z.add_lor_land x y) as E.
  assert (0 <= Z.land x y) by (apply Z.land_nonneg; left; exact Hx). lia.
Qed.

Lemma sextet_indices (a b : Z) :
  is_byte a -> is_byte b ->
  0 <= Z.shiftr a 2 < 64 /\
  0 <= Z.shiftl (Z.land a 3) 4 < 64 /\
  0 <= Z.lor (Z.shiftl (Z.land a 3) 4) (Z.shiftr b 4) < 64 /\
  0 <= Z.shiftl (Z.land a 15) 2 < 64 /\
  0 <= Z.lor (Z.shiftl (Z.land a 15) 2) (Z.shiftr b 6) < 64 /\
  0 <= Z.land a 63 < 64.
Proof.
  unfold is_byte. intros Ha Hb.
  change 3 with (Z.ones 2). change 15 with (Z.ones 4). change 63 with (Z.ones 6).
  rewrite !Z.land_ones by lia. rewrite !Z.shiftl_mul_pow2, !Z.shiftr_div_pow2 by lia.
  change (2 ^ 2) with 4. change (2 ^ 4) with 16. change (2 ^ 6) with 64.
  assert (0 <= a mod 4 < 4) by (apply Z.mod_pos_bound; lia).
  assert (0 <= a mod 16 < 16) by (apply Z.mod_pos_bound; lia).
  assert (0 <= a mod 64 < 64) by (apply Z.mod_pos_bound; lia).
  assert (0 <= a / 4 < 64) by (split; [apply Z.div_pos | apply Z.div_lt_upper_bound]; lia).
  assert (0 <= b / 16 < 16) by (split; [apply Z.div_pos | apply Z.div_lt_upper_bound]; lia).
  assert (0 <= b / 64 < 4) by (split; [apply Z.div_pos | apply Z.div_lt_upper_bound]; lia).
  pose proof (lor_bound (a mod 4 * 16) (b / 16) 64 ltac:(lia) ltac:(lia) ltac:(lia)).
  pose proof (lor_bound (a mod 16 * 4) (b / 64) 64 ltac:(lia) ltac:(lia) ltac:(lia)).
  repeat split; lia.
Qed.

Lemma base64_char_sextet (i : Z) :
  0 <= i < 64 -> base64_char (ascii_of_byte (Base64.sextet i)) = true.
Proof. intros H. unfold base64_char. rewrite (sextet_alphabet i H). reflexivity. Qed.

(** The encoding of bytes is base64 text. *)
Lemma b64encode_text (bs : list Z) :
  List.Forall is_byte bs -> base64_text (decode (Base64.b64encode bs)) = true.
Proof.
  unfold base64_text, decode.
  induction bs as [| a | a b | a b c rest IH] using b64encode_ind; intros H.
  - reflexivity.
  - inversion H as [|? ? Ha _]; subst.
    destruct (sextet_indices a a Ha Ha) as (H1 & H2 & _).
    cbn [Base64.b64encode map string_of_list_ascii all_chars].
    rewrite !base64_char_sextet by assumption. reflexivity.
  - inversion H as [|? ? Ha H']; subst. inversion H' as [|? ? Hb _]; subst.
    destruct (sextet_indices a b Ha Hb) as (H1 & _ & H3 & _).
    destruct (sextet_indices b b Hb Hb) as (_ & _ & _ & H4 & _).
    cbn [Base64.b64encode map string_of_list_ascii all_chars].
    rewrite !base64_char_sextet by assumption. reflexivity.
  - inversion H as [|? ? Ha H']; subst. inversion H' as [|? ? Hb H'']; subst.
    inversion H'' as [|? ? Hc Hrest]; subst.
    destruct (sextet_indices a b Ha Hb) as (H1 & _ & H3 & _).
    destruct (sextet_indices b c Hb Hc) as (_ & _ & _ & _ & H5 & _).
    destruct (sextet_indices c c Hc Hc) as (_ & _ & _ & _ & _ & H6).
    cbn [Base64.b64encode map string_of_list_ascii all_chars].
    rewrite !base64_char_sextet by assumption. cbn [andb]. apply IH. exact Hrest.
Qed.

Lemma decode_length (bs : list Z) : String.length (decode bs) = length bs.
Proof.
  unfold decode. induction bs as [|b bs IH]; [reflexivity|].
  cbn [map string_of_list_ascii String.length]. rewrite IH. reflexivity.
Qed.

(** 32 bytes are encoded with one padding sign at the end. *)
Lemma b64encode_32_padding (bs : list Z) :
  length bs = 32%nat -> String.get 43 (decode (Base64.b64encode bs)) = Some "="%char.
Proof.
  intros H.
  do 32 (destruct bs as [|? bs]; [discriminate H|]).
  destruct bs; [|discriminate H].
  reflexivity.
Qed.

(** X3.  Whenever the signer returns, the signature is base64 text of 44
    characters, the last one the padding sign [=]: the encoding of the 32
    bytes of an HMAC-SHA256 digest. *)
Theorem generate_signature_shape (L : library) (self : client) (method : string)
    (params : pydict) (request_path sig : string) :
  generate_signature L self method params request_path = Return sig ->
  String.length sig = 44%nat /\ base64_text sig = true /\
  String.get 43 sig = Some "="%char.
Proof.
  unfold generate_signature.
  destruct (signing_payload L self method params request_path) as [payload|e];
    cbn [mbind outcome_bind]; [|discriminate].
  intros [= <-].
  assert (Hlen : length (HMAC.digest (encode_utf8 (_secret_key self)) (encode_utf8 payload))
                 = 32%nat) by apply sha256_digest_length.
  split; [|split].
  - rewrite decode_length, b64encode_length, Hlen. reflexivity.
  - apply b64encode_text. apply sha256_digest_bytes.
  - apply b64encode_32_padding. exact Hlen.
Qed.

Lemma generate_signature_shape_witness :
  generate_signature ascii_library sample_client "GET" [] "/x"
  = Return "1qt9Vm+WAMsZH0MNUHfrcYthd5ouovU1Gj8lKlSQptw=" /\
  String.length "1qt9Vm+WAMsZH0MNUHfrcYthd5ouovU1Gj8lKlSQptw=" = 44%nat.
Proof.
  assert (H : generate_signature ascii_library sample_client "GET" [] "/x"
              = Return "1qt9Vm+WAMsZH0MNUHfrcYthd5ouovU1Gj8lKlSQptw=")
    by (vm_compute; reflexivity).
  split; [exact H|].
  exact (proj1 (generate_signature_shape ascii_library sample_client "GET" [] "/x" _ H)).
Defined.

(** ** More on the dispatcher *)

Lemma working_params_other (st : state) (x : option loc) (l : loc) (d : pydict) :
  heap st !! l = Some d -> x <> Some l \/ d = [] -> fst (working_params st x) <> l.
Proof.
  intros Hl Hx. unfold working_params. destruct x as [l0|]; cbn [fst].
  - destruct (dict_truthy (default [] (heap st !! l0))) eqn:E; cbn [fst].
    + intros ->. rewrite Hl in E. cbn in E. destruct Hx as [Hx | ->]; [congruence | discriminate].
    + intros Hf. pose proof (is_fresh (dom (heap st))) as Hfresh.
      rewrite Hf in Hfresh. apply Hfresh. apply elem_of_dom. eauto.
  - intros Hf. pose proof (is_fresh (dom (heap st))) as Hfresh.
    rewrite Hf in Hfresh. apply Hfresh. apply elem_of_dom. eauto.
Qed.

(** All the fields of the call that [request] makes, when it makes one. *)
Lemma request_call_fields (w : world) (method uri : string) (params : option loc)
    (body : option pydict) (headers : option loc) (auth : bool) (st : state)
    (call : fetch_call) :
  new_calls st (snd (request w method uri params body headers auth st)) [call] ->
  fc_method call = verb_of method /\ resolve w (this st) uri = Return (fc_url call) /\
  fc_data call = data_of method body /\ fc_timeout call = 10 /\
  fst (request w method uri params body headers auth st)
  = normalize w (fst (answer w call)) (snd (answer w call)).
Proof.
  intros H. unfold verb_of, data_of.
  destruct (resolve w (this st) uri) as [url|e0] eqn:Hu.
  2:{ rewrite (request_unresolved _ _ _ _ _ _ _ _ _ Hu) in H. cbn [snd] in H.
      exfalso. eapply new_calls_none; [|exact H]. reflexivity. }
  destruct auth.
  - destruct (generate_signature (lib w) (this st) method (merged_params w st params) uri)
      as [sig|e] eqn:E.
    + rewrite (request_signed _ _ _ _ _ _ _ _ _ Hu E) in *. cbn [fst snd] in *.
      unfold new_calls in H. cbn [calls] in H. apply app_inv_head in H.
      injection H as <-. unfold call_of at 1 2 3 4. cbn. auto.
    + rewrite (request_signer_raises _ _ _ _ _ _ _ _ _ Hu E) in H. cbn [snd] in H.
      exfalso. eapply new_calls_none; [|exact H]. reflexivity.
  - rewrite (request_unauthenticated _ _ _ _ _ _ _ _ Hu) in *. cbn [fst snd] in *.
    unfold new_calls in H. cbn [calls] in H. apply app_inv_head in H.
    injection H as <-. unfold call_of at 1 2 3 4. cbn. auto.
Qed.



(** X5.  Once the transport has answered with a false error slot, a payload
    that is neither a mapping nor text raises [TypeError], text that is not
    JSON raises [JSONDecodeError], JSON that is not an object raises
    [AttributeError], and a mapping gives a result pair according to its
    [status], which must be the text [ok] itself (a missing or differently
    typed status is an error). *)
Theorem request_after_answer (w : world) (method uri : string) (params : option loc)
    (body : option pydict) (headers : option loc) (auth : bool) (st : state)
    (call : fetch_call) :
  new_calls st (snd (request w method uri params body headers auth st)) [call] ->
  obj_truthy (snd (answer w call)) = false ->
  let success := fst (answer w call) in
  let r := fst (request w method uri params body headers auth st) in
  (is_dict success = false -> is_text success = false -> r = Raise TypeError) /\
  (forall s, success = OStr s -> json_loads w s = None -> r = Raise JSONDecodeError) /\
  (forall s v, success = OStr s -> json_loads w s = Some v -> is_dict v = false ->
               r = Raise AttributeError) /\
  (forall d, success = ODict d \/
             (exists s, success = OStr s /\ json_loads w s = Some (ODict d)) ->
             r = result_of_payload d) /\
  (forall d, dict_get d "status" = None -> result_of_payload d = Return (ONone, ODict d)).
Proof.
  intros H Herr success r. subst success r.
  destruct (request_call_fields _ _ _ _ _ _ _ _ _ H) as (_ & _ & _ & _ & ->).
  unfold normalize. rewrite Herr.
  split; [|split; [|split; [|split]]].
  - intros Hd Ht. destruct (fst (answer w call)); try discriminate; reflexivity.
  - intros s -> Hs. cbn [decoded loads]. rewrite Hs. reflexivity.
  - intros s v -> Hs Hv. cbn [decoded loads]. rewrite Hs. cbn [mbind outcome_bind].
    destruct v; try discriminate Hv; reflexivity.
  - intros d [-> | (s & -> & Hs)]; cbn [decoded loads]; rewrite ?Hs; reflexivity.
  - intros d Hd. unfold result_of_payload. rewrite Hd. reflexivity.
Qed.

Lemma request_after_answer_witness :
  new_calls empty_state
    (snd (request world_garbled "GET" "/x" None None None false empty_state))
    [sample_get_call] /\
  obj_truthy (snd (answer world_garbled sample_get_call)) = false /\
  fst (request world_garbled "GET" "/x" None None None false empty_state)
  = Raise JSONDecodeError.
Proof.
  assert (Hc : new_calls empty_state
                 (snd (request world_garbled "GET" "/x" None None None false empty_state))
                 [sample_get_call])
    by (unfold new_calls; vm_compute; reflexivity).
  assert (He : obj_truthy (snd (answer world_garbled sample_get_call)) = false)
    by reflexivity.
  split; [exact Hc|]. split; [exact He|].
  exact (proj1 (proj2 (request_after_answer world_garbled "GET" "/x" None None None false
                         empty_state sample_get_call Hc He)) "not json" eq_refl eq_refl).
Defined.

(** ** What [request] leaves alone *)

Lemma request_heap_other (w : world) (method uri : string) (params : option loc)
    (body : option pydict) (headers : option loc) (auth : bool) (st : state)
    (l : loc) (d : pydict) :
  heap st !! l = Some d ->
  auth = false \/ params <> Some l \/ d = [] ->
  headers <> Some l \/ d = [] ->
  heap (snd (request w method uri params body headers auth st)) !! l = Some d.
Proof.
  intros Hl Hp Hh.
  assert (Htail : forall st1 : state,
             heap st1 !! l = Some d ->
             let h := fst (working_params st1 headers) in
             let hp := <[h := snd (working_params st1 headers)]> (heap st1) in
             <[h := header_entries w method (default [] (hp !! h))]> hp !! l = Some d).
  { intros st1 H1 h hp.
    assert (Hne : h <> l) by (apply (working_params_other st1 headers l d H1 Hh)).
    subst hp. rewrite !lookup_insert_ne by exact Hne. exact H1. }
  destruct (resolve w (this st) uri) as [url|e0] eqn:Hu.
  2:{ rewrite (request_unresolved _ _ _ _ _ _ _ _ _ Hu). exact Hl. }
  destruct auth.
  - assert (Hne : fst (working_params st params) <> l).
    { apply (working_params_other st params l d Hl).
      destruct Hp as [Hp | Hp]; [discriminate | exact Hp]. }
    destruct (generate_signature (lib w) (this st) method (merged_params w st params) uri)
      as [sig|e] eqn:E.
    + rewrite (request_signed _ _ _ _ _ _ _ _ _ Hu E). cbn [snd heap].
      apply (Htail (State (this st) _ (calls st))). cbn [heap].
      rewrite lookup_insert_ne by exact Hne. exact Hl.
    + rewrite (request_signer_raises _ _ _ _ _ _ _ _ _ Hu E). cbn [snd heap].
      rewrite lookup_insert_ne by exact Hne. exact Hl.
  - rewrite (request_unauthenticated _ _ _ _ _ _ _ _ Hu). cbn [snd heap].
    apply (Htail st Hl).
Qed.

Lemma request_calls_grow (w : world) (method uri : string) (params : option loc)
    (body : option pydict) (headers : option loc) (auth : bool) (st : state) :
  exists new, new_calls st (snd (request w method uri params body headers auth st)) new /\
              (length new <= 1)%nat.
Proof.
  destruct (request_ends w method uri params body headers auth st)
    as [(e & _ & Hc) | (call & Hc & _)].
  - exists []. unfold new_calls. rewrite Hc, app_nil_r. split; [reflexivity | simpl; lia].
  - exists [call]. split; [exact Hc | simpl; lia].
Qed.

(** X6.  [request] changes no dictionary but the ones it was handed, and those
    only when they are not empty: every other object, an empty [params]
    dictionary, the [params] of a call without authentication and an empty
    [headers] dictionary are afterwards what they were.  It makes at most one
    call to the transport and keeps the earlier trace. *)
Theorem request_frame (w : world) (method uri : string) (params : option loc)
    (body : option pydict) (headers : option loc) (auth : bool) (st : state)
    (l : loc) (d : pydict) :
  heap st !! l = Some d ->
  auth = false \/ params <> Some l \/ d = [] ->
  headers <> Some l \/ d = [] ->
  let st' := snd (request w method uri params body headers auth st) in
  heap st' !! l = Some d /\
  exists new, new_calls st st' new /\ (length new <= 1)%nat.
Proof.
  intros Hl Hp Hh st'. subst st'.
  split; [apply request_heap_other; assumption | apply request_calls_grow].
Qed.

Lemma request_frame_witness :
  heap (State sample_client {[ 1%positive := [] ]} []) !! 1%positive = Some [] /\
  heap (snd (request world_ok "POST" "/x" (Some 1%positive) None None true
               (State sample_client {[ 1%positive := [] ]} []))) !! 1%positive
  = Some [].
Proof.
  assert (H : heap (State sample_client {[ 1%positive := [] ]} []) !! 1%positive = Some [])
    by reflexivity.
  split; [exact H|].
  exact (proj1 (request_frame world_ok "POST" "/x" (Some 1%positive) None None true
                  (State sample_client {[ 1%positive := [] ]} []) 1%positive []
                  H (or_intror (or_intror eq_refl)) (or_intror eq_refl))).
Defined.

(** ** Headers *)

Lemma header_entries_fixed (w : world) (method : string) (d : pydict) :
  dict_get (header_entries w method d) "User-Agent" = Some (VStr (USER_AGENT w)) /\
  dict_get (header_entries w method d) "Content-type"
  = Some (VStr (if String.eqb method "GET" then "application/x-www-form-urlencoded"
                else "application/json")) /\
  (method <> "GET" ->
   dict_get (header_entries w method d) "Accept" = Some (VStr "application/json")).
Proof.
  unfold header_entries. destruct (String.eqb method "GET") eqn:E.
  - split; [apply dict_get_setitem_eq|]. split.
    + rewrite dict_get_setitem_ne by discriminate. apply dict_get_setitem_eq.
    + intros Hne. apply String.eqb_eq in E. contradiction.
  - split; [apply dict_get_setitem_eq|]. split.
    + rewrite dict_get_setitem_ne by discriminate. apply dict_get_setitem_eq.
    + intros _. rewrite !dict_get_setitem_ne by discriminate. apply dict_get_setitem_eq.
Qed.

(** The headers of the call and the final heap, from the state [st1] in which
    the headers dictionary is chosen. *)
Lemma request_headers_run (w : world) (method uri : string) (params : option loc)
    (body : option pydict) (headers : option loc) (auth : bool) (st : state)
    (call : fetch_call) :
  new_calls st (snd (request w method uri params body headers auth st)) [call] ->
  exists st1 : state,
    (forall l d, heap st !! l = Some d ->
                 auth = false \/ params <> Some l -> heap st1 !! l = Some d) /\
    (forall l d, heap st !! l = Some d -> d <> [] ->
                 exists d1, heap st1 !! l = Some d1 /\ d1 <> []) /\
    let h := fst (working_params st1 headers) in
    fc_headers call = header_entries w method (snd (working_params st1 headers)) /\
    heap (snd (request w method uri params body headers auth st)) !! h
    = Some (fc_headers call).
Proof.
  intros H.
  destruct (resolve w (this st) uri) as [url|e0] eqn:Hu.
  2:{ rewrite (request_unresolved _ _ _ _ _ _ _ _ _ Hu) in H. cbn [snd] in H.
      exfalso. eapply new_calls_none; [|exact H]. reflexivity. }
  destruct auth.
  - destruct (generate_signature (lib w) (this st) method (merged_params w st params) uri)
      as [sig|e] eqn:E.
    + rewrite (request_signed _ _ _ _ _ _ _ _ _ Hu E) in *. cbn [fst snd] in *.
      unfold new_calls in H. cbn [calls] in H. apply app_inv_head in H. injection H as <-.
      exists (State (this st)
                (<[fst (working_params st params) := signed_params w st params sig]> (heap st))
                (calls st)).
      split; [|split].
      * intros l d Hl [Hf | Hp]; [discriminate|]. cbn [heap].
        rewrite lookup_insert_ne; [exact Hl|].
        apply (working_params_other st params l d Hl). left. exact Hp.
      * intros l d Hl Hd. cbn [heap].
        destruct (decide (fst (working_params st params) = l)) as [<- | Hne].
        -- rewrite lookup_insert_eq. eexists. split; [reflexivity|].
           apply dict_setitem_not_nil.
        -- rewrite lookup_insert_ne by exact Hne. eauto.
      * cbn zeta. unfold call_of. cbn [fc_headers heap].
        rewrite !lookup_insert_eq. split; reflexivity.
    + rewrite (request_signer_raises _ _ _ _ _ _ _ _ _ Hu E) in H. cbn [snd] in H.
      exfalso. eapply new_calls_none; [|exact H]. reflexivity.
  - rewrite (request_unauthenticated _ _ _ _ _ _ _ _ Hu) in *. cbn [fst snd] in *.
    unfold new_calls in H. cbn [calls] in H. apply app_inv_head in H. injection H as <-.
    exists st. split; [auto|]. split; [eauto|].
    cbn zeta. unfold call_of. cbn [fc_headers heap].
    rewrite !lookup_insert_eq. split; reflexivity.
Qed.

(** X7.  The headers of every call hold the user agent and the content type
    of the verb (and [Accept] for a verb other than [GET]), whatever the
    caller put under these keys.  A non-empty headers dictionary of the caller
    is completed in place, and its other entries are sent as they were; with
    no headers, or an empty dictionary, exactly the fixed entries are sent. *)
Theorem request_headers (w : world) (method uri : string) (params : option loc)
    (body : option pydict) (headers : option loc) (auth : bool) (st : state)
    (call : fetch_call) :
  new_calls st (snd (request w method uri params body headers auth st)) [call] ->
  let st' := snd (request w method uri params body headers auth st) in
  dict_get (fc_headers call) "User-Agent" = Some (VStr (USER_AGENT w)) /\
  dict_get (fc_headers call) "Content-type"
  = Some (VStr (if String.eqb method "GET" then "application/x-www-form-urlencoded"
                else "application/json")) /\
  (method <> "GET" -> dict_get (fc_headers call) "Accept" = Some (VStr "application/json")) /\
  (forall lh hd0, headers = Some lh -> heap st !! lh = Some hd0 -> hd0 <> [] ->
     heap st' !! lh = Some (fc_headers call) /\
     (auth = false \/ params <> Some lh ->
      forall k, ~ In k header_keys -> dict_get (fc_headers call) k = dict_get hd0 k)) /\
  (headers = None \/
   (exists lh, headers = Some lh /\ heap st !! lh = Some [] /\
               (auth = false \/ params <> Some lh)) ->
   fc_headers call = header_entries w method []).
Proof.
  intros H st'. subst st'.
  destruct (request_headers_run _ _ _ _ _ _ _ _ _ H)
    as (st1 & Hsame & Hnonempty & Hhd & Hfin).
  rewrite Hhd.
  destruct (header_entries_fixed w method (snd (working_params st1 headers)))
    as (Hua & Hct & Hacc).
  split; [exact Hua|]. split; [exact Hct|]. split; [exact Hacc|]. split.
  - intros lh hd0 -> Hl Hne.
    destruct (Hnonempty lh hd0 Hl Hne) as (d1 & Hd1 & Hne1).
    assert (Hw : working_params st1 (Some lh) = (lh, d1)).
    { unfold working_params. rewrite Hd1. cbn [default from_option id].
      destruct d1; [congruence | reflexivity]. }
    rewrite Hw in *. cbn [fst snd] in *. split.
    + rewrite Hfin, Hhd. reflexivity.
    + intros Hp k Hk. rewrite (Hsame lh hd0 Hl Hp) in Hd1. injection Hd1 as <-.
      apply header_entries_get. exact Hk.
  - intros [-> | (lh & -> & Hl & Hp)]; [reflexivity|].
    unfold working_params. rewrite (Hsame lh [] Hl Hp). reflexivity.
Qed.

Lemma request_headers_witness :
  new_calls empty_state
    (snd (request world_ok "GET" "/x" None None None false empty_state)) [sample_get_call] /\
  dict_get (fc_headers sample_get_call) "User-Agent" = Some (VStr "AlphaQuant").
Proof.
  assert (Hc : new_calls empty_state
                 (snd (request world_ok "GET" "/x" None None None false empty_state))
                 [sample_get_call])
    by (unfold new_calls; vm_compute; reflexivity).
  split; [exact Hc|].
  exact (proj1 (request_headers world_ok "GET" "/x" None None None false empty_state
                  sample_get_call Hc)).
Defined.

(** ** Two authenticated calls with one dictionary *)

(** X8.  The signature that an authenticated call, once its URL is formed,
    leaves in the caller's dictionary is part of what the next call with that
    dictionary signs: the mapping signed then holds the earlier [Signature]
    entry, beside the timestamp of the new call. *)
Theorem request_signs_earlier_signature (w w' : world) (method uri : string) (l : loc)
    (d : pydict) (body : option pydict) (st : state) (url sig : string) :
  heap st !! l = Some d -> d <> [] ->
  resolve w (this st) uri = Return url ->
  generate_signature (lib w) (this st) method (merged_params w st (Some l)) uri
  = Return sig ->
  let st1 := snd (request w method uri (Some l) body None true st) in
  dict_get (merged_params w' st1 (Some l)) "Signature" = Some (VStr sig) /\
  dict_get (merged_params w' st1 (Some l)) "Timestamp" = Some (VStr (strftime (utcnow w'))).
Proof.
  intros Hl Hd Hu Hsig st1.
  assert (Hw : working_params st (Some l) = (l, d)).
  { unfold working_params. rewrite Hl. cbn [default from_option id].
    destruct d; [congruence | reflexivity]. }
  assert (H1 : heap st1 !! l = Some (signed_params w st (Some l) sig)).
  { subst st1. rewrite (request_signed _ _ _ _ _ _ _ _ _ Hu Hsig). cbn [snd heap].
    rewrite Hw. cbn [fst].
    destruct (params_after_signing w method None st l (signed_params w st (Some l) sig)
                (dict_setitem_not_nil _ _ _)) as [[_ Hfin] | [Habs _]];
      [exact Hfin | discriminate]. }
  assert (Hw1 : snd (working_params st1 (Some l)) = signed_params w st (Some l) sig).
  { unfold working_params. rewrite H1. cbn [default from_option id].
    destruct (signed_params w st (Some l) sig) eqn:E; [|reflexivity].
    exfalso. exact (dict_setitem_not_nil _ _ _ E). }
  unfold merged_params at 1. rewrite Hw1. split.
  - rewrite merged_keeps by (unfold auth_fields, dict_keys; simpl; intuition discriminate).
    apply dict_get_setitem_eq.
  - apply merged_fields.
Qed.

Lemma request_signs_earlier_signature_witness :
  heap caller_state !! 1%positive = Some [("contract_code", VStr "BTC-USDT")] /\
  dict_get (merged_params world_error
              (snd (request world_ok "POST" "/linear-swap-api/v1/swap_cross_order"
                      (Some 1%positive) None None true caller_state))
              (Some 1%positive)) "Signature"
  = Some (VStr "nRMH4cUhlzzYZS7ttRIh8zZOeC6ySnhVBJ73m5Yc5V0=").
Proof.
  assert (H1 : heap caller_state !! 1%positive = Some [("contract_code", VStr "BTC-USDT")])
    by reflexivity.
  split; [exact H1|].
  exact (proj1 (request_signs_earlier_signature world_ok world_error "POST"
                  "/linear-swap-api/v1/swap_cross_order" 1%positive _ None caller_state
                  "https://api.hbdm.com/linear-swap-api/v1/swap_cross_order"
                  "nRMH4cUhlzzYZS7ttRIh8zZOeC6ySnhVBJ73m5Yc5V0=" H1
                  ltac:(discriminate) eq_refl ltac:(vm_compute; reflexivity))).
Defined.

(** ** The calls of the endpoint methods *)

(** X9.  Every market-data endpoint makes exactly one call whenever
    [urljoin] returns a URL for the base host and the fixed path, whatever the
    arguments: a [GET] of that URL with the mapping it built as the query, no
    body, no authentication entry, the two fixed headers and the timeout 10;
    its result is the normalised answer.  When [urljoin] raises, the method
    raises the same exception and makes no call. *)
Theorem market_data_call (w : world) (c : api_call) (d : pydict) (st : state) :
  sends_query c = true -> mapping_of c = Return d ->
  match urljoin w (_host (this st)) (uri_of c) with
  | Return url =>
      let call := get_call w url d in
      calls (snd (perform w c st)) = (calls st ++ [call])%list /\
      fst (perform w c st) = normalize w (fst (answer w call)) (snd (answer w call))
  | Raise e =>
      fst (perform w c st) = Raise e /\ calls (snd (perform w c st)) = calls st
  end.
Proof.
  intros Hq Hd.
  assert (Hres : resolve w (this st) (uri_of c) = urljoin w (_host (this st)) (uri_of c))
    by (destruct c; try discriminate Hq; reflexivity).
  destruct (urljoin w (_host (this st)) (uri_of c)) as [url|e] eqn:Hu.
  - pose proof (perform_run w c d st url Hd Hres) as Hrun. rewrite Hq in Hrun. exact Hrun.
  - destruct c; try discriminate Hq; cbn [perform uri_of] in *; unfold_methods; cbn zeta;
      unfold mbind, M_bind, alloc;
      match goal with
      | |- context [request w ?m ?u ?p ?b ?h ?a ?s] =>
          rewrite (request_unresolved w m u p b h a s e Hres)
      end; split; reflexivity.
Qed.

Lemma market_data_call_witness :
  sends_query (GetOrderbook (VStr "BTC-USDT")) = true /\
  calls (snd (perform world_ok (GetOrderbook (VStr "BTC-USDT")) empty_state))
  = [ FetchCall "GET" "https://api.hbdm.com/linear-swap-ex/market/depth"
        (Some [("contract_code", VStr "BTC-USDT"); ("type", VStr "step0")]) None
        [ ("Content-type", VStr "application/x-www-form-urlencoded");
          ("User-Agent", VStr "AlphaQuant") ] 10 ].
Proof.
  split; [reflexivity|].
  exact (proj1 (market_data_call world_ok (GetOrderbook (VStr "BTC-USDT")) _ empty_state
                  eq_refl eq_refl)).
Defined.

(** X10.  Every account, order and transfer endpoint that builds a body sends
    it, once its URL is formed, with [POST] to that URL, and signs the four
    authentication entries only: the query mapping is these entries and the
    signature, and the signature does not depend on the body.  When the signer
    raises, the method raises and the transport is not called. *)
Theorem signed_endpoint_call (w : world) (c : api_call) (d : pydict) (st : state)
    (url : string) :
  sends_query c = false -> mapping_of c = Return d ->
  resolve w (this st) (uri_of c) = Return url ->
  match generate_signature (lib w) (this st) "POST" (auth_fields w (this st)) (uri_of c) with
  | Return sig =>
      let call := post_call w (this st) url d sig in
      calls (snd (perform w c st)) = (calls st ++ [call])%list /\
      fst (perform w c st) = normalize w (fst (answer w call)) (snd (answer w call))
  | Raise e => fst (perform w c st) = Raise e /\ calls (snd (perform w c st)) = calls st
  end.
Proof.
  intros Hq Hd Hu.
  pose proof (perform_run w c d st url Hd Hu) as Hrun. rewrite Hq in Hrun. exact Hrun.
Qed.

Lemma signed_endpoint_call_witness :
  sends_query (RevokeOrderAll (VStr "BTC-USDT")) = false /\
  calls (snd (perform world_ok (RevokeOrderAll (VStr "BTC-USDT")) empty_state))
  = [ post_call world_ok sample_client
        "https://api.hbdm.com/linear-swap-api/v1/swap_cross_cancelall"
        [("contract_code", VStr "BTC-USDT")] "Al6MQL5a0wUOy0XKIeuCtTRIyMDHYIAyRWtjmuhACPE=" ].
Proof.
  split; [reflexivity|].
  pose proof (signed_endpoint_call world_ok (RevokeOrderAll (VStr "BTC-USDT")) _ empty_state
                "https://api.hbdm.com/linear-swap-api/v1/swap_cross_cancelall"
                eq_refl eq_refl eq_refl) as H.
  assert (E : generate_signature (lib world_ok) (this empty_state) "POST"
                (auth_fields world_ok (this empty_state))
                (uri_of (RevokeOrderAll (VStr "BTC-USDT")))
              = Return "Al6MQL5a0wUOy0XKIeuCtTRIyMDHYIAyRWtjmuhACPE=") by (vm_compute; reflexivity).
  rewrite E in H. exact (proj1 H).
Defined.

(** ** What the endpoint methods leave alone *)

Lemma alloc_lookup (d0 : pydict) (st : state) (l : loc) (d : pydict) :
  heap st !! l = Some d -> heap (snd (alloc d0 st)) !! l = Some d.
Proof.
  intros Hl. unfold alloc. cbn [snd heap].
  rewrite lookup_insert_ne; [exact Hl|].
  intros Hf. pose proof (is_fresh (dom (heap st))) as Hfresh.
  rewrite Hf in Hfresh. apply Hfresh. apply elem_of_dom. eauto.
Qed.

(** X11.  No endpoint method touches a dictionary that exists when it is
    called: each works on new objects, so, unlike [request], it leaves nothing
    for the caller to see but its result.  Each makes at most one call to the
    transport. *)
Theorem endpoint_frame (w : world) (c : api_call) (st : state) (l : loc) (d : pydict) :
  heap st !! l = Some d ->
  heap (snd (perform w c st)) !! l = Some d /\
  exists new, new_calls st (snd (perform w c st)) new /\ (length new <= 1)%nat.
Proof.
  intros Hl.
  destruct c; cbn [perform]; unfold_methods; cbn zeta;
    try (split; [apply request_heap_other; [exact Hl | right; left; discriminate
                                            | left; discriminate]
                | apply request_calls_grow]);
    try (unfold mbind, M_bind;
         match goal with
         | |- context [alloc ?d0 st] =>
             pose proof (alloc_lookup d0 st l d Hl) as Hl';
             assert (Hc : calls (snd (alloc d0 st)) = calls st) by reflexivity;
             destruct (alloc d0 st) as [[p|e] st0] eqn:Ea; [|discriminate Ea];
             cbn [snd] in Hl', Hc
         end;
         split; [apply request_heap_other; [exact Hl' | left; reflexivity | left; discriminate]|];
         unfold new_calls; rewrite <- Hc; apply request_calls_grow).
  (* get_trigger_hisorders *)
  unfold get_trigger_hisorders, mbind, M_bind, lift.
  cbn. split; [exact Hl|]. exists []. unfold new_calls. rewrite app_nil_r.
  split; [reflexivity | simpl; lia].
Qed.

Lemma endpoint_frame_witness :
  heap caller_state !! 1%positive = Some [("contract_code", VStr "BTC-USDT")] /\
  heap (snd (perform world_ok (GetPosition (VStr "BTC-USDT")) caller_state)) !! 1%positive
  = Some [("contract_code", VStr "BTC-USDT")].
Proof.
  assert (H : heap caller_state !! 1%positive = Some [("contract_code", VStr "BTC-USDT")])
    by reflexivity.
  split; [exact H|].
  exact (proj1 (endpoint_frame world_ok (GetPosition (VStr "BTC-USDT")) caller_state
                  1%positive _ H)).
Defined.

(** ** Keyword arguments of [create_order] *)

(** X12.  A keyword argument of [create_order] is sent whenever it is not
    [None], also when it is [0], empty or [False] (the named optional
    arguments are dropped then); given as [None] it changes nothing.  A
    keyword named like a key of the body, such as [volume], replaces the value
    of the positional argument. *)
Theorem create_order_kwargs (contract_code price quantity direction offset lever_rate
    order_price_type client_order_id : value) (kwargs : pydict) (k : string) (v : value) :
  dict_wf kwargs -> In (k, v) kwargs ->
  let body := create_order_body contract_code price quantity direction offset lever_rate
                order_price_type client_order_id kwargs in
  (v <> VNone -> dict_get body k = Some v) /\
  (v = VNone ->
   dict_get body k
   = dict_get (create_order_body contract_code price quantity direction offset lever_rate
                 order_price_type client_order_id []) k).
Proof.
  intros Hwf Hin body. subst body. unfold create_order_body. cbn zeta.
  pose proof (dict_get_in_wf kwargs k v Hwf Hin) as Hget.
  split; intros Hv.
  - apply kwargs_fold_get_in; [exact Hwf | exact Hin|].
    rewrite Hget. destruct v; [contradiction | reflexivity..].
  - subst v. cbn [fold_left].
    generalize (update_if
                  [("contract_code", contract_code); ("price", price); ("volume", quantity);
                   ("direction", direction); ("offset", offset); ("lever_rate", lever_rate);
                   ("order_price_type", order_price_type)]
                  "client_order_id" client_order_id) as base.
    intros base.
    assert (Hskip : forall (rest : pydict) (b : pydict),
               (forall v', In (k, v') rest -> v' = VNone) ->
               (forall k' v', In (k', v') rest -> dict_get kwargs k' = Some v') ->
               dict_get (fold_left (fun body kv =>
                                      if is_not_none (dict_get kwargs (fst kv))
                                      then dict_update body [(fst kv, snd kv)] else body)
                                   rest b) k
               = dict_get b k).
    { induction rest as [|[k0 v0] rest IH]; intros b Hk Hall; [reflexivity|].
      cbn [fold_left fst snd]. rewrite IH.
      - destruct (is_not_none (dict_get kwargs k0)) eqn:E; [|reflexivity].
        unfold dict_update. cbn [fold_left fst snd].
        apply dict_get_setitem_ne. intros ->.
        rewrite (Hall k v0 (or_introl eq_refl)) in E.
        rewrite (Hk v0 (or_introl eq_refl)) in E. discriminate.
      - intros v' H'. apply Hk. right. exact H'.
      - intros k' v' H'. apply Hall. right. exact H'. }
    apply Hskip.
    + intros v' H'. pose proof (dict_get_in_wf kwargs k v' Hwf H') as G. congruence.
    + intros k' v' H'. apply dict_get_in_wf; assumption.
Qed.

Lemma create_order_kwargs_witness :
  dict_wf [("volume", VInt 5); ("sl_trigger_price", VInt 0)] /\
  dict_get (create_order_body (VStr "BTC-USDT") (VInt 1) (VInt 1) (VStr "buy") (VStr "open")
              (VInt 20) (VStr "limit") VNone
              [("volume", VInt 5); ("sl_trigger_price", VInt 0)]) "volume"
  = Some (VInt 5).
Proof.
  assert (Hwf : dict_wf [("volume", VInt 5); ("sl_trigger_price", VInt 0)]).
  { unfold dict_wf, dict_keys. simpl. repeat constructor; simpl; intuition discriminate. }
  split; [exact Hwf|].
  exact (proj1 (create_order_kwargs (VStr "BTC-USDT") (VInt 1) (VInt 1) (VStr "buy")
                  (VStr "open") (VInt 20) (VStr "limit") VNone _ "volume" (VInt 5) Hwf
                  (or_introl eq_refl)) ltac:(discriminate)).
Defined.

(** ** One identifier and many *)

(** X13.  Cancelling the one-element list [[i]] with [revoke_orders] is the
    call [revoke_order] makes for the identifier [i], as long as [i] is not
    the empty text; an empty identifier is sent by [revoke_orders] and dropped
    by [revoke_order]. *)
Theorem revoke_orders_single (w : world) (contract_code : value) (i : string) :
  (i <> "" ->
   revoke_orders w contract_code (Some [i]) None = revoke_order w contract_code (VStr i) VNone) /\
  dict_get (revoke_orders_body contract_code (Some [""]) None) "order_id" = Some (VStr "") /\
  dict_get (revoke_order_body contract_code (VStr "") VNone) "order_id" = None.
Proof.
  split; [|split; reflexivity].
  intros Hne. unfold revoke_orders, revoke_order, revoke_orders_body, revoke_order_body.
  cbn zeta. unfold set_joined, set_if. cbn [truthy join String.concat].
  apply String.eqb_neq in Hne. rewrite Hne. reflexivity.
Qed.

Lemma revoke_orders_single_witness :
  "42" <> "" /\
  revoke_orders world_ok (VStr "BTC-USDT") (Some ["42"]) None
  = revoke_order world_ok (VStr "BTC-USDT") (VStr "42") VNone.
Proof.
  assert (H : "42" <> "") by discriminate.
  split; [exact H|].
  exact (proj1 (revoke_orders_single world_ok (VStr "BTC-USDT") "42") H).
Defined.

Lemma join_cons (sep x : string) (l : list string) :
  l <> [] -> join sep (x :: l) = x ++ sep ++ join sep l.
Proof. destruct l; [contradiction | reflexivity]. Qed.

(** X14.  The comma-joined text of a list of identifiers splits back into the
    list at the commas, provided the list is not empty and no identifier
    holds a comma. *)
Theorem joined_ids_split_back (ids : list string) :
  ids <> [] -> List.Forall (fun i => contains "," i = false) ids ->
  split "," (join "," ids) = ids.
Proof.
  induction ids as [|i ids IH]; intros Hne Hall; [contradiction|].
  inversion Hall as [|? ? Hi Hrest]; subst.
  destruct ids as [|j ids].
  - cbn [join String.concat]. apply split_absent. exact Hi.
  - rewrite join_cons by discriminate.
    change ("," ++ join "," (j :: ids)) with (String "," (join "," (j :: ids))).
    rewrite (split_found "," i _ Hi), IH; [reflexivity | discriminate | exact Hrest].
Qed.

Lemma joined_ids_split_back_witness :
  ["1"; "2"; "3"] <> [] /\
  split "," (join "," ["1"; "2"; "3"]) = ["1"; "2"; "3"].
Proof.
  assert (H : ["1"; "2"; "3"] <> ([] : list string)) by discriminate.
  split; [exact H|].
  exact (joined_ids_split_back ["1"; "2"; "3"] H
           ltac:(repeat constructor)).
Defined.

(** ** The query string *)

Lemma quote_plus_cons (c : ascii) (s : string) :
  Urllib.quote_plus (String c s) = Urllib.quote_plus (String c "") ++ Urllib.quote_plus s.
Proof.
  cbn [Urllib.quote_plus].
  destruct (Ascii.eqb c " "); [reflexivity|].
  destruct (Urllib.always_safe c); reflexivity.
Qed.

Lemma quote_plus_char (c : ascii) :
  all_chars query_char (Urllib.quote_plus (String c "")) = true.
Proof. destruct c as [[] [] [] [] [] [] [] []]; reflexivity. Qed.

Lemma quote_plus_chars (s : string) :
  all_chars query_char (Urllib.quote_plus s) = true.
Proof.
  induction s as [|c s IH]; [reflexivity|].
  rewrite quote_plus_cons, all_chars_app, quote_plus_char, IH. reflexivity.
Qed.

Lemma join_chars (p : ascii -> bool) (sep : string) (l : list string) :
  all_chars p sep = true -> List.Forall (fun x => all_chars p x = true) l ->
  all_chars p (join sep l) = true.
Proof.
  intros Hsep. unfold join. induction l as [|x l IH]; intros H; [reflexivity|].
  inversion H as [|? ? Hx Hl]; subst. cbn [String.concat].
  destruct l as [|y l]; [exact Hx|].
  rewrite !all_chars_app, Hx, Hsep. cbn [andb]. apply IH. exact Hl.
Qed.

Lemma all_chars_contains (p : ascii -> bool) (s : string) (c : ascii) :
  all_chars p s = true -> p c = false -> contains c s = false.
Proof.
  induction s as [|x s IH]; [reflexivity|].
  cbn [all_chars contains]. intros H Hc. apply andb_prop in H as [Hx Hs].
  rewrite (IH Hs Hc), orb_false_r.
  destruct (Ascii.eqb x c) eqn:E; [|reflexivity].
  apply Ascii.eqb_eq in E. subst x. congruence.
Qed.

(** X15.  The query string that is signed holds unreserved characters and the
    signs [+], [%], [=] and [&] only, whatever the keys and values are: no
    newline (which would add a line to the payload), no space, no byte outside
    ASCII. *)
Theorem signed_query_is_plain (params : pydict) :
  let query := Urllib.urlencode (sorted_by_key params) in
  all_chars query_char query = true /\
  contains (ascii_of_nat 10) query = false /\
  contains " " query = false /\
  (forall c, (128 <=? N_of_ascii c)%N = true -> contains c query = false).
Proof.
  intros query.
  assert (H : all_chars query_char query = true).
  { subst query. unfold Urllib.urlencode. apply join_chars; [reflexivity|].
    apply List.Forall_forall. intros x Hx. apply in_map_iff in Hx as ([k v] & <- & _).
    cbn [fst snd]. rewrite !all_chars_app, !quote_plus_chars. reflexivity. }
  split; [exact H|]. split; [|split].
  - apply (all_chars_contains _ _ _ H). reflexivity.
  - apply (all_chars_contains _ _ _ H). reflexivity.
  - intros c Hc. apply (all_chars_contains _ _ _ H).
    destruct c as [[] [] [] [] [] [] [] []]; (discriminate Hc || reflexivity).
Qed.








(** ** A base host without an authority *)

Lemma contains_lstrip (c : ascii) (p : ascii -> bool) (s : string) :
  contains c s = false -> contains c (lstrip p s) = false.
Proof.
  induction s as [|x s IH]; [reflexivity|]. cbn [lstrip]. intros H.
  destruct (p x); [|exact H].
  cbn [contains] in H. apply orb_false_elim in H as [_ Hs]. apply IH. exact Hs.
Qed.

Lemma contains_remove_char (c b : ascii) (s : string) :
  contains c s = false -> contains c (remove_char b s) = false.
Proof.
  induction s as [|x s IH]; [reflexivity|]. cbn [remove_char contains]. intros H.
  apply orb_false_elim in H as [Hx Hs].
  destruct (Ascii.eqb x b); [apply IH; exact Hs|].
  cbn [contains]. rewrite Hx, (IH Hs). reflexivity.
Qed.

Lemma contains_sanitize (c : ascii) (s : string) :
  contains c s = false -> contains c (Urllib.sanitize s) = false.
Proof.
  intros H. unfold Urllib.sanitize, Urllib.remove_unsafe, Urllib.unsafe_url_bytes.
  cbn [fold_left]. repeat apply contains_remove_char. apply contains_lstrip. exact H.
Qed.

(** A URL without a colon whose text, as [urlsplit] reads it, does not start
    with [//] has no authority, hence no host name. *)
Lemma hostname_without_authority (L : library) (host : string) :
  contains ":" host = false -> startswith (Urllib.sanitize host) "//" = false ->
  Urllib.hostname L host = Return None.
Proof.
  intros Hc Hs. apply contains_sanitize in Hc.
  unfold Urllib.hostname, Urllib.netloc, Urllib.strip_scheme.
  revert Hc Hs. generalize (Urllib.sanitize host) as url. intros url Hc Hs.
  rewrite (partition_absent ":" url Hc).
  assert (Hstrip : match url with
                   | String c _ =>
                       if false && is_alpha c && all_chars Urllib.scheme_char url
                       then "" else url
                   | EmptyString => url
                   end = url) by (destruct url; reflexivity).
  rewrite Hstrip.
  destruct url as [|c1 url]; [reflexivity|].
  destruct c1 as [[] [] [] [] [] [] [] []]; try reflexivity.
  destruct url as [|c2 url]; [reflexivity|].
  destruct c2 as [[] [] [] [] [] [] [] []]; try reflexivity.
  unfold startswith in Hs. cbn in Hs. destruct url; discriminate.
Qed.

Lemma generate_signature_without_authority (L : library) (self : client) (method : string)
    (params : pydict) (request_path : string) :
  contains ":" (_host self) = false ->
  startswith (Urllib.sanitize (_host self)) "//" = false ->
  is_absolute request_path = false ->
  generate_signature L self method params request_path = Raise AttributeError.
Proof.
  intros Hc Hs Hrel. unfold generate_signature, signing_payload, signing_target.
  rewrite Hrel, (hostname_without_authority L _ Hc Hs). reflexivity.
Qed.

(** X17.  A base host that is not a URL with an authority (no colon, and no
    [//] at the start of what [urlsplit] reads, such as a bare [api.hbdm.com])
    has no host name: the signer raises [AttributeError] for every relative
    path, so every endpoint that signs a relative path raises before the
    transport is called, whatever its arguments: [AttributeError] when
    [urljoin] returns, and what [urljoin] raises otherwise. *)
Theorem bare_host_cannot_sign (w : world) (st : state) :
  contains ":" (_host (this st)) = false ->
  startswith (Urllib.sanitize (_host (this st))) "//" = false ->
  (forall L method params request_path,
     is_absolute request_path = false ->
     generate_signature L (this st) method params request_path = Raise AttributeError) /\
  (forall c d,
     sends_query c = false -> mapping_of c = Return d -> is_absolute (uri_of c) = false ->
     calls (snd (perform w c st)) = calls st /\
     match urljoin w (_host (this st)) (uri_of c) with
     | Return _ => fst (perform w c st) = Raise AttributeError
     | Raise e => fst (perform w c st) = Raise e
     end).
Proof.
  intros Hc Hs. split.
  - intros L method params request_path Hrel.
    apply generate_signature_without_authority; assumption.
  - intros c d Hq Hd Hrel.
    pose proof (generate_signature_without_authority (lib w) (this st) "POST"
                  (auth_fields w (this st)) (uri_of c) Hc Hs Hrel) as E.
    assert (Hres : resolve w (this st) (uri_of c) = urljoin w (_host (this st)) (uri_of c))
      by (unfold resolve; rewrite Hrel; reflexivity).
    destruct (urljoin w (_host (this st)) (uri_of c)) as [url|e] eqn:Hu.
    + pose proof (perform_run w c d st url Hd Hres) as Hrun.
      rewrite Hq, E in Hrun. destruct Hrun as [Hr Hcalls]. split; assumption.
    + destruct c; try discriminate Hq; try discriminate Hrel; cbn [mapping_of] in Hd;
        try (unfold get_trigger_hisorders_body in Hd; cbn in Hd; discriminate Hd);
        cbn [perform uri_of] in *; unfold_methods; cbn zeta;
        rewrite (request_unresolved _ _ _ _ _ _ _ _ _ Hres); split; reflexivity.
Qed.

Lemma bare_host_cannot_sign_witness :
  contains ":" (_host (this (State (__init__ "api.hbdm.com" "k" "secret") ∅ []))) = false /\
  calls (snd (perform world_ok (GetPosition VNone)
                (State (__init__ "api.hbdm.com" "k" "secret") ∅ []))) = [] /\
  fst (perform world_ok (GetPosition VNone)
         (State (__init__ "api.hbdm.com" "k" "secret") ∅ []))
  = Raise AttributeError.
Proof.
  split; [reflexivity|].
  exact (proj2 (bare_host_cannot_sign world_ok
                  (State (__init__ "api.hbdm.com" "k" "secret") ∅ [])
                  eq_refl eq_refl)
           (GetPosition VNone) _ eq_refl eq_refl eq_refl).
Defined.

(** X18.  [transfer_between_spot_swap] always reaches the transport, whatever
    the client's base host is: its call goes to
    [https://api.huobi.pro/v2/account/transfer] itself (the base host is not
    joined), and what is signed names the host [api.huobi.pro] and the path
    [/v2/account/transfer]. *)
Theorem transfer_between_spot_swap_call (w : world)
    (margin_account amount from_ to : value) (currency : option value) (st : state) :
  let uri := "https://api.huobi.pro/v2/account/transfer" in
  let body := transfer_between_spot_swap_body margin_account amount from_ to currency in
  exists sig,
    signing_payload (lib w) (this st) "POST" (auth_fields w (this st)) uri
    = Return ("POST" ++ nl ++ "api.huobi.pro" ++ nl ++ "/v2/account/transfer" ++ nl
              ++ Urllib.urlencode (sorted_by_key (auth_fields w (this st)))) /\
    generate_signature (lib w) (this st) "POST" (auth_fields w (this st)) uri = Return sig /\
    calls (snd (transfer_between_spot_swap w margin_account amount from_ to currency st))
    = (calls st ++ [post_call w (this st) uri body sig])%list /\
    fc_url (post_call w (this st) uri body sig) = uri.
Proof.
  intros uri body.
  assert (Ht : signing_target (lib w) (this st) uri
               = Return ("api.huobi.pro", "/v2/account/transfer"))
    by reflexivity.
  assert (Hp : signing_payload (lib w) (this st) "POST" (auth_fields w (this st)) uri
               = Return ("POST" ++ nl ++ "api.huobi.pro" ++ nl ++ "/v2/account/transfer" ++ nl
                         ++ Urllib.urlencode (sorted_by_key (auth_fields w (this st))))).
  { unfold signing_payload. rewrite Ht. reflexivity. }
  pose proof (request_post_run w uri body st uri eq_refl) as Hrun. cbn zeta in Hrun.
  unfold generate_signature in *. rewrite Hp in *. cbn [mbind outcome_bind] in *.
  eexists. split; [reflexivity|]. split; [reflexivity|].
  split; [exact (proj1 Hrun) | reflexivity].
Qed.
